(** * Optimistic mutations of plasmic-supabase

    A shallow embedding of [useOptimisticOperations.ts] (the optimistic
    transforms and their selector) and of [useMutationWithOptimisticUpdates.ts]
    ([handleMutation]), with the properties of the written specification
    stated and proved over it. *)

From Stdlib Require Import ZArith String List Bool Lia Permutation.
From Stdlib Require Import Floats.
From stdpp Require Import base option gmap strings.

Import ListNotations.
Local Open Scope string_scope.
Local Open Scope Z_scope.
Local Open Scope list_scope.

(** ** JavaScript values

    Column values of a row are what JSON and the backend give: [undefined]
    (a missing property), [null], booleans, numbers (IEEE 754 doubles, here
    Rocq's primitive binary64 floats), strings, and objects or arrays, which
    JavaScript compares by reference.  The transforms only apply [typeof]
    and [===] to column values, so an object is represented by its
    reference. *)
Module Js.

Inductive value : Type :=
  | Undefined
  | Null
  | Boolean (b : bool)
  | Number (x : float)
  | Str (s : string)
  | Object (ref : positive).

(** [typeof v] *)
Definition typeof (v : value) : string :=
  match v with
  | Undefined => "undefined"
  | Null => "object"
  | Boolean _ => "boolean"
  | Number _ => "number"
  | Str _ => "string"
  | Object _ => "object"
  end.

(** [a === b]: numbers by IEEE equality ([NaN] differs from itself, [+0]
    equals [-0]), strings by content, objects by reference. *)
Definition strict_eq (a b : value) : bool :=
  match a, b with
  | Undefined, Undefined => true
  | Null, Null => true
  | Boolean x, Boolean y => Bool.eqb x y
  | Number x, Number y => PrimFloat.eqb x y
  | Str x, Str y => String.eqb x y
  | Object x, Object y => Pos.eqb x y
  | _, _ => false
  end.

(** [a !== b] *)
Definition strict_neq (a b : value) : bool := negb (strict_eq a b).

(** A property read [o[k]] on a plain object: [undefined] when the
    property is missing. *)
Definition get (o : gmap string value) (k : string) : value :=
  default Undefined (o !! k).

(** [n || 0] and [n || null] on a count that is a number or [null]/[undefined]:
    [0] is falsy.  Counts are row counts, so they are integers. *)
Definition or_zero (n : option Z) : Z :=
  match n with
  | Some k => if Z.eqb k 0 then 0 else k
  | None => 0
  end.

Definition or_null (n : option Z) : option Z :=
  match n with
  | Some k => if Z.eqb k 0 then None else Some k
  | None => None
  end.

End Js.

(** ** Strict equality is a partial equivalence

    IEEE equality identifies the two zeros, separates [NaN] from everything,
    and is otherwise equality of the represented number; [SFkey] names the
    class of a float under it. *)

Definition SFkey (a : SpecFloat.spec_float) : option SpecFloat.spec_float :=
  match a with
  | SpecFloat.S754_nan => None
  | SpecFloat.S754_zero _ => Some (SpecFloat.S754_zero false)
  | _ => Some a
  end.

Lemma SFeqb_key (a b : SpecFloat.spec_float) :
  SpecFloat.SFeqb a b = true <-> exists k, SFkey a = Some k /\ SFkey b = Some k.
Proof.
  unfold SpecFloat.SFeqb, SpecFloat.SFcompare.
  destruct a as [sa|sa| |sa ma ea], b as [sb|sb| |sb mb eb]; simpl;
    try destruct sa; try destruct sb; simpl;
    try (split; [discriminate | intros (k & H1 & H2); congruence]);
    try (split; [intros _; eexists; split; reflexivity | reflexivity]).
  all: change (PosDef.Pos.compare_cont Eq ma mb) with (Pos.compare ma mb).
  all: destruct (Z.compare_spec ea eb) as [He|He|He];
    destruct (Pos.compare_spec ma mb) as [Hm|Hm|Hm]; simpl; split;
    try discriminate;
    try (intros (k & Ha & Hb);
         assert (ma = mb /\ ea = eb) as [-> ->] by (split; congruence); lia);
    intros _; subst; eauto.
Qed.

Lemma float_eqb_key (x y : float) :
  PrimFloat.eqb x y = true <->
  exists k, SFkey (Prim2SF x) = Some k /\ SFkey (Prim2SF y) = Some k.
Proof. rewrite FloatAxioms.eqb_spec. apply SFeqb_key. Qed.

Lemma float_eqb_sym (x y : float) :
  PrimFloat.eqb x y = true -> PrimFloat.eqb y x = true.
Proof. rewrite !float_eqb_key. intros (k & H1 & H2). eauto. Qed.

Lemma float_eqb_trans (x y z : float) :
  PrimFloat.eqb x y = true -> PrimFloat.eqb y z = true -> PrimFloat.eqb x z = true.
Proof.
  rewrite !float_eqb_key. intros (k & H1 & H2) (k' & H3 & H4).
  exists k. split; [assumption | congruence].
Qed.

Lemma strict_eq_sym (a b : Js.value) :
  Js.strict_eq a b = true -> Js.strict_eq b a = true.
Proof.
  destruct a, b; simpl; try discriminate; try reflexivity.
  - intros H. apply Bool.eqb_prop in H. subst. apply Bool.eqb_reflx.
  - apply float_eqb_sym.
  - rewrite !String.eqb_eq. congruence.
  - rewrite !Pos.eqb_eq. congruence.
Qed.

Lemma strict_eq_trans (a b c : Js.value) :
  Js.strict_eq a b = true -> Js.strict_eq b c = true -> Js.strict_eq a c = true.
Proof.
  destruct a, b; simpl; try discriminate; destruct c; simpl; try discriminate;
    try reflexivity.
  - intros H1 H2. apply Bool.eqb_prop in H1, H2. subst. apply Bool.eqb_reflx.
  - apply float_eqb_trans.
  - rewrite !String.eqb_eq. congruence.
  - rewrite !Pos.eqb_eq. congruence.
Qed.

(** ** Data model ([types.ts])

    A [Row] is a plain object from column name to value; an [OptimisticRow]
    is a row that also carries [optimisticId] and [isOptimistic].  A cached
    snapshot ([SupabaseProviderFetchResult]) has [data] and [count], each
    possibly [null]. *)

Abbreviation Row := (gmap string Js.value).
Abbreviation Rows := (list Row).
Abbreviation OptimisticRow := (gmap string Js.value).

Record SupabaseProviderFetchResult : Type := FetchResult {
  data : option Rows;
  count : option Z;
}.

(** What a JavaScript call can throw: [new Error(message)], or any value a
    collaborator rejects with. *)
Inductive exn : Type :=
  | Error (message : string)
  | Rejection (reason : Js.value).

(** The completion of a call that may throw. *)
Inductive Completion (A : Type) : Type :=
  | Normal (a : A)
  | Throw (e : exn).
Arguments Normal {A} a.
Arguments Throw {A} e.

#[global] Instance Completion_ret : MRet Completion := fun A a => Normal a.

#[global] Instance Completion_bind : MBind Completion := fun A B f c =>
  match c with
  | Normal a => f a
  | Throw e => Throw e
  end.

#[global] Instance Completion_throw : MThrow exn Completion := fun A e => Throw e.

Definition invalidDeleteMessage : string :=
"
          Unable to optimistically delete row. The optimistic data passed was invalid so we could not extract a value for uniquely identifying the row to delete.
          Optimistic data for delete row must be a number, a string, or an object with the unique identifier field (usually 'id') present in the first level of the object.
        ".

Definition invalidOptimisticOperationMessage : string :=
  "Error in handleMutationWithOptimisticUpdates: Invalid optimisticOperation in flexibleMutationSettings".

(** The functions [chooseOptimisticFunction] can return, as values: the
    four named transforms and the closure over [optimisticDataFinal] and
    [optimisticCount] that calls [replaceDataOptimistically]. *)
Inductive OptimisticFunc : Type :=
  | fnReturnUnchangedData
  | fnAddRowOptimistically
  | fnEditRowOptimistically
  | fnDeleteRowOptimistically
  | fnReplaceData (optimisticDataFinal : Rows) (optimisticCount : option Z).

(** ** [useOptimisticOperations] *)
Section UseOptimisticOperations.

(** [OrderBy] and [clientSideOrderBy] live in the helpers
    [buildSupabaseQueryWithDynamicFilters] and [clientSideOrderBy]; the
    hook only passes the order specification through. *)
Context {OrderBy : Type}.
Variable clientSideOrderBy : list OrderBy -> Rows -> Rows.

(** The hook's props. *)
Variable returnCount : option string.
Variable uniqueIdentifierField : string.
Variable memoizedOrderBy : list OrderBy.

(** [returnCount !== "none"] *)
Definition countEnabled : bool :=
  match returnCount with
  | Some mode => negb (String.eqb mode "none")
  | None => true
  end.

Definition returnUnchangedData
    (currentData : option SupabaseProviderFetchResult) : SupabaseProviderFetchResult :=
  match currentData with
  | None => {| data := None; count := None |}
  | Some currentData => currentData
  end.

Definition addRowOptimistically
    (currentData : option SupabaseProviderFetchResult)
    (optimisticRow : OptimisticRow) : SupabaseProviderFetchResult :=
  let currentData :=
    match currentData with
    | None => {| data := None; count := None |}
    | Some currentData => currentData
    end in
  {| data := Some (clientSideOrderBy memoizedOrderBy
                     (default [] (data currentData) ++ [optimisticRow]));
     count := if countEnabled
              then Some (Js.or_zero (count currentData) + 1)
              else None |}.

Definition editRowOptimistically
    (currentData : option SupabaseProviderFetchResult)
    (optimisticRow : OptimisticRow) : SupabaseProviderFetchResult :=
  match currentData with
  | None => {| data := None; count := None |}
  | Some currentData =>
      {| data := Some (clientSideOrderBy memoizedOrderBy
                         (match data currentData with
                          | Some rows =>
                              map (fun row =>
                                     if Js.strict_eq
                                          (Js.get row uniqueIdentifierField)
                                          (Js.get optimisticRow uniqueIdentifierField)
                                     then optimisticRow
                                     else row) rows
                          | None => []
                          end));
         count := count currentData |}
  end.

Definition deleteRowOptimistically
    (currentData : option SupabaseProviderFetchResult)
    (optimisticRow : OptimisticRow) : Completion SupabaseProviderFetchResult :=
  match currentData with
  | None => Normal {| data := None; count := None |}
  | Some currentData =>
      let uniqueIdentifierVal := Js.get optimisticRow uniqueIdentifierField in
      if negb (String.eqb (Js.typeof uniqueIdentifierVal) "number")
         && negb (String.eqb (Js.typeof uniqueIdentifierVal) "string")
      then Throw (Error invalidDeleteMessage)
      else
        Normal
          {| data := Some (match data currentData with
                           | Some rows =>
                               List.filter
                                 (fun row =>
                                    Js.strict_neq
                                      (Js.get row uniqueIdentifierField)
                                      uniqueIdentifierVal) rows
                           | None => []
                           end);
             count := if countEnabled
                      then Some (Js.or_zero (count currentData) - 1)
                      else None |}
  end.

Definition replaceDataOptimistically
    (_currentData : option SupabaseProviderFetchResult)
    (optimisticData : Rows) (optimisticCount : option Z)
    : SupabaseProviderFetchResult :=
  {| data := Some optimisticData; count := Js.or_null optimisticCount |}.

Definition chooseOptimisticFunction
    (requestedOptimisticOperation : option string)
    (optimisticRowFinal : option OptimisticRow)
    (optimisticDataFinal : option Rows)
    (optimisticCount : option Z) : Completion OptimisticFunc :=
  match requestedOptimisticOperation with
  | None => Normal fnReturnUnchangedData
  | Some op =>
      if String.eqb op "addRow" then
        Normal (match optimisticRowFinal with
                | Some _ => fnAddRowOptimistically
                | None => fnReturnUnchangedData
                end)
      else if String.eqb op "editRow" then
        Normal (match optimisticRowFinal with
                | Some _ => fnEditRowOptimistically
                | None => fnReturnUnchangedData
                end)
      else if String.eqb op "deleteRow" then
        Normal (match optimisticRowFinal with
                | Some _ => fnDeleteRowOptimistically
                | None => fnReturnUnchangedData
                end)
      else if String.eqb op "replaceData" then
        Normal (match optimisticDataFinal with
                | Some optimisticDataFinal =>
                    fnReplaceData optimisticDataFinal optimisticCount
                | None => fnReturnUnchangedData
                end)
      else Throw (Error invalidOptimisticOperationMessage)
  end.

(** Calling a chosen function as [handleMutation] does,
    [optimisticFunc(currentData, optimisticRowFinal || undefined)]: the
    one-parameter functions ignore the second argument.  A row transform
    is typed to receive a row, and is only ever chosen when there is one
    (see [mutate_row_supplied]); the call of a row transform
    without a row is outside the typed program and has no value here. *)
Definition callOptimisticFunc (optimisticFunc : OptimisticFunc)
    (currentData : option SupabaseProviderFetchResult)
    (optimisticRowFinal : option OptimisticRow)
    : option (Completion SupabaseProviderFetchResult) :=
  match optimisticFunc, optimisticRowFinal with
  | fnReturnUnchangedData, _ => Some (Normal (returnUnchangedData currentData))
  | fnReplaceData optimisticDataFinal optimisticCount, _ =>
      Some (Normal (replaceDataOptimistically currentData
                      optimisticDataFinal optimisticCount))
  | fnAddRowOptimistically, Some row =>
      Some (Normal (addRowOptimistically currentData row))
  | fnEditRowOptimistically, Some row =>
      Some (Normal (editRowOptimistically currentData row))
  | fnDeleteRowOptimistically, Some row =>
      Some (deleteRowOptimistically currentData row)
  | _, None => None
  end.

End UseOptimisticOperations.

(** ** Data of [useMutationWithOptimisticUpdates] *)

(** [Row | Rows]: a single plain object or an array of rows
    ([Array.isArray] tells them apart). *)
Inductive RowOrRows : Type :=
  | OneRow (row : Row)
  | ManyRows (rows : Rows).

(** A filter of a flexible mutation is handed to the backend untouched. *)
Definition Filter : Type := Js.value.

Module FlexibleMutationSettings.
Record t : Type := mk {
  tableName : string;
  operation : string;
  filters : option (list Filter);
  optimisticOperation : option string;
}.
End FlexibleMutationSettings.

Module RpcSettings.
Record t : Type := mk {
  rpcName : string;
  optimisticOperation : option string;
}.
End RpcSettings.

(** The argument object of [handleMutation]; [mutate] is the cache's
    mutator, whose calls are recorded as events. *)
Module Args.
Record t : Type := mk {
  mutationType : string;
  dataForSupabase : option RowOrRows;
  shouldReturnRow : bool;
  returnImmediately : bool;
  optimisticRow : option Row;
  optimisticData : option RowOrRows;
  optimisticCount : option Z;
  customMetadata : option Js.value;
  flexibleMutationSettings : option FlexibleMutationSettings.t;
  rpcSettings : option RpcSettings.t;
}.
End Args.

(** What [getMutationPhrases] returns. *)
Module MutationPhrases.
Record t : Type := mk {
  inProgress : string;
  success : string;
  error : string;
}.
End MutationPhrases.

(** Modelled from the spec: [buildSupabaseProviderError] (helper
    [buildSupabaseProviderErr], not among the sources) and the
    [SupabaseProviderError] it returns, "a normalized error object (kind,
    attempted action, summary, original input, speculative input, custom
    metadata)".  The object keeps the error it was built from, which
    determines its kind. *)
Module SupabaseProviderError.
Record t : Type := mk {
  error : exn;
  actionAttempted : string;
  summary : string;
  dataForSupabase : option RowOrRows;
  optimisticData : option RowOrRows;
  customMetadata : option Js.value;
}.
End SupabaseProviderError.

(** Modelled from the spec: the helper [buildSupabaseProviderError], which
    puts what it is given into the error object. *)
Definition buildSupabaseProviderError
    (error : exn) (actionAttempted summary : string)
    (dataForSupabase optimisticData : option RowOrRows)
    (customMetadata : option Js.value) : SupabaseProviderError.t :=
  {| SupabaseProviderError.error := error;
     SupabaseProviderError.actionAttempted := actionAttempted;
     SupabaseProviderError.summary := summary;
     SupabaseProviderError.dataForSupabase := dataForSupabase;
     SupabaseProviderError.optimisticData := optimisticData;
     SupabaseProviderError.customMetadata := customMetadata |}.

(** [SupabaseProviderMutateResult], the envelope given to the caller and
    to the success callback. *)
Module MutateResult.
Record t : Type := mk {
  data : option Rows;
  count : option Z;
  optimisticData : option RowOrRows;
  optimisticCount : option Z;
  dataForSupabase : option RowOrRows;
  action : string;
  summary : string;
  status : string;
  error : option SupabaseProviderError.t;
  customMetadata : option Js.value;
}.
End MutateResult.

(** The real mutations of [useSupabaseMutations], as the calls made to
    them; each returns the promise that is handed to [mutate]. *)
Inductive MutatorCall : Type :=
  | addRowMutator (dataForSupabase : option RowOrRows) (shouldReturnRow : bool)
  | editRowMutator (dataForSupabase : option RowOrRows) (shouldReturnRow : bool)
  | deleteRowMutator (dataForSupabase : option RowOrRows) (shouldReturnRow : bool)
  | flexibleMutator (tableName flexibleMutationOperation : string)
      (dataForSupabase : option RowOrRows) (filters : option (list Filter))
      (runSelectAfterMutate : bool)
  | runRpc (rpcName : string) (dataForSupabase : option RowOrRows).

(** Which function [mutatorFunction] is bound to. *)
Inductive MutatorFunction : Type :=
  | fnAddRowMutator
  | fnEditRowMutator
  | fnDeleteRowMutator
  | createFlexibleMutator
  | createRpcMutator.

(** What [handleMutation] does to the world outside, in order.  [Mutate]
    is the call [mutate(promise, { optimisticData, populateCache: false,
    revalidate: true, rollbackOnError: true })]: it records the function
    and the row that make up the [optimisticData] producer. *)
Inductive Event : Type :=
  | SetIsMutating (value : bool)
  | Resolve (result : MutateResult.t)
  | CallMutator (call : MutatorCall)
  | Mutate (optimisticFunc : OptimisticFunc) (optimisticRowFinal : option OptimisticRow)
  | OnMutateSuccess (result : MutateResult.t)
  | OnError (supabaseProviderError : SupabaseProviderError.t).

(** The promise [handleMutation] returns. *)
Inductive PromiseState : Type :=
  | Pending
  | Fulfilled (value : MutateResult.t)
  | Rejected (reason : exn).

(** The state one call of [handleMutation] runs in: the hook's
    [isMutating] state, the promise of this call, the number of tokens
    [uuid()] has given to [handleMutation] so far, and the events so far,
    oldest first. *)
Record World : Type := {
  isMutating : bool;
  promise : PromiseState;
  uuids : nat;
  trace : list Event;
}.

(** ** The monad of [handleMutation]: state and exceptions *)

Definition Exec (A : Type) : Type := World -> Completion A * World.

#[global] Instance Exec_ret : MRet Exec := fun A a w => (Normal a, w).

#[global] Instance Exec_bind : MBind Exec := fun A B f m w =>
  match m w with
  | (Normal a, w') => f a w'
  | (Throw e, w') => (Throw e, w')
  end.

#[global] Instance Exec_throw : MThrow exn Exec := fun A e w => (Throw e, w).

(** [try { body } catch (e) { handler(e) }]; what [body] did before it
    threw stays done. *)
Definition tryCatch {A : Type} (body : Exec A) (handler : exn -> Exec A) : Exec A :=
  fun w =>
    match body w with
    | (Normal a, w') => (Normal a, w')
    | (Throw e, w') => handler e w'
    end.

(** A pure helper that may throw. *)
Definition lift {A : Type} (c : Completion A) : Exec A := fun w => (c, w).

Definition emit (e : Event) : Exec unit := fun w =>
  (Normal tt,
   {| isMutating := isMutating w; promise := promise w; uuids := uuids w;
      trace := trace w ++ [e] |}).

Definition setIsMutating (value : bool) : Exec unit := fun w =>
  (Normal tt,
   {| isMutating := value; promise := promise w; uuids := uuids w;
      trace := trace w ++ [SetIsMutating value] |}).

(** [resolve(result)]: settles the promise if it is still pending, and is
    without effect on a settled one. *)
Definition resolve (result : MutateResult.t) : Exec unit := fun w =>
  (Normal tt,
   {| isMutating := isMutating w;
      promise := match promise w with
                 | Pending => Fulfilled result
                 | settled => settled
                 end;
      uuids := uuids w;
      trace := trace w ++ [Resolve result] |}).

(** An exception that leaves the executor of [new Promise] rejects the
    promise, unless it is settled already. *)
Definition rejectPromise (reason : exn) (w : World) : World :=
  {| isMutating := isMutating w;
     promise := match promise w with
                | Pending => Rejected reason
                | settled => settled
                end;
     uuids := uuids w;
     trace := trace w |}.

(** [optimisticRowFinal || optimisticDataFinal || null]: objects and arrays
    are truthy, also when empty. *)
Definition rowOrDataOrNull (optimisticRowFinal : option OptimisticRow)
    (optimisticDataFinal : option Rows) : option RowOrRows :=
  match optimisticRowFinal with
  | Some row => Some (OneRow row)
  | None =>
      match optimisticDataFinal with
      | Some rows => Some (ManyRows rows)
      | None => None
      end
  end.

(** [{ ...row, optimisticId: id, isOptimistic: true }] *)
Definition stamp (row : Row) (id : string) : OptimisticRow :=
  <["isOptimistic" := Js.Boolean true]> (<["optimisticId" := Js.Str id]> row).

Definition missingRpcNameMessage : string :=
  "Error: You must provide an rpcName in runRpc action (error in in handleMutationWithOptimisticUpdate)".

Definition bothOptimisticInputsMessage : string :=
  "Error in handleMutationWithOptimisticUpdates: You can only specify an optimisticRow or optimisticData, not both".

Definition invalidOperationMessage : string :=
  "Error in handleMutationWithOptimisticUpdates: Invalid operation".

(** Reading a property of [undefined]. *)
Definition undefinedPropertyMessage (property : string) : string :=
  ("Cannot read properties of undefined (reading '" ++ property ++ "')")%string.

(** What the [then] and [catch] handlers of [handleMutation] close over. *)
Record InFlight : Type := {
  args : Args.t;
  mutationPhrases : MutationPhrases.t;
  optimisticRowFinal : option OptimisticRow;
  optimisticDataFinal : option Rows;
}.

(** ** [useMutationWithOptimisticUpdates] *)
Section UseMutationWithOptimisticUpdates.

(** The hook's callbacks; each may be missing, and being caller code
    may throw. *)
Variable memoizedOnMutateSuccess : option (MutateResult.t -> Completion unit).
Variable memoizedOnError : option (SupabaseProviderError.t -> Completion unit).

(** Helpers that are not among the sources: the two validators, which
    return or throw, and the phrase table.  The table is read at lines
    218, 337, 355 and 373 only; what it holds for a string that is none of
    the five mutation types is not known here. *)
Variable validateFlexibleMutationSettings :
  option string -> option string -> option RowOrRows ->
  option (list Filter) -> Completion unit.
Variable validateDynamicOptimisticSettings :
  option RowOrRows -> option string -> Completion unit.
Variable getMutationPhrases : string -> MutationPhrases.t.

(** [uuid()]: the [n]-th token the generator gives. *)
Variable uuidToken : nat -> string.

Definition uuid : Exec string := fun w =>
  (Normal (uuidToken (uuids w)),
   {| isMutating := isMutating w; promise := promise w;
      uuids := S (uuids w); trace := trace w |}).

(** Lines 137-142: an [optimisticOperation] that arrives as the empty
    string is set to [undefined]. *)
Definition normalizeFlexibleMutationSettings
    (settings : option FlexibleMutationSettings.t)
    : option FlexibleMutationSettings.t :=
  match settings with
  | Some s =>
      match FlexibleMutationSettings.optimisticOperation s with
      | Some op =>
          if String.eqb op ""
          then Some {| FlexibleMutationSettings.tableName :=
                         FlexibleMutationSettings.tableName s;
                       FlexibleMutationSettings.operation :=
                         FlexibleMutationSettings.operation s;
                       FlexibleMutationSettings.filters :=
                         FlexibleMutationSettings.filters s;
                       FlexibleMutationSettings.optimisticOperation := None |}
          else Some s
      | None => Some s
      end
  | None => None
  end.

Definition normalizeRpcSettings (settings : option RpcSettings.t)
    : option RpcSettings.t :=
  match settings with
  | Some s =>
      match RpcSettings.optimisticOperation s with
      | Some op =>
          if String.eqb op ""
          then Some {| RpcSettings.rpcName := RpcSettings.rpcName s;
                       RpcSettings.optimisticOperation := None |}
          else Some s
      | None => Some s
      end
  | None => None
  end.

(** The argument object after lines 137-142.  The assignments are made
    in place on the caller's settings objects, so every later read sees
    them. *)
Definition normalizeArgs (a : Args.t) : Args.t :=
  {| Args.mutationType := Args.mutationType a;
     Args.dataForSupabase := Args.dataForSupabase a;
     Args.shouldReturnRow := Args.shouldReturnRow a;
     Args.returnImmediately := Args.returnImmediately a;
     Args.optimisticRow := Args.optimisticRow a;
     Args.optimisticData := Args.optimisticData a;
     Args.optimisticCount := Args.optimisticCount a;
     Args.customMetadata := Args.customMetadata a;
     Args.flexibleMutationSettings :=
       normalizeFlexibleMutationSettings (Args.flexibleMutationSettings a);
     Args.rpcSettings := normalizeRpcSettings (Args.rpcSettings a) |}.

(** Lines 145-166: validation of the flexible and rpc settings. *)
Definition validateSettings (mutationType : string)
    (dataForSupabase optimisticData : option RowOrRows)
    (flexibleMutationSettings : option FlexibleMutationSettings.t)
    (rpcSettings : option RpcSettings.t) : Completion unit :=
  (if String.eqb mutationType "flexibleMutation" then
     validateFlexibleMutationSettings
       (FlexibleMutationSettings.tableName <$> flexibleMutationSettings)
       (FlexibleMutationSettings.operation <$> flexibleMutationSettings)
       dataForSupabase
       (flexibleMutationSettings ≫= FlexibleMutationSettings.filters);;
     validateDynamicOptimisticSettings optimisticData
       (flexibleMutationSettings ≫=
          FlexibleMutationSettings.optimisticOperation)
   else mret tt);;
  (if String.eqb mutationType "rpc" then
     match rpcSettings with
     | Some settings =>
         if String.eqb (RpcSettings.rpcName settings) ""
         then mthrow (Error missingRpcNameMessage)
         else validateDynamicOptimisticSettings optimisticData
                (RpcSettings.optimisticOperation settings)
     | None => mthrow (Error missingRpcNameMessage)
     end
   else mret tt).

(** Lines 172-178: only one speculative input is valid at a time. *)
Definition checkOneSpeculativeInput (optimisticRow : option Row)
    (optimisticData : option RowOrRows) : Completion unit :=
  match optimisticRow, optimisticData with
  | Some _, Some _ => mthrow (Error bothOptimisticInputsMessage)
  | _, _ => mret tt
  end.

(** Lines 180-206: the final speculative row and dataset.  A single
    object given as [optimisticData] becomes the row. *)
Definition materialize (optimisticRow : option Row)
    (optimisticData : option RowOrRows)
    : Exec (option OptimisticRow * option Rows) :=
  optimisticRowFinal ←
    match optimisticRow with
    | Some row => id ← uuid; mret (Some (stamp row id))
    | None => mret None
    end;
  match optimisticData with
  | Some (OneRow object) =>
      id ← uuid; mret (Some (stamp object id), None)
  | Some (ManyRows rows) => mret (optimisticRowFinal, Some rows)
  | None => mret (optimisticRowFinal, None)
  end.

(** Lines 228-258 and 314: calling [mutatorFunction]. *)
Definition callMutatorFunction (mutatorFunction : MutatorFunction)
    (dataForSupabase : option RowOrRows) (shouldReturnRow : bool)
    (flexibleMutationSettings : option FlexibleMutationSettings.t)
    (rpcSettings : option RpcSettings.t) : Exec unit :=
  match mutatorFunction with
  | fnAddRowMutator => emit (CallMutator (addRowMutator dataForSupabase shouldReturnRow))
  | fnEditRowMutator => emit (CallMutator (editRowMutator dataForSupabase shouldReturnRow))
  | fnDeleteRowMutator =>
      emit (CallMutator (deleteRowMutator dataForSupabase shouldReturnRow))
  | createFlexibleMutator =>
      match flexibleMutationSettings with
      | Some s =>
          emit (CallMutator
                  (flexibleMutator (FlexibleMutationSettings.tableName s)
                     (FlexibleMutationSettings.operation s) dataForSupabase
                     (FlexibleMutationSettings.filters s) shouldReturnRow))
      | None => mthrow (Error (undefinedPropertyMessage "tableName"))
      end
  | createRpcMutator =>
      match rpcSettings with
      | Some s => emit (CallMutator (runRpc (RpcSettings.rpcName s) dataForSupabase))
      | None => mthrow (Error (undefinedPropertyMessage "rpcName"))
      end
  end.

(** Lines 262-311: the mutator and the optimistic function, by
    [mutationType]. *)
Definition selectFunctions (mutationType : string)
    (flexibleMutationSettings : option FlexibleMutationSettings.t)
    (rpcSettings : option RpcSettings.t)
    (optimisticRowFinal : option OptimisticRow)
    (optimisticDataFinal : option Rows) (optimisticCount : option Z)
    : Completion (MutatorFunction * OptimisticFunc) :=
  if String.eqb mutationType "insert" then
    mret (fnAddRowMutator,
          match optimisticRowFinal with
          | Some _ => fnAddRowOptimistically
          | None => fnReturnUnchangedData
          end)
  else if String.eqb mutationType "update" then
    mret (fnEditRowMutator,
          match optimisticRowFinal with
          | Some _ => fnEditRowOptimistically
          | None => fnReturnUnchangedData
          end)
  else if String.eqb mutationType "delete" then
    mret (fnDeleteRowMutator,
          match optimisticRowFinal with
          | Some _ => fnDeleteRowOptimistically
          | None => fnReturnUnchangedData
          end)
  else if String.eqb mutationType "flexibleMutation" then
    optimisticFunc ←
      chooseOptimisticFunction
        (flexibleMutationSettings ≫=
           FlexibleMutationSettings.optimisticOperation)
        optimisticRowFinal optimisticDataFinal optimisticCount;
    mret (createFlexibleMutator, optimisticFunc)
  else if String.eqb mutationType "rpc" then
    optimisticFunc ←
      chooseOptimisticFunction
        (rpcSettings ≫= RpcSettings.optimisticOperation)
        optimisticRowFinal optimisticDataFinal optimisticCount;
    mret (createRpcMutator, optimisticFunc)
  else mthrow (Error invalidOperationMessage).

(** The envelope, as built at lines 211-222, 330-341 and 366-377. *)
Definition envelope (a : Args.t) (optimisticRowFinal : option OptimisticRow)
    (optimisticDataFinal : option Rows) (data : option Rows) (count : option Z)
    (summary status : string) (error : option SupabaseProviderError.t)
    : MutateResult.t :=
  {| MutateResult.data := data;
     MutateResult.count := count;
     MutateResult.optimisticData :=
       rowOrDataOrNull optimisticRowFinal optimisticDataFinal;
     MutateResult.optimisticCount := Js.or_null (Args.optimisticCount a);
     MutateResult.dataForSupabase := Args.dataForSupabase a;
     MutateResult.action := Args.mutationType a;
     MutateResult.summary := summary;
     MutateResult.status := status;
     MutateResult.error := error;
     MutateResult.customMetadata := Args.customMetadata a |}.

(** The executor of the promise, lines 131-328: everything up to and
    including the call of [mutate].  It returns what the handlers of the
    promise [mutate] returned close over. *)
Definition executor (a : Args.t) : Exec InFlight :=
  setIsMutating true;;
  let a := normalizeArgs a in
  lift (validateSettings (Args.mutationType a) (Args.dataForSupabase a)
          (Args.optimisticData a) (Args.flexibleMutationSettings a)
          (Args.rpcSettings a));;
  let mutationPhrases := getMutationPhrases (Args.mutationType a) in
  lift (checkOneSpeculativeInput (Args.optimisticRow a) (Args.optimisticData a));;
  '(optimisticRowFinal, optimisticDataFinal) ←
    materialize (Args.optimisticRow a) (Args.optimisticData a);
  (if Args.returnImmediately a then
     resolve (envelope a optimisticRowFinal optimisticDataFinal None None
                (MutationPhrases.inProgress mutationPhrases) "pending" None)
   else mret tt);;
  '(mutatorFunction, optimisticFunc) ←
    lift (selectFunctions (Args.mutationType a)
            (Args.flexibleMutationSettings a) (Args.rpcSettings a)
            optimisticRowFinal optimisticDataFinal (Args.optimisticCount a));
  callMutatorFunction mutatorFunction (Args.dataForSupabase a)
    (Args.shouldReturnRow a) (Args.flexibleMutationSettings a)
    (Args.rpcSettings a);;
  emit (Mutate optimisticFunc optimisticRowFinal);;
  mret {| args := a; mutationPhrases := mutationPhrases;
          optimisticRowFinal := optimisticRowFinal;
          optimisticDataFinal := optimisticDataFinal |}.

(** Calling a callback that may be missing. *)
Definition callback {A : Type} (f : option (A -> Completion unit))
    (event : A -> Event) (x : A) : Exec unit :=
  match f with
  | Some f => emit (event x);; lift (f x)
  | None => mret tt
  end.

(** The [then] handler, lines 329-350. *)
Definition onFulfilled (m : InFlight)
    (response : option SupabaseProviderFetchResult) : Exec unit :=
  let result :=
    envelope (args m) (optimisticRowFinal m) (optimisticDataFinal m)
      (response ≫= data) (response ≫= count)
      (MutationPhrases.success (mutationPhrases m)) "success" None in
  callback memoizedOnMutateSuccess OnMutateSuccess result;;
  if negb (Args.returnImmediately (args m)) then resolve result else mret tt.

(** The [catch] handler, lines 351-380. *)
Definition onRejected (m : InFlight) (err : exn) : Exec unit :=
  let supabaseProviderError :=
    buildSupabaseProviderError err (Args.mutationType (args m))
      (MutationPhrases.error (mutationPhrases m))
      (Args.dataForSupabase (args m))
      (rowOrDataOrNull (optimisticRowFinal m) (optimisticDataFinal m))
      (Args.customMetadata (args m)) in
  callback memoizedOnError OnError supabaseProviderError;;
  if negb (Args.returnImmediately (args m)) then
    resolve (envelope (args m) (optimisticRowFinal m) (optimisticDataFinal m)
               None None (MutationPhrases.error (mutationPhrases m)) "error"
               (Some supabaseProviderError))
  else mret tt.

(** [mutate(...).then(onFulfilled).catch(onRejected)], once the promise
    of [mutate] settles: [catch] also receives what the [then] handler
    throws. *)
Definition settle (m : InFlight)
    (outcome : Completion (option SupabaseProviderFetchResult)) : Exec unit :=
  match outcome with
  | Normal response => tryCatch (onFulfilled m response) (onRejected m)
  | Throw err => onRejected m err
  end.

(** The state a call starts in: a new pending promise and no event yet. *)
Definition newCall (mutating : bool) (uuidsSoFar : nat) : World :=
  {| isMutating := mutating; promise := Pending; uuids := uuidsSoFar;
     trace := [] |}.

(** [handleMutation]: [new Promise(executor)].  The result is the world
    after the synchronous part, and what is then in flight, if the
    executor reached [mutate]. *)
Definition handleMutation (a : Args.t) (mutating : bool) (uuidsSoFar : nat)
    : option InFlight * World :=
  match executor a (newCall mutating uuidsSoFar) with
  | (Normal m, w) => (Some m, w)
  | (Throw e, w) => (None, rejectPromise e w)
  end.

(** One whole call: the synchronous part and, if [mutate] was reached,
    the handlers run on its outcome. *)
Definition lifecycle (a : Args.t) (mutating : bool) (uuidsSoFar : nat)
    (outcome : Completion (option SupabaseProviderFetchResult)) : World :=
  match handleMutation a mutating uuidsSoFar with
  | (Some m, w) => snd (settle m outcome w)
  | (None, w) => w
  end.

End UseMutationWithOptimisticUpdates.

(** ** A client-side sort to run the transforms on

    The helper [clientSideOrderBy] is not among the sources; the theorems
    below hold for every function that returns its rows reordered.  This
    module gives one such function, a stable insertion sort by the listed
    fields, and rows to run the hooks on. *)
Module Sample.

Record OrderBy : Type := { fieldName : string; direction : string }.

Definition compareValues (a b : Js.value) : comparison :=
  match a, b with
  | Js.Str x, Js.Str y => String.compare x y
  | Js.Number x, Js.Number y =>
      if PrimFloat.ltb x y then Lt else if PrimFloat.ltb y x then Gt else Eq
  | _, _ => Eq
  end.

Fixpoint compareRows (orderBy : list OrderBy) (a b : Row) : comparison :=
  match orderBy with
  | [] => Eq
  | o :: rest =>
      let c := compareValues (Js.get a (fieldName o)) (Js.get b (fieldName o)) in
      match (if String.eqb (direction o) "desc" then CompOpp c else c) with
      | Eq => compareRows rest a b
      | c => c
      end
  end.

Fixpoint insertRow (orderBy : list OrderBy) (row : Row) (sorted : Rows) : Rows :=
  match sorted with
  | [] => [row]
  | r :: rest =>
      match compareRows orderBy row r with
      | Lt => row :: r :: rest
      | _ => r :: insertRow orderBy row rest
      end
  end.

Definition clientSideOrderBy (orderBy : list OrderBy) (rows : Rows) : Rows :=
  fold_left (fun sorted row => insertRow orderBy row sorted) rows [].

Lemma insertRow_permutes orderBy row sorted :
  Permutation (insertRow orderBy row sorted) (row :: sorted).
Proof.
  induction sorted as [|r rest IH]; simpl; [reflexivity|].
  destruct (compareRows orderBy row r); try reflexivity.
  - rewrite IH. apply perm_swap.
  - rewrite IH. apply perm_swap.
Qed.

Lemma clientSideOrderBy_permutes orderBy rows :
  Permutation (clientSideOrderBy orderBy rows) rows.
Proof.
  unfold clientSideOrderBy.
  assert (H : forall acc, Permutation
            (fold_left (fun sorted row => insertRow orderBy row sorted) rows acc)
            (acc ++ rows)).
  { induction rows as [|r rest IH]; intros acc; simpl.
    - now rewrite app_nil_r.
    - rewrite IH, insertRow_permutes. apply Permutation_middle. }
  apply (H []).
Qed.

Definition byName : list OrderBy := [{| fieldName := "name"; direction := "asc" |}].

Definition person (id : float) (name : string) : Row :=
  <["id" := Js.Number id]> (<["name" := Js.Str name]> ∅).

Definition alice : Row := person 1 "Alice".
Definition carol : Row := person 2 "Carol".
Definition bob : Row := <["name" := Js.Str "Bob"]> ∅.

Definition twoRows : SupabaseProviderFetchResult :=
  {| data := Some [alice; carol]; count := Some 2 |}.

(** Helpers and callbacks that accept everything. *)
Definition validateFlexibleMutationSettings
    (_ _ : option string) (_ : option RowOrRows) (_ : option (list Filter))
    : Completion unit := Normal tt.
Definition validateDynamicOptimisticSettings
    (_ : option RowOrRows) (_ : option string) : Completion unit := Normal tt.
Definition getMutationPhrases (mutationType : string) : MutationPhrases.t :=
  {| MutationPhrases.inProgress := (mutationType ++ " in progress")%string;
     MutationPhrases.success := (mutationType ++ " succeeded")%string;
     MutationPhrases.error := (mutationType ++ " failed")%string |}.
Definition uuidToken (n : nat) : string :=
  ("uuid-" ++ String (Ascii.ascii_of_nat (48 + n)) "")%string.
Definition onMutateSuccess : option (MutateResult.t -> Completion unit) :=
  Some (fun _ => Normal tt).
Definition onError : option (SupabaseProviderError.t -> Completion unit) :=
  Some (fun _ => Normal tt).

Definition deleteArgs (optimisticRow : Row) : Args.t :=
  {| Args.mutationType := "delete";
     Args.dataForSupabase := Some (OneRow optimisticRow);
     Args.shouldReturnRow := false;
     Args.returnImmediately := false;
     Args.optimisticRow := Some optimisticRow;
     Args.optimisticData := None;
     Args.optimisticCount := None;
     Args.customMetadata := None;
     Args.flexibleMutationSettings := None;
     Args.rpcSettings := None |}.

End Sample.

(** Scenario A of the specification: [{name: "Bob"}] inserted into two rows
    ordered by name, with an exact count. *)
Example scenario_A :
  addRowOptimistically Sample.clientSideOrderBy (Some "exact") Sample.byName
    (Some Sample.twoRows) Sample.bob
  = {| data := Some [Sample.alice; Sample.bob; Sample.carol]; count := Some 3 |}.
Proof. vm_compute. reflexivity. Qed.

(** ** Properties of the transforms *)

(** The rows of a snapshot, absent data read as no rows ([data || []]). *)
Definition rowsOf (currentData : option SupabaseProviderFetchResult) : Rows :=
  default [] (currentData ≫= data).

(** The count of a snapshot as a number: [null] counts as [0], as in
    [null + 1] and [count || 0]. *)
Definition countOf (currentData : option SupabaseProviderFetchResult) : Z :=
  default 0 (currentData ≫= count).

Lemma or_zero_default (n : option Z) : Js.or_zero n = default 0 n.
Proof.
  destruct n as [k|]; simpl; [|reflexivity].
  destruct (Z.eqb_spec k 0); congruence.
Qed.

Lemma countEnabled_none : countEnabled (Some "none") = false.
Proof. reflexivity. Qed.

Lemma countEnabled_other (returnCount : option string) :
  returnCount <> Some "none" -> countEnabled returnCount = true.
Proof.
  destruct returnCount as [mode|]; simpl; [|reflexivity].
  destruct (String.eqb_spec mode "none"); [congruence | reflexivity].
Qed.

Section TransformProperties.

Context {OrderBy : Type}.
Variable clientSideOrderBy : list OrderBy -> Rows -> Rows.

(** The contract of the sort: it returns the rows it was given, in some
    order. *)
Hypothesis clientSideOrderBy_permutes :
  forall orderBy rows, Permutation (clientSideOrderBy orderBy rows) rows.

(** The sorted list holds the rows it was given and the new row, put in at
    one place. *)
Lemma sorted_append_splits (memoizedOrderBy : list OrderBy) (rows : Rows)
    (optimisticRow : OptimisticRow) :
  exists before after,
    clientSideOrderBy memoizedOrderBy (rows ++ [optimisticRow])
    = before ++ optimisticRow :: after
    /\ Permutation (before ++ after) rows.
Proof.
  pose proof (clientSideOrderBy_permutes memoizedOrderBy (rows ++ [optimisticRow]))
    as Hperm.
  assert (Hin : In optimisticRow
            (clientSideOrderBy memoizedOrderBy (rows ++ [optimisticRow]))).
  { eapply Permutation_in; [symmetry; exact Hperm|].
    apply in_or_app. right. now left. }
  apply in_split in Hin. destruct Hin as (before & after & Heq).
  exists before, after. split; [exact Heq|].
  rewrite Heq in Hperm.
  apply Permutation_cons_inv with (a := optimisticRow).
  rewrite Permutation_middle, Hperm.
  symmetry. apply Permutation_cons_append.
Qed.

Lemma addRowOptimistically_data (returnCount : option string)
    (memoizedOrderBy : list OrderBy)
    (currentData : option SupabaseProviderFetchResult)
    (optimisticRow : OptimisticRow) :
  data (addRowOptimistically clientSideOrderBy returnCount memoizedOrderBy
          currentData optimisticRow)
  = Some (clientSideOrderBy memoizedOrderBy (rowsOf currentData ++ [optimisticRow])).
Proof.
  unfold addRowOptimistically, rowsOf. destruct currentData as [[d c]|]; reflexivity.
Qed.

(** C1. For every cached snapshot (also an absent one) and every
    speculative row, [addRowOptimistically] returns the client-side sort of
    the existing rows with the new row appended; the result is the existing
    rows with the new row put in at exactly one place; the count is the
    prior count plus 1, or [null] when [returnCount] is ["none"]. *)
Theorem C1_addRowOptimistically_appends_sorts_counts
    (returnCount : option string) (memoizedOrderBy : list OrderBy)
    (currentData : option SupabaseProviderFetchResult)
    (optimisticRow : OptimisticRow) :
  let result :=
    addRowOptimistically clientSideOrderBy returnCount memoizedOrderBy
      currentData optimisticRow in
  data result =
    Some (clientSideOrderBy memoizedOrderBy (rowsOf currentData ++ [optimisticRow]))
  /\ (exists before after,
        data result = Some (before ++ optimisticRow :: after)
        /\ Permutation (before ++ after) (rowsOf currentData))
  /\ (returnCount = Some "none" -> count result = None)
  /\ (returnCount <> Some "none" ->
      count result = Some (countOf currentData + 1)).
Proof.
  intros result.
  assert (Hdata : data result =
    Some (clientSideOrderBy memoizedOrderBy (rowsOf currentData ++ [optimisticRow])))
    by apply addRowOptimistically_data.
  split; [exact Hdata|]. split; [|split].
  - destruct (sorted_append_splits memoizedOrderBy (rowsOf currentData) optimisticRow)
      as (before & after & Heq & Hperm).
    exists before, after. split; [now rewrite Hdata, Heq | exact Hperm].
  - intros ->. subst result. unfold addRowOptimistically.
    now rewrite countEnabled_none.
  - intros Hmode. subst result. unfold addRowOptimistically, countOf.
    rewrite (countEnabled_other _ Hmode), or_zero_default.
    destruct currentData as [[d c]|]; reflexivity.
Qed.

(** A row that is not in the snapshot yet, such as one stamped with a new
    [optimisticId], is in the result exactly once. *)
Lemma addRowOptimistically_new_row_once
    (returnCount : option string) (memoizedOrderBy : list OrderBy)
    (currentData : option SupabaseProviderFetchResult)
    (optimisticRow : OptimisticRow) :
  ~ In optimisticRow (rowsOf currentData) ->
  exists before after,
    data (addRowOptimistically clientSideOrderBy returnCount memoizedOrderBy
            currentData optimisticRow)
    = Some (before ++ optimisticRow :: after)
    /\ ~ In optimisticRow before /\ ~ In optimisticRow after.
Proof.
  intros Hnew.
  destruct (sorted_append_splits memoizedOrderBy (rowsOf currentData) optimisticRow)
    as (before & after & Heq & Hperm).
  exists before, after. split; [now rewrite addRowOptimistically_data, Heq|].
  split; intros Hin; apply Hnew;
    (eapply Permutation_in; [exact Hperm|]); apply in_or_app; auto.
Qed.

End TransformProperties.

(** C1, run on the sample sort: scenario A. *)
Lemma C1_witness :
  let result :=
    addRowOptimistically Sample.clientSideOrderBy (Some "exact") Sample.byName
      (Some Sample.twoRows) Sample.bob in
  data result =
    Some (Sample.clientSideOrderBy Sample.byName
            (rowsOf (Some Sample.twoRows) ++ [Sample.bob]))
  /\ (exists before after,
        data result = Some (before ++ Sample.bob :: after)
        /\ Permutation (before ++ after) (rowsOf (Some Sample.twoRows)))
  /\ (Some "exact" = Some "none" -> count result = None)
  /\ (Some "exact" <> Some "none" ->
      count result = Some (countOf (Some Sample.twoRows) + 1)).
Proof.
  exact (C1_addRowOptimistically_appends_sorts_counts Sample.clientSideOrderBy
           Sample.clientSideOrderBy_permutes (Some "exact") Sample.byName
           (Some Sample.twoRows) Sample.bob).
Defined.

(** *** Delete *)

(** The unique-identifier value is a number or a string. *)
Definition scalarIdentifier (v : Js.value) : bool :=
  String.eqb (Js.typeof v) "number" || String.eqb (Js.typeof v) "string".

Lemma filter_all {A : Type} (p : A -> bool) (l : list A) :
  (forall x, In x l -> p x = true) -> List.filter p l = l.
Proof.
  induction l as [|x l IH]; simpl; intros H; [reflexivity|].
  rewrite (H x (or_introl eq_refl)). f_equal. apply IH. auto.
Qed.

(** C4. On a snapshot that is not absent and has no row whose
    unique-identifier value [===] that of the speculative row (a number or a
    string), [deleteRowOptimistically] returns the same rows, and the count
    is still the prior count minus 1 ([null] when [returnCount] is
    ["none"]). *)
Theorem C4_deleteRowOptimistically_no_match
    (returnCount : option string) (uniqueIdentifierField : string)
    (currentData : SupabaseProviderFetchResult) (optimisticRow : OptimisticRow) :
  scalarIdentifier (Js.get optimisticRow uniqueIdentifierField) = true ->
  (forall row, In row (rowsOf (Some currentData)) ->
     Js.strict_eq (Js.get row uniqueIdentifierField)
       (Js.get optimisticRow uniqueIdentifierField) = false) ->
  exists result,
    deleteRowOptimistically returnCount uniqueIdentifierField
      (Some currentData) optimisticRow = Normal result
    /\ data result = Some (rowsOf (Some currentData))
    /\ rowsOf (Some result) = rowsOf (Some currentData)
    /\ (returnCount <> Some "none" ->
        count result = Some (countOf (Some currentData) - 1))
    /\ (returnCount = Some "none" -> count result = None).
Proof.
  intros Hscalar Hnone. unfold deleteRowOptimistically.
  unfold scalarIdentifier in Hscalar.
  apply orb_true_iff in Hscalar.
  assert (Hguard :
    negb (String.eqb (Js.typeof (Js.get optimisticRow uniqueIdentifierField)) "number")
    && negb (String.eqb (Js.typeof (Js.get optimisticRow uniqueIdentifierField)) "string")
    = false).
  { destruct Hscalar as [-> | ->]; simpl; [reflexivity | apply andb_false_r]. }
  rewrite Hguard. eexists. split; [reflexivity|]. simpl.
  assert (Hdata :
    match data currentData with
    | Some rows =>
        List.filter
          (fun row =>
             Js.strict_neq (Js.get row uniqueIdentifierField)
               (Js.get optimisticRow uniqueIdentifierField)) rows
    | None => []
    end = rowsOf (Some currentData)).
  { unfold rowsOf in *. simpl in *.
    destruct (data currentData) as [rows|]; simpl in *; [|reflexivity].
    apply filter_all. intros row Hin. unfold Js.strict_neq.
    now rewrite (Hnone row Hin). }
  split; [|split; [|split]].
  - now rewrite Hdata.
  - unfold rowsOf at 1. simpl. exact Hdata.
  - intros Hmode. rewrite (countEnabled_other _ Hmode), or_zero_default.
    reflexivity.
  - intros ->. reflexivity.
Qed.

(** Scenario B of the specification: delete with [{id: 5}] when no row has
    id 5. *)
Lemma C4_witness :
  exists result,
    deleteRowOptimistically (Some "exact") "id" (Some Sample.twoRows)
      (<["id" := Js.Number 5]> ∅) = Normal result
    /\ data result = Some [Sample.alice; Sample.carol]
    /\ count result = Some 1.
Proof.
  destruct (C4_deleteRowOptimistically_no_match (Some "exact") "id"
              Sample.twoRows (<["id" := Js.Number 5]> ∅))
    as (result & Hrun & Hdata & _ & Hcount & _).
  - reflexivity.
  - intros row [<- | [<- | []]]; reflexivity.
  - exists result. split; [exact Hrun|]. split; [exact Hdata|].
    apply Hcount. discriminate.
Defined.

(** *** Edit *)

(** The unique-identifier values of the rows are pairwise distinct under
    [===]. *)
Fixpoint distinctIdentifiers (uniqueIdentifierField : string) (rows : Rows) : bool :=
  match rows with
  | [] => true
  | row :: rest =>
      forallb (fun other =>
                 Js.strict_neq (Js.get row uniqueIdentifierField)
                   (Js.get other uniqueIdentifierField)) rest
      && distinctIdentifiers uniqueIdentifierField rest
  end.

(** The [map] of [editRowOptimistically]. *)
Definition replaceMatching (uniqueIdentifierField : string)
    (optimisticRow : OptimisticRow) (rows : Rows) : Rows :=
  map (fun row =>
         if Js.strict_eq (Js.get row uniqueIdentifierField)
              (Js.get optimisticRow uniqueIdentifierField)
         then optimisticRow
         else row) rows.

Lemma distinctIdentifiers_lookup (uid : string) (rows : Rows) (i j : nat) (ri rj : Row) :
  distinctIdentifiers uid rows = true ->
  i <> j -> rows !! i = Some ri -> rows !! j = Some rj ->
  Js.strict_eq (Js.get ri uid) (Js.get rj uid) = false.
Proof.
  revert i j. induction rows as [|row rest IH]; intros i j Hd Hij Hi Hj.
  - discriminate.
  - simpl in Hd. apply andb_true_iff in Hd. destruct Hd as [Hhead Hrest].
    rewrite forallb_forall in Hhead.
    destruct i as [|i], j as [|j]; simpl in Hi, Hj.
    + congruence.
    + injection Hi as <-.
      apply list_elem_of_lookup_2, list_elem_of_In in Hj.
      specialize (Hhead rj Hj). unfold Js.strict_neq in Hhead.
      now apply negb_true_iff in Hhead.
    + injection Hj as <-.
      apply list_elem_of_lookup_2, list_elem_of_In in Hi.
      specialize (Hhead ri Hi). unfold Js.strict_neq in Hhead.
      apply negb_true_iff in Hhead.
      destruct (Js.strict_eq (Js.get ri uid) (Js.get row uid)) eqn:E; [|reflexivity].
      apply strict_eq_sym in E. congruence.
    + apply (IH i j); auto.
Qed.

Lemma replaceMatching_at (uid : string) (optimisticRow : OptimisticRow)
    (rows : Rows) (i : nat) (row : Row) :
  distinctIdentifiers uid rows = true ->
  rows !! i = Some row ->
  Js.strict_eq (Js.get row uid) (Js.get optimisticRow uid) = true ->
  replaceMatching uid optimisticRow rows = <[i := optimisticRow]> rows.
Proof.
  intros Hd Hi Hmatch. apply list_eq. intros j.
  unfold replaceMatching. rewrite list_lookup_fmap.
  destruct (decide (i = j)) as [<- | Hij].
  - rewrite list_lookup_insert_eq by (eapply lookup_lt_Some; eauto).
    rewrite Hi. simpl. now rewrite Hmatch.
  - rewrite list_lookup_insert_ne by assumption.
    destruct (rows !! j) as [rj|] eqn:Hj; simpl; [|reflexivity].
    destruct (Js.strict_eq (Js.get rj uid) (Js.get optimisticRow uid)) eqn:E;
      [|reflexivity].
    pose proof (distinctIdentifiers_lookup uid rows i j row rj Hd Hij Hi Hj) as Hne.
    apply strict_eq_sym in E.
    rewrite (strict_eq_trans _ _ _ Hmatch E) in Hne. discriminate.
Qed.

Lemma replaceMatching_none (uid : string) (optimisticRow : OptimisticRow)
    (rows : Rows) :
  (forall row, In row rows ->
     Js.strict_eq (Js.get row uid) (Js.get optimisticRow uid) = false) ->
  replaceMatching uid optimisticRow rows = rows.
Proof.
  induction rows as [|row rest IH]; simpl; intros H; [reflexivity|].
  rewrite (H row (or_introl eq_refl)). f_equal. apply IH. auto.
Qed.

Section EditProperties.

Context {OrderBy : Type}.
Variable clientSideOrderBy : list OrderBy -> Rows -> Rows.
Hypothesis clientSideOrderBy_permutes :
  forall orderBy rows, Permutation (clientSideOrderBy orderBy rows) rows.

(** C5. On a snapshot that is not absent and whose rows have pairwise
    distinct unique-identifier values, [editRowOptimistically] returns the
    client-side sort of the rows in which exactly the row that matches the
    speculative row is replaced by it (the rows as they are when none
    matches); the number of rows and the count are unchanged. *)
Theorem C5_editRowOptimistically_replaces_one_and_sorts
    (uniqueIdentifierField : string) (memoizedOrderBy : list OrderBy)
    (currentData : SupabaseProviderFetchResult) (optimisticRow : OptimisticRow) :
  distinctIdentifiers uniqueIdentifierField (rowsOf (Some currentData)) = true ->
  let rows := rowsOf (Some currentData) in
  let result :=
    editRowOptimistically clientSideOrderBy uniqueIdentifierField
      memoizedOrderBy (Some currentData) optimisticRow in
  exists replaced,
    data result = Some (clientSideOrderBy memoizedOrderBy replaced)
    /\ (forall i row,
          rows !! i = Some row ->
          Js.strict_eq (Js.get row uniqueIdentifierField)
            (Js.get optimisticRow uniqueIdentifierField) = true ->
          replaced = <[i := optimisticRow]> rows)
    /\ ((forall row, In row rows ->
           Js.strict_eq (Js.get row uniqueIdentifierField)
             (Js.get optimisticRow uniqueIdentifierField) = false) ->
        replaced = rows)
    /\ length (rowsOf (Some result)) = length rows
    /\ count result = count currentData.
Proof.
  intros Hd rows result.
  exists (replaceMatching uniqueIdentifierField optimisticRow rows).
  assert (Hdata : data result =
    Some (clientSideOrderBy memoizedOrderBy
            (replaceMatching uniqueIdentifierField optimisticRow rows))).
  { subst result rows. unfold editRowOptimistically, rowsOf. simpl.
    destruct (data currentData); reflexivity. }
  split; [exact Hdata|]. split; [|split; [|split]].
  - intros i row Hi Hmatch. now apply replaceMatching_at with (row := row).
  - apply replaceMatching_none.
  - unfold rowsOf at 1. change (Some result ≫= data) with (data result).
    rewrite Hdata. simpl.
    rewrite (Permutation_length (clientSideOrderBy_permutes _ _)).
    unfold replaceMatching. apply length_map.
  - reflexivity.
Qed.

End EditProperties.

(** C5 on the sample rows: Carol (id 2) renamed to Aaron moves to the front. *)
Lemma C5_witness :
  exists replaced,
    data (editRowOptimistically Sample.clientSideOrderBy "id" Sample.byName
            (Some Sample.twoRows) (Sample.person 2 "Aaron"))
    = Some (Sample.clientSideOrderBy Sample.byName replaced)
    /\ replaced = [Sample.alice; Sample.person 2 "Aaron"]
    /\ Sample.clientSideOrderBy Sample.byName replaced
       = [Sample.person 2 "Aaron"; Sample.alice].
Proof.
  destruct (C5_editRowOptimistically_replaces_one_and_sorts
              Sample.clientSideOrderBy Sample.clientSideOrderBy_permutes
              "id" Sample.byName Sample.twoRows (Sample.person 2 "Aaron")
              eq_refl)
    as (replaced & Hdata & Hat & _).
  exists replaced. split; [exact Hdata|].
  assert (Hr : replaced = [Sample.alice; Sample.person 2 "Aaron"]).
  { apply (Hat 1%nat Sample.carol); reflexivity. }
  split; [exact Hr|]. rewrite Hr. vm_compute. reflexivity.
Defined.

(** ** The selector *)

(** The operation names [chooseOptimisticFunction] has a case for. *)
Definition knownOptimisticOperation (op : string) : bool :=
  String.eqb op "addRow" || String.eqb op "editRow"
  || String.eqb op "deleteRow" || String.eqb op "replaceData".


(** What each chosen function is, when called as [handleMutation] calls
    it. *)
Lemma callOptimisticFunc_chosen {OrderBy : Type}
    (clientSideOrderBy : list OrderBy -> Rows -> Rows)
    (returnCount : option string) (uniqueIdentifierField : string)
    (memoizedOrderBy : list OrderBy)
    (currentData : option SupabaseProviderFetchResult)
    (row : OptimisticRow) (rowFinal : option OptimisticRow)
    (rows : Rows) (optimisticCount : option Z) :
  let call :=
    callOptimisticFunc clientSideOrderBy returnCount uniqueIdentifierField
      memoizedOrderBy in
  call fnReturnUnchangedData currentData rowFinal
    = Some (Normal (returnUnchangedData currentData))
  /\ call fnAddRowOptimistically currentData (Some row)
     = Some (Normal (addRowOptimistically clientSideOrderBy returnCount
                       memoizedOrderBy currentData row))
  /\ call fnEditRowOptimistically currentData (Some row)
     = Some (Normal (editRowOptimistically clientSideOrderBy
                       uniqueIdentifierField memoizedOrderBy currentData row))
  /\ call fnDeleteRowOptimistically currentData (Some row)
     = Some (deleteRowOptimistically returnCount uniqueIdentifierField
               currentData row)
  /\ call (fnReplaceData rows optimisticCount) currentData rowFinal
     = Some (Normal (replaceDataOptimistically currentData rows optimisticCount)).
Proof. destruct rowFinal; repeat split; reflexivity. Qed.


(** ** Properties of [handleMutation] *)

(** The calls of [resolve] among the events. *)
Definition isResolve (e : Event) : bool :=
  match e with
  | Resolve _ => true
  | _ => false
  end.

Definition resolveCalls (events : list Event) : nat :=
  length (List.filter isResolve events).

(** The events that start asynchronous work: a backend mutator or the
    cache's [mutate]. *)
Definition startsAsyncWork (e : Event) : bool :=
  match e with
  | CallMutator _ | Mutate _ _ => true
  | _ => false
  end.

Ltac exec_unfold :=
  cbv [mbind mret mthrow Exec_bind Exec_ret Exec_throw Completion_bind
       Completion_ret Completion_throw lift emit setIsMutating resolve uuid
       callback tryCatch].

Section MutationProperties.

Variable memoizedOnMutateSuccess : option (MutateResult.t -> Completion unit).
Variable memoizedOnError : option (SupabaseProviderError.t -> Completion unit).
Variable validateFlexibleMutationSettings :
  option string -> option string -> option RowOrRows ->
  option (list Filter) -> Completion unit.
Variable validateDynamicOptimisticSettings :
  option RowOrRows -> option string -> Completion unit.
Variable getMutationPhrases : string -> MutationPhrases.t.
Variable uuidToken : nat -> string.

Local Abbreviation validate :=
  (validateSettings validateFlexibleMutationSettings
     validateDynamicOptimisticSettings).
Local Abbreviation run :=
  (handleMutation validateFlexibleMutationSettings
     validateDynamicOptimisticSettings getMutationPhrases uuidToken).
Local Abbreviation runExecutor :=
  (executor validateFlexibleMutationSettings
     validateDynamicOptimisticSettings getMutationPhrases uuidToken).
Local Abbreviation runAll :=
  (lifecycle memoizedOnMutateSuccess memoizedOnError
     validateFlexibleMutationSettings validateDynamicOptimisticSettings
     getMutationPhrases uuidToken).

(** The errors of the configuration checks that come before the
    speculative inputs are used: what the validation of the settings
    throws, and the both-inputs error. *)
Definition configurationError (a : Args.t) (e : exn) : Prop :=
  validate (Args.mutationType a) (Args.dataForSupabase a)
    (Args.optimisticData a)
    (normalizeFlexibleMutationSettings (Args.flexibleMutationSettings a))
    (normalizeRpcSettings (Args.rpcSettings a)) = Throw e
  \/ checkOneSpeculativeInput (Args.optimisticRow a) (Args.optimisticData a)
     = Throw e.

(** C3. For every mutation type, a call with both [optimisticRow] and
    [optimisticData] throws a configuration error in the executor: the
    promise is rejected with it, [setIsMutating(true)] is the only thing
    done, and no handler runs later. *)
Theorem C3_both_speculative_inputs_fail_synchronously
    (a : Args.t) (mutating : bool) (uuidsSoFar : nat)
    (row : Row) (dataset : RowOrRows) :
  Args.optimisticRow a = Some row ->
  Args.optimisticData a = Some dataset ->
  exists e w,
    run a mutating uuidsSoFar = (None, w)
    /\ promise w = Rejected e
    /\ configurationError a e
    /\ trace w = [SetIsMutating true]
    /\ List.filter startsAsyncWork (trace w) = []
    /\ resolveCalls (trace w) = 0%nat
    /\ forall outcome, runAll a mutating uuidsSoFar outcome = w.
Proof.
  intros Hrow Hdata.
  assert (Hrun : exists e w,
    run a mutating uuidsSoFar = (None, w)
    /\ promise w = Rejected e /\ configurationError a e
    /\ trace w = [SetIsMutating true]).
  { unfold handleMutation, executor, configurationError, newCall.
    exec_unfold. simpl.
    destruct (validate _ _ _ _ _) as [[]|e] eqn:Hval.
    - rewrite Hrow, Hdata. simpl.
      eexists _, _. repeat split; eauto.
    - eexists _, _. repeat split; eauto. }
  destruct Hrun as (e & w & Hrun & Hp & Hc & Ht).
  exists e, w. repeat split; auto.
  - now rewrite Ht.
  - now rewrite Ht.
  - intros outcome. unfold lifecycle. now rewrite Hrun.
Qed.

(** The call a mutator function makes on the (normalized) arguments;
    the flexible and rpc mutators read their settings. *)
Definition mutatorCallOf (mutatorFunction : MutatorFunction) (a : Args.t)
    : option MutatorCall :=
  match mutatorFunction with
  | fnAddRowMutator =>
      Some (addRowMutator (Args.dataForSupabase a) (Args.shouldReturnRow a))
  | fnEditRowMutator =>
      Some (editRowMutator (Args.dataForSupabase a) (Args.shouldReturnRow a))
  | fnDeleteRowMutator =>
      Some (deleteRowMutator (Args.dataForSupabase a) (Args.shouldReturnRow a))
  | createFlexibleMutator =>
      (fun s =>
         flexibleMutator (FlexibleMutationSettings.tableName s)
           (FlexibleMutationSettings.operation s) (Args.dataForSupabase a)
           (FlexibleMutationSettings.filters s) (Args.shouldReturnRow a))
      <$> Args.flexibleMutationSettings a
  | createRpcMutator =>
      (fun s => runRpc (RpcSettings.rpcName s) (Args.dataForSupabase a))
      <$> Args.rpcSettings a
  end.

(** The final speculative row and dataset, from the two inputs and the
    token [uuid()] gives. *)
Definition rowFinalOf (a : Args.t) (token : string) : option OptimisticRow :=
  match Args.optimisticRow a, Args.optimisticData a with
  | Some row, _ => Some (stamp row token)
  | None, Some (OneRow object) => Some (stamp object token)
  | None, _ => None
  end.

Definition dataFinalOf (a : Args.t) : option Rows :=
  match Args.optimisticData a with
  | Some (ManyRows rows) => Some rows
  | _ => None
  end.

(** What the executor has done when it returns: the checks passed, the
    speculative inputs have their final shape, the promise is resolved
    with the pending envelope exactly when [returnImmediately] is set, and
    the mutator was called and its promise handed to [mutate]. *)
Lemma executor_normal (a : Args.t) (mutating : bool) (uuidsSoFar : nat)
    (m : InFlight) (w : World) :
  runExecutor a (newCall mutating uuidsSoFar) = (Normal m, w) ->
  let a' := normalizeArgs a in
  let pending :=
    envelope a' (optimisticRowFinal m) (optimisticDataFinal m) None None
      (MutationPhrases.inProgress (getMutationPhrases (Args.mutationType a)))
      "pending" None in
  exists mutatorFunction optimisticFunc call,
    args m = a'
    /\ mutationPhrases m = getMutationPhrases (Args.mutationType a)
    /\ optimisticRowFinal m = rowFinalOf a (uuidToken uuidsSoFar)
    /\ optimisticDataFinal m = dataFinalOf a
    /\ (Args.optimisticRow a = None \/ Args.optimisticData a = None)
    /\ mutatorCallOf mutatorFunction a' = Some call
    /\ selectFunctions (Args.mutationType a)
         (Args.flexibleMutationSettings a') (Args.rpcSettings a')
         (optimisticRowFinal m) (optimisticDataFinal m)
         (Args.optimisticCount a) = Normal (mutatorFunction, optimisticFunc)
    /\ promise w = (if Args.returnImmediately a then Fulfilled pending else Pending)
    /\ trace w =
         SetIsMutating true
         :: (if Args.returnImmediately a then [Resolve pending] else [])
         ++ [CallMutator call; Mutate optimisticFunc (optimisticRowFinal m)].
Proof.
  unfold executor, newCall, rowFinalOf, dataFinalOf. exec_unfold. simpl.
  destruct (validate _ _ _ _ _) as [[]|e]; [|discriminate].
  unfold checkOneSpeculativeInput, materialize. exec_unfold. simpl.
  destruct (Args.optimisticRow a) as [row|],
           (Args.optimisticData a) as [[object|rows]|]; simpl;
    try discriminate.
  all: destruct (Args.returnImmediately a); simpl.
  all: match goal with
       | |- context [selectFunctions ?t ?f ?r ?x ?y ?c] =>
           destruct (selectFunctions t f r x y c) as [[mf fn]|e] eqn:Hsel;
           [|discriminate]
       end.
  all: unfold callMutatorFunction; exec_unfold;
    destruct mf; simpl;
    try (destruct (normalizeFlexibleMutationSettings _) eqn:Hflex; [|discriminate]);
    try (destruct (normalizeRpcSettings _) eqn:Hrpc; [|discriminate]);
    simpl; intros H; injection H as <- <-; simpl;
    eexists _, _, _; repeat split; eauto;
    simpl; rewrite ?Hflex, ?Hrpc; reflexivity.
Qed.

Lemma run_normal (a : Args.t) (mutating : bool) (uuidsSoFar : nat)
    (m : InFlight) (w : World) :
  run a mutating uuidsSoFar = (Some m, w) ->
  runExecutor a (newCall mutating uuidsSoFar) = (Normal m, w).
Proof.
  unfold handleMutation.
  destruct (runExecutor a (newCall mutating uuidsSoFar)) as [[m' | e] w'];
    intros H; [now injection H as -> -> | discriminate].
Qed.

(** The error object and the error envelope of the [catch] handler. *)
Definition errorFor (m : InFlight) (err : exn) : SupabaseProviderError.t :=
  buildSupabaseProviderError err (Args.mutationType (args m))
    (MutationPhrases.error (mutationPhrases m))
    (Args.dataForSupabase (args m))
    (rowOrDataOrNull (optimisticRowFinal m) (optimisticDataFinal m))
    (Args.customMetadata (args m)).

Definition errorEnvelope (m : InFlight) (err : exn) : MutateResult.t :=
  envelope (args m) (optimisticRowFinal m) (optimisticDataFinal m) None None
    (MutationPhrases.error (mutationPhrases m)) "error"
    (Some (errorFor m err)).

(** The error callback, when there is one, returns. *)
Definition errorCallbackReturns : Prop :=
  forall f e, memoizedOnError = Some f -> f e = Normal tt.

Lemma onRejected_runs (m : InFlight) (err : exn) (w : World) :
  errorCallbackReturns ->
  exists w',
    onRejected memoizedOnError m err w = (Normal tt, w')
    /\ trace w' =
         trace w
         ++ match memoizedOnError with
            | Some _ => [OnError (errorFor m err)]
            | None => []
            end
         ++ (if Args.returnImmediately (args m) then []
             else [Resolve (errorEnvelope m err)])
    /\ promise w' =
         (if Args.returnImmediately (args m) then promise w
          else match promise w with
               | Pending => Fulfilled (errorEnvelope m err)
               | settled => settled
               end).
Proof.
  intros Hcb. unfold onRejected. exec_unfold.
  fold (errorFor m err). fold (errorEnvelope m err).
  destruct memoizedOnError as [f|] eqn:Hf; simpl.
  - rewrite (Hcb f (errorFor m err) Hf).
    destruct (Args.returnImmediately (args m)); simpl;
      eexists; repeat split; simpl; rewrite <- ?app_assoc; reflexivity.
  - destruct (Args.returnImmediately (args m)); simpl;
      eexists; repeat split; simpl; rewrite ?app_nil_r; reflexivity.
Qed.

(** The [catch] handler whatever the error callback does: the callback is
    called first, and the promise is left as it is or resolved. *)
Lemma onRejected_any (m : InFlight) (err : exn) (w : World) :
  let w' := snd (onRejected memoizedOnError m err w) in
  (exists later,
     trace w' =
       trace w
       ++ match memoizedOnError with
          | Some _ => [OnError (errorFor m err)]
          | None => []
          end
       ++ later)
  /\ (promise w' = promise w \/ exists result, promise w' = Fulfilled result).
Proof.
  unfold onRejected. exec_unfold.
  fold (errorFor m err). fold (errorEnvelope m err).
  destruct memoizedOnError as [f|].
  - destruct (f (errorFor m err)) as [[]|e];
      [destruct (Args.returnImmediately (args m))|]; simpl.
    + split; [exists []; reflexivity | now left].
    + split; [exists [Resolve (errorEnvelope m err)]; now rewrite <- app_assoc|].
      destruct (promise w); eauto.
    + split; [exists []; reflexivity | now left].
  - destruct (Args.returnImmediately (args m)); simpl.
    + split; [exists []; now rewrite app_nil_r | now left].
    + split; [exists [Resolve (errorEnvelope m err)]; reflexivity|].
      destruct (promise w); eauto.
Qed.

(** C8, as the code has it.  When the promise of [mutate] rejects with
    [err], the [catch] handler builds the error object from [err], the
    mutation type, the error phrase, [dataForSupabase], the speculative
    input (the stamped row if there is one, else the dataset, else [null])
    and the custom metadata, and gives it to the error callback if there is
    one; the promise is never rejected.  When the callback returns, the
    handler, unless the promise was resolved at once, resolves it with the
    error-status envelope, and throws nothing. *)
Theorem C8_rejection_is_reported_not_thrown
    (a : Args.t) (mutating : bool) (uuidsSoFar : nat)
    (m : InFlight) (w : World) (err : exn) :
  run a mutating uuidsSoFar = (Some m, w) ->
  let speculativeInput :=
    match rowFinalOf a (uuidToken uuidsSoFar) with
    | Some row => Some (OneRow row)
    | None => ManyRows <$> dataFinalOf a
    end in
  let supabaseProviderError :=
    buildSupabaseProviderError err (Args.mutationType a)
      (MutationPhrases.error (getMutationPhrases (Args.mutationType a)))
      (Args.dataForSupabase a) speculativeInput (Args.customMetadata a) in
  let final := runAll a mutating uuidsSoFar (Throw err) in
  (exists later,
     trace final =
       trace w
       ++ match memoizedOnError with
          | Some _ => [OnError supabaseProviderError]
          | None => []
          end
       ++ later)
  /\ (forall reason, promise final <> Rejected reason)
  /\ SupabaseProviderError.error supabaseProviderError = err
  /\ SupabaseProviderError.actionAttempted supabaseProviderError
     = Args.mutationType a
  /\ SupabaseProviderError.summary supabaseProviderError
     = MutationPhrases.error (getMutationPhrases (Args.mutationType a))
  /\ SupabaseProviderError.dataForSupabase supabaseProviderError
     = Args.dataForSupabase a
  /\ SupabaseProviderError.optimisticData supabaseProviderError
     = speculativeInput
  /\ SupabaseProviderError.customMetadata supabaseProviderError
     = Args.customMetadata a
  /\ (errorCallbackReturns ->
      exists result,
        settle memoizedOnMutateSuccess memoizedOnError m (Throw err) w
          = (Normal tt, final)
        /\ trace final =
             trace w
             ++ match memoizedOnError with
                | Some _ => [OnError supabaseProviderError]
                | None => []
                end
             ++ (if Args.returnImmediately a then [] else [Resolve result])
        /\ MutateResult.status result = "error"
        /\ MutateResult.error result = Some supabaseProviderError
        /\ MutateResult.action result = Args.mutationType a
        /\ MutateResult.dataForSupabase result = Args.dataForSupabase a
        /\ MutateResult.optimisticData result = speculativeInput
        /\ MutateResult.customMetadata result = Args.customMetadata a
        /\ (if Args.returnImmediately a
            then promise final = promise w
                 /\ exists pending, promise w = Fulfilled pending
            else promise final = Fulfilled result)).
Proof.
  intros Hrun speculativeInput supabaseProviderError final.
  pose proof (executor_normal a mutating uuidsSoFar m w (run_normal _ _ _ _ _ Hrun))
    as (mf & fn & call & Hargs & Hphr & HmRow & HmData & _ & _ & _ & Hpromise & _).
  assert (Hinput : rowOrDataOrNull (optimisticRowFinal m) (optimisticDataFinal m)
                   = speculativeInput).
  { subst speculativeInput. rewrite HmRow, HmData. unfold rowOrDataOrNull.
    destruct (rowFinalOf a (uuidToken uuidsSoFar)); [reflexivity|].
    destruct (dataFinalOf a); reflexivity. }
  assert (Herr : errorFor m err = supabaseProviderError).
  { unfold errorFor. rewrite Hargs, Hphr, Hinput. reflexivity. }
  assert (Hri : Args.returnImmediately (args m) = Args.returnImmediately a).
  { rewrite Hargs. reflexivity. }
  assert (Hfinal : final = snd (onRejected memoizedOnError m err w)).
  { subst final. unfold lifecycle. now rewrite Hrun. }
  destruct (onRejected_any m err w) as [Hlater Hkept].
  rewrite <- Hfinal, Herr in Hlater. rewrite <- Hfinal in Hkept.
  split; [exact Hlater|]. split.
  { intros reason. destruct Hkept as [-> | [result ->]]; [|discriminate].
    rewrite Hpromise. destruct (Args.returnImmediately a); discriminate. }
  do 6 (split; [reflexivity|]).
  intros Hcb.
  destruct (onRejected_runs m err w Hcb) as (w' & Hsettle & Htrace & Hp).
  assert (Hw' : final = w') by (rewrite Hfinal, Hsettle; reflexivity).
  rewrite <- Hw' in Hsettle, Htrace, Hp.
  exists (errorEnvelope m err).
  split; [exact Hsettle|]. split.
  { rewrite Htrace, Herr, Hri. reflexivity. }
  split; [reflexivity|]. split; [simpl; now rewrite Herr|].
  split; [simpl; now rewrite Hargs|]. split; [simpl; now rewrite Hargs|].
  split; [exact Hinput|].
  split; [simpl; now rewrite Hargs|].
  rewrite Hri in Hp. rewrite Hp, Hpromise.
  destruct (Args.returnImmediately a).
  - split; [reflexivity | eauto].
  - reflexivity.
Qed.

Lemma resolveCalls_app (t1 t2 : list Event) :
  resolveCalls (t1 ++ t2) = (resolveCalls t1 + resolveCalls t2)%nat.
Proof. unfold resolveCalls. now rewrite List.filter_app, length_app. Qed.

(** The handlers on any outcome of [mutate]: callbacks first, then at
    most one [resolve], which is there exactly when the promise was not
    resolved at once. *)
Lemma settle_runs (m : InFlight)
    (outcome : Completion (option SupabaseProviderFetchResult)) (w : World) :
  errorCallbackReturns ->
  exists w' callbacks result,
    settle memoizedOnMutateSuccess memoizedOnError m outcome w = (Normal tt, w')
    /\ trace w' =
         trace w ++ callbacks
         ++ (if Args.returnImmediately (args m) then [] else [Resolve result])
    /\ List.filter isResolve callbacks = []
    /\ (MutateResult.status result = "success"
        \/ MutateResult.status result = "error")
    /\ promise w' =
         (if Args.returnImmediately (args m) then promise w
          else match promise w with
               | Pending => Fulfilled result
               | settled => settled
               end).
Proof.
  intros Hcb. destruct outcome as [response|err]; simpl.
  - unfold onFulfilled.
    set (r := envelope _ _ _ _ _ _ "success" _).
    assert (Hr : MutateResult.status r = "success") by reflexivity.
    clearbody r. exec_unfold.
    destruct memoizedOnMutateSuccess as [f|].
    + destruct (f r) as [[]|e].
      * exists
          (if Args.returnImmediately (args m)
           then {| isMutating := isMutating w; promise := promise w;
                   uuids := uuids w;
                   trace := trace w ++ [OnMutateSuccess r] |}
           else {| isMutating := isMutating w;
                   promise := match promise w with
                              | Pending => Fulfilled r
                              | settled => settled
                              end;
                   uuids := uuids w;
                   trace := (trace w ++ [OnMutateSuccess r]) ++ [Resolve r] |}),
          [OnMutateSuccess r], r.
        destruct (Args.returnImmediately (args m)); simpl;
          repeat split; rewrite <- ?app_assoc; auto.
      * match goal with
        | |- context [onRejected _ _ _ ?w1] =>
            destruct (onRejected_runs m e w1 Hcb) as (w' & Hrun & Htrace & Hp)
        end.
        exists w',
          (OnMutateSuccess r
           :: match memoizedOnError with
              | Some _ => [OnError (errorFor m e)]
              | None => []
              end),
          (errorEnvelope m e).
        split; [exact Hrun|]. simpl in Htrace, Hp.
        split; [rewrite Htrace; rewrite <- !app_assoc; reflexivity|].
        split; [destruct memoizedOnError; reflexivity|].
        split; [right; reflexivity | exact Hp].
    + exists
        (if Args.returnImmediately (args m) then w
         else {| isMutating := isMutating w;
                 promise := match promise w with
                            | Pending => Fulfilled r
                            | settled => settled
                            end;
                 uuids := uuids w;
                 trace := trace w ++ [Resolve r] |}),
        [], r.
      destruct (Args.returnImmediately (args m)); simpl;
        repeat split; rewrite ?app_nil_r; auto.
  - destruct (onRejected_runs m err w Hcb) as (w' & Hrun & Htrace & Hp).
    exists w',
      (match memoizedOnError with
       | Some _ => [OnError (errorFor m err)]
       | None => []
       end),
      (errorEnvelope m err).
    split; [exact Hrun|]. split; [exact Htrace|].
    split; [destruct memoizedOnError; reflexivity|].
    split; [right; reflexivity | exact Hp].
Qed.

(** [resolve] is called at most once in the executor, and not at all
    without [returnImmediately], whether the executor returns or throws. *)
Lemma executor_resolveCalls (a : Args.t) (mutating : bool) (uuidsSoFar : nat) :
  let w := snd (runExecutor a (newCall mutating uuidsSoFar)) in
  (resolveCalls (trace w) <= 1)%nat
  /\ (Args.returnImmediately a = false ->
      resolveCalls (trace w) = 0%nat /\ promise w = Pending).
Proof.
  unfold executor, newCall. exec_unfold. simpl.
  destruct (validate _ _ _ _ _) as [[]|e]; [|simpl; split; auto].
  unfold checkOneSpeculativeInput, materialize. exec_unfold. simpl.
  destruct (Args.optimisticRow a) as [row|],
           (Args.optimisticData a) as [[object|rows]|]; simpl;
    try (split; auto; fail).
  all: destruct (Args.returnImmediately a); simpl.
  all: match goal with
       | |- context [selectFunctions ?t ?f ?r ?x ?y ?c] =>
           destruct (selectFunctions t f r x y c) as [[mf fn]|e];
           [|simpl; split; [auto | intros; auto; discriminate]]
       end.
  all: unfold callMutatorFunction; exec_unfold;
    destruct mf; simpl;
    try destruct (normalizeFlexibleMutationSettings _);
    try destruct (normalizeRpcSettings _);
    simpl; split; auto; intros; discriminate.
Qed.

(** The handlers call [resolve] at most once, and not at all with
    [returnImmediately], whatever the callbacks do. *)
Lemma settle_resolveCalls (m : InFlight)
    (outcome : Completion (option SupabaseProviderFetchResult)) (w : World) :
  (resolveCalls
     (trace (snd (settle memoizedOnMutateSuccess memoizedOnError m outcome w)))
   <= resolveCalls (trace w)
      + (if Args.returnImmediately (args m) then 0 else 1))%nat.
Proof.
  assert (Hrej : forall err w0,
    (resolveCalls (trace (snd (onRejected memoizedOnError m err w0)))
     <= resolveCalls (trace w0)
        + (if Args.returnImmediately (args m) then 0 else 1))%nat).
  { intros err w0. unfold onRejected. exec_unfold.
    destruct memoizedOnError as [f|].
    - destruct (f _) as [[]|e]; destruct (Args.returnImmediately (args m));
        simpl; rewrite ?resolveCalls_app; simpl; unfold resolveCalls; simpl; lia.
    - destruct (Args.returnImmediately (args m));
        simpl; rewrite ?resolveCalls_app; simpl; unfold resolveCalls; simpl; lia. }
  destruct outcome as [response|err]; simpl; [|apply Hrej].
  unfold onFulfilled. set (r := envelope _ _ _ _ _ _ "success" _). clearbody r.
  exec_unfold.
  destruct memoizedOnMutateSuccess as [f|].
  - destruct (f r) as [[]|e].
    + destruct (Args.returnImmediately (args m));
        simpl; rewrite ?resolveCalls_app; simpl; unfold resolveCalls; simpl; lia.
    + etransitivity; [apply Hrej|]. simpl.
      rewrite resolveCalls_app. unfold resolveCalls at 2. simpl. lia.
  - destruct (Args.returnImmediately (args m));
      simpl; rewrite ?resolveCalls_app; simpl; unfold resolveCalls; simpl; lia.
Qed.

(** C7, as the code has it.  In every call [resolve] is called at most
    once.  In every call whose synchronous part reaches [mutate], and with
    an error callback that returns, it is called exactly once, for every
    outcome of [mutate]: with [returnImmediately] in the executor, before
    the mutator is called, with the pending envelope, the handlers then
    only running the callbacks; without it by the handlers, with a success
    or error envelope, the executor having left the promise pending.  A
    call without [returnImmediately] whose synchronous part throws is
    never resolved: its promise is rejected. *)
Theorem C7_promise_resolved_once_when_checks_pass
    (a : Args.t) (mutating : bool) (uuidsSoFar : nat)
    (outcome : Completion (option SupabaseProviderFetchResult)) :
  let final := runAll a mutating uuidsSoFar outcome in
  (resolveCalls (trace final) <= 1)%nat
  /\ (forall m w,
       run a mutating uuidsSoFar = (Some m, w) ->
       errorCallbackReturns ->
       resolveCalls (trace final) = 1%nat
       /\ (exists later, trace final = trace w ++ later)
       /\ (Args.returnImmediately a = true ->
           exists pending before after,
             trace w = before ++ Resolve pending :: after
             /\ List.filter startsAsyncWork before = []
             /\ MutateResult.status pending = "pending"
             /\ promise w = Fulfilled pending
             /\ promise final = Fulfilled pending
             /\ resolveCalls (trace w) = 1%nat)
       /\ (Args.returnImmediately a = false ->
           promise w = Pending
           /\ resolveCalls (trace w) = 0%nat
           /\ exists result,
                promise final = Fulfilled result
                /\ (MutateResult.status result = "success"
                    \/ MutateResult.status result = "error")))
  /\ forall w,
       run a mutating uuidsSoFar = (None, w) ->
       Args.returnImmediately a = false ->
       final = w
       /\ resolveCalls (trace w) = 0%nat
       /\ exists e, promise w = Rejected e.
Proof.
  intros final. split; [|split].
  { subst final. unfold lifecycle.
    pose proof (executor_resolveCalls a mutating uuidsSoFar) as [Hle Hzero].
    unfold handleMutation.
    destruct (runExecutor a (newCall mutating uuidsSoFar)) as [[m|e] w] eqn:Hex;
      simpl in Hle, Hzero |- *; [|exact Hle].
    pose proof (executor_normal a mutating uuidsSoFar m w Hex)
      as (_ & _ & _ & Hargs & _).
    pose proof (settle_resolveCalls m outcome w) as Hsettle.
    rewrite Hargs in Hsettle. simpl in Hsettle.
    destruct (Args.returnImmediately a); [lia|].
    destruct (Hzero eq_refl) as [Hz _].
    rewrite Hz in Hsettle. exact Hsettle. }
  2: { intros w Hrun Himm. subst final. unfold lifecycle. rewrite Hrun.
       pose proof (executor_resolveCalls a mutating uuidsSoFar) as [_ Hzero].
       destruct (Hzero Himm) as [Hz Hp].
       unfold handleMutation in Hrun.
       destruct (runExecutor a (newCall mutating uuidsSoFar)) as [[m|e] w0];
         [discriminate|].
       injection Hrun as <-. simpl in Hz, Hp |- *.
       split; [reflexivity|]. split; [exact Hz|].
       exists e. now rewrite Hp. }
  intros m w Hrun Hcb.
  pose proof (executor_normal a mutating uuidsSoFar m w (run_normal _ _ _ _ _ Hrun))
    as (mf & fn & call & Hargs & _ & _ & _ & _ & _ & _ & Hpromise & Htrace).
  destruct (settle_runs m outcome w Hcb)
    as (w' & callbacks & result & Hsettle & Htrace' & Hnores & Hstatus & Hp).
  assert (Hfinal : final = w').
  { subst final. unfold lifecycle. rewrite Hrun. simpl. now rewrite Hsettle. }
  assert (Hri : Args.returnImmediately (args m) = Args.returnImmediately a).
  { rewrite Hargs. reflexivity. }
  rewrite Hri in Htrace', Hp. rewrite Hfinal.
  assert (Hcbs : resolveCalls callbacks = 0%nat).
  { unfold resolveCalls. now rewrite Hnores. }
  split; [|split; [|split]].
  - rewrite Htrace', !resolveCalls_app, Hcbs, Htrace.
    destruct (Args.returnImmediately a); reflexivity.
  - eexists. exact Htrace'.
  - intros Himm. rewrite Himm in *.
    eexists _, [SetIsMutating true], _.
    split; [exact Htrace|]. split; [reflexivity|]. split; [reflexivity|].
    split; [exact Hpromise|]. split; [now rewrite Hp|].
    rewrite Htrace. reflexivity.
  - intros Himm. rewrite Himm in *.
    split; [exact Hpromise|]. split; [rewrite Htrace; reflexivity|].
    exists result. rewrite Hp, Hpromise. auto.
Qed.

(** The executor reaches [mutate] whenever the validation passes, at most
    one speculative input is given, a mutator and an optimistic function
    are selected, and the selected mutator finds its settings. *)
Lemma run_reaches_mutate (a : Args.t) (mutating : bool) (uuidsSoFar : nat)
    (mutatorFunction : MutatorFunction) (optimisticFunc : OptimisticFunc)
    (call : MutatorCall) :
  let a' := normalizeArgs a in
  validate (Args.mutationType a) (Args.dataForSupabase a)
    (Args.optimisticData a) (Args.flexibleMutationSettings a')
    (Args.rpcSettings a') = Normal tt ->
  (Args.optimisticRow a = None \/ Args.optimisticData a = None) ->
  selectFunctions (Args.mutationType a) (Args.flexibleMutationSettings a')
    (Args.rpcSettings a') (rowFinalOf a (uuidToken uuidsSoFar))
    (dataFinalOf a) (Args.optimisticCount a)
    = Normal (mutatorFunction, optimisticFunc) ->
  mutatorCallOf mutatorFunction a' = Some call ->
  exists m w before,
    run a mutating uuidsSoFar = (Some m, w)
    /\ args m = a'
    /\ optimisticRowFinal m = rowFinalOf a (uuidToken uuidsSoFar)
    /\ optimisticDataFinal m = dataFinalOf a
    /\ trace w =
         before
         ++ [CallMutator call;
             Mutate optimisticFunc (rowFinalOf a (uuidToken uuidsSoFar))]
    /\ List.filter startsAsyncWork before = [].
Proof.
  intros a' Hval Hone Hsel Hcall.
  assert (Hex : exists m w, runExecutor a (newCall mutating uuidsSoFar) = (Normal m, w)).
  { subst a'. revert Hval Hsel Hcall.
    unfold executor, newCall, rowFinalOf, dataFinalOf. exec_unfold. simpl.
    intros -> Hsel Hcall.
    unfold checkOneSpeculativeInput, materialize. exec_unfold. simpl.
    destruct Hone as [Hone | Hone]; rewrite Hone in *;
      destruct (Args.optimisticRow a) as [row|] eqn:Hrow;
      destruct (Args.optimisticData a) as [[object|rows]|] eqn:Hdata;
      try discriminate; simpl;
      destruct (Args.returnImmediately a); simpl; rewrite Hsel; simpl;
      unfold callMutatorFunction; exec_unfold;
      destruct mutatorFunction; simpl in Hcall |- *;
      try (destruct (normalizeFlexibleMutationSettings _); [|discriminate]);
      try (destruct (normalizeRpcSettings _); [|discriminate]);
      eauto. }
  destruct Hex as (m & w & Hex).
  pose proof (executor_normal a mutating uuidsSoFar m w Hex)
    as (mf & fn & call' & Hargs & _ & Hrow & Hdata & _ & Hcall' & Hsel' & _ & Htrace).
  rewrite Hrow, Hdata in Hsel'. fold a' in Hsel', Hcall'.
  rewrite Hsel in Hsel'. injection Hsel' as <- <-.
  rewrite Hcall in Hcall'. injection Hcall' as <-.
  exists m, w,
    (SetIsMutating true
     :: (if Args.returnImmediately a
         then [Resolve (envelope a' (optimisticRowFinal m) (optimisticDataFinal m)
                          None None
                          (MutationPhrases.inProgress
                             (getMutationPhrases (Args.mutationType a)))
                          "pending" None)]
         else [])).
  split; [unfold handleMutation; now rewrite Hex|].
  split; [exact Hargs|]. split; [exact Hrow|]. split; [exact Hdata|].
  split.
  - rewrite Htrace, Hrow. destruct (Args.returnImmediately a); reflexivity.
  - destruct (Args.returnImmediately a); reflexivity.
Qed.

(** *** The delete transform inside [handleMutation] *)

Context {OrderBy : Type}.
Variable clientSideOrderBy : list OrderBy -> Rows -> Rows.
Variable returnCount : option string.
Variable uniqueIdentifierField : string.
Variable memoizedOrderBy : list OrderBy.

(** The [optimisticData] producer handed to [mutate]:
    [(currentData) => optimisticFunc(currentData, optimisticRowFinal)]. *)
Local Abbreviation producer :=
  (callOptimisticFunc clientSideOrderBy returnCount uniqueIdentifierField
     memoizedOrderBy).

(** C2, as the code has it.  In a delete mutation whose speculative row
    has a unique-identifier value that is neither a number nor a string,
    the executor calls [deleteRowMutator] and hands its promise to
    [mutate] together with the delete transform; the transform throws the
    invalid-input error on every snapshot that is not absent, and returns
    the null-shaped snapshot on an absent one. *)
Theorem C2_delete_without_scalar_identifier
    (a : Args.t) (mutating : bool) (uuidsSoFar : nat) (row : Row) :
  Args.mutationType a = "delete" ->
  Args.optimisticRow a = Some row ->
  Args.optimisticData a = None ->
  let speculativeRow := stamp row (uuidToken uuidsSoFar) in
  scalarIdentifier (Js.get speculativeRow uniqueIdentifierField) = false ->
  exists m w before,
    run a mutating uuidsSoFar = (Some m, w)
    /\ trace w =
         before
         ++ [CallMutator (deleteRowMutator (Args.dataForSupabase a)
                            (Args.shouldReturnRow a));
             Mutate fnDeleteRowOptimistically (Some speculativeRow)]
    /\ List.filter startsAsyncWork before = []
    /\ (forall currentData,
          producer fnDeleteRowOptimistically (Some currentData)
            (Some speculativeRow)
          = Some (Throw (Error invalidDeleteMessage)))
    /\ producer fnDeleteRowOptimistically None (Some speculativeRow)
       = Some (Normal {| data := None; count := None |}).
Proof.
  intros Hmt Hrow Hdata speculativeRow Hscalar.
  assert (HrowF : rowFinalOf a (uuidToken uuidsSoFar) = Some speculativeRow).
  { unfold rowFinalOf. now rewrite Hrow. }
  destruct (run_reaches_mutate a mutating uuidsSoFar fnDeleteRowMutator
              fnDeleteRowOptimistically
              (deleteRowMutator (Args.dataForSupabase a) (Args.shouldReturnRow a)))
    as (m & w & before & Hrun & _ & _ & _ & Htrace & Hbefore).
  - unfold validateSettings. rewrite Hmt. reflexivity.
  - now right.
  - unfold selectFunctions. rewrite Hmt, HrowF. reflexivity.
  - reflexivity.
  - exists m, w, before. rewrite HrowF in Htrace.
    split; [exact Hrun|]. split; [exact Htrace|]. split; [exact Hbefore|].
    split; [|reflexivity].
    intros currentData. simpl. unfold deleteRowOptimistically.
    unfold scalarIdentifier in Hscalar. apply orb_false_iff in Hscalar.
    destruct Hscalar as [-> ->]. reflexivity.
Qed.

(** A row transform is only selected when there is a speculative row, so
    the producer handed to [mutate] is always a well-typed call. *)
Lemma chooseOptimisticFunction_without_row (op : option string)
    (dataFinal : option Rows) (optimisticCount : option Z)
    (optimisticFunc : OptimisticFunc) :
  chooseOptimisticFunction op None dataFinal optimisticCount
    = Normal optimisticFunc ->
  optimisticFunc = fnReturnUnchangedData
  \/ exists rows, optimisticFunc = fnReplaceData rows optimisticCount.
Proof.
  unfold chooseOptimisticFunction. destruct op as [op|].
  - destruct (String.eqb op "addRow"); [intros H; injection H as <-; auto|].
    destruct (String.eqb op "editRow"); [intros H; injection H as <-; auto|].
    destruct (String.eqb op "deleteRow"); [intros H; injection H as <-; auto|].
    destruct (String.eqb op "replaceData"); [|discriminate].
    destruct dataFinal; intros H; injection H as <-; eauto.
  - intros H. injection H as <-. auto.
Qed.

Lemma mutate_row_supplied (a : Args.t) (mutating : bool) (uuidsSoFar : nat)
    (m : InFlight) (w : World) :
  run a mutating uuidsSoFar = (Some m, w) ->
  exists before call optimisticFunc,
    trace w = before ++ [CallMutator call;
                         Mutate optimisticFunc (optimisticRowFinal m)]
    /\ forall currentData,
         is_Some (producer optimisticFunc currentData (optimisticRowFinal m)).
Proof.
  intros Hrun.
  pose proof (executor_normal a mutating uuidsSoFar m w (run_normal _ _ _ _ _ Hrun))
    as (mf & fn & call & _ & _ & _ & _ & _ & _ & Hsel & _ & Htrace).
  eexists _, call, fn. split; [rewrite Htrace, app_comm_cons; reflexivity|].
  intros currentData.
  destruct (optimisticRowFinal m) as [row|].
  - destruct fn; simpl; eauto.
  - assert (Hfn : fn = fnReturnUnchangedData
                  \/ exists rows, fn = fnReplaceData rows (Args.optimisticCount a)).
    { revert Hsel. unfold selectFunctions.
      repeat match goal with
             | |- context [String.eqb (Args.mutationType a) ?k] =>
                 destruct (String.eqb (Args.mutationType a) k)
             end;
        try (intros H; injection H as <- <-; auto; fail);
        try discriminate.
      all: cbv [mbind mret Completion_bind Completion_ret];
        match goal with
        | |- context [chooseOptimisticFunction ?o None ?d ?c] =>
            destruct (chooseOptimisticFunction o None d c) as [f|e] eqn:Hchoose;
            [|discriminate]
        end;
        intros H; injection H as <- <-;
        eapply chooseOptimisticFunction_without_row; eauto. }
    destruct Hfn as [-> | [rows ->]]; simpl; eauto.
Qed.

(** Stamping leaves every column but the two it writes as it was. *)
Lemma stamp_get_other (row : Row) (id field : string) :
  field <> "optimisticId" -> field <> "isOptimistic" ->
  Js.get (stamp row id) field = Js.get row field.
Proof.
  intros H1 H2. unfold Js.get, stamp.
  rewrite !lookup_insert_ne by congruence. reflexivity.
Qed.

Lemma stamp_get_stamps (row : Row) (id : string) :
  Js.get (stamp row id) "optimisticId" = Js.Str id
  /\ Js.get (stamp row id) "isOptimistic" = Js.Boolean true.
Proof.
  unfold Js.get, stamp. split.
  - rewrite lookup_insert_ne by discriminate. now rewrite lookup_insert_eq.
  - now rewrite lookup_insert_eq.
Qed.

(** *** The empty-string operation *)

Definition withFlexibleOptimisticOperation (a : Args.t)
    (s : FlexibleMutationSettings.t) (op : option string) : Args.t :=
  {| Args.mutationType := Args.mutationType a;
     Args.dataForSupabase := Args.dataForSupabase a;
     Args.shouldReturnRow := Args.shouldReturnRow a;
     Args.returnImmediately := Args.returnImmediately a;
     Args.optimisticRow := Args.optimisticRow a;
     Args.optimisticData := Args.optimisticData a;
     Args.optimisticCount := Args.optimisticCount a;
     Args.customMetadata := Args.customMetadata a;
     Args.flexibleMutationSettings :=
       Some {| FlexibleMutationSettings.tableName :=
                 FlexibleMutationSettings.tableName s;
               FlexibleMutationSettings.operation :=
                 FlexibleMutationSettings.operation s;
               FlexibleMutationSettings.filters :=
                 FlexibleMutationSettings.filters s;
               FlexibleMutationSettings.optimisticOperation := op |};
     Args.rpcSettings := Args.rpcSettings a |}.

Definition withRpcOptimisticOperation (a : Args.t)
    (s : RpcSettings.t) (op : option string) : Args.t :=
  {| Args.mutationType := Args.mutationType a;
     Args.dataForSupabase := Args.dataForSupabase a;
     Args.shouldReturnRow := Args.shouldReturnRow a;
     Args.returnImmediately := Args.returnImmediately a;
     Args.optimisticRow := Args.optimisticRow a;
     Args.optimisticData := Args.optimisticData a;
     Args.optimisticCount := Args.optimisticCount a;
     Args.customMetadata := Args.customMetadata a;
     Args.flexibleMutationSettings := Args.flexibleMutationSettings a;
     Args.rpcSettings :=
       Some {| RpcSettings.rpcName := RpcSettings.rpcName s;
               RpcSettings.optimisticOperation := op |} |}.

Lemma run_normalized (a b : Args.t) (mutating : bool) (uuidsSoFar : nat) :
  normalizeArgs a = normalizeArgs b ->
  run a mutating uuidsSoFar = run b mutating uuidsSoFar.
Proof.
  intros H. unfold handleMutation, executor. exec_unfold. simpl.
  change (Args.mutationType a) with (Args.mutationType (normalizeArgs a)).
  change (Args.dataForSupabase a) with (Args.dataForSupabase (normalizeArgs a)).
  change (Args.optimisticData a) with (Args.optimisticData (normalizeArgs a)).
  change (normalizeFlexibleMutationSettings (Args.flexibleMutationSettings a))
    with (Args.flexibleMutationSettings (normalizeArgs a)).
  change (normalizeRpcSettings (Args.rpcSettings a))
    with (Args.rpcSettings (normalizeArgs a)).
  change (Args.optimisticRow a) with (Args.optimisticRow (normalizeArgs a)).
  change (Args.returnImmediately a) with (Args.returnImmediately (normalizeArgs a)).
  change (Args.optimisticCount a) with (Args.optimisticCount (normalizeArgs a)).
  change (Args.shouldReturnRow a) with (Args.shouldReturnRow (normalizeArgs a)).
  rewrite H. reflexivity.
Qed.

Lemma runAll_of_run (a b : Args.t) (mutating : bool) (uuidsSoFar : nat)
    (outcome : Completion (option SupabaseProviderFetchResult)) :
  run a mutating uuidsSoFar = run b mutating uuidsSoFar ->
  runAll a mutating uuidsSoFar outcome = runAll b mutating uuidsSoFar outcome.
Proof. intros H. unfold lifecycle. now rewrite H. Qed.

(** C9. A flexible mutation or rpc whose [optimisticOperation] is the
    empty string does exactly what the same call does with
    [optimisticOperation] undefined, in the executor and in the handlers
    on every outcome; the selection yields [returnUnchangedData], and that
    is the function handed to [mutate] whenever [mutate] is reached. *)
Theorem C9_empty_string_operation_is_unset
    (a : Args.t) (flexible : FlexibleMutationSettings.t) (rpc : RpcSettings.t)
    (mutating : bool) (uuidsSoFar : nat)
    (outcome : Completion (option SupabaseProviderFetchResult)) :
  let flexibleEmpty := withFlexibleOptimisticOperation a flexible (Some "") in
  let flexibleUnset := withFlexibleOptimisticOperation a flexible None in
  let rpcEmpty := withRpcOptimisticOperation a rpc (Some "") in
  let rpcUnset := withRpcOptimisticOperation a rpc None in
  run flexibleEmpty mutating uuidsSoFar = run flexibleUnset mutating uuidsSoFar
  /\ runAll flexibleEmpty mutating uuidsSoFar outcome
     = runAll flexibleUnset mutating uuidsSoFar outcome
  /\ run rpcEmpty mutating uuidsSoFar = run rpcUnset mutating uuidsSoFar
  /\ runAll rpcEmpty mutating uuidsSoFar outcome
     = runAll rpcUnset mutating uuidsSoFar outcome
  /\ (forall rowFinal dataFinal,
        selectFunctions "flexibleMutation"
          (Args.flexibleMutationSettings (normalizeArgs flexibleEmpty))
          (Args.rpcSettings (normalizeArgs flexibleEmpty))
          rowFinal dataFinal (Args.optimisticCount a)
        = Normal (createFlexibleMutator, fnReturnUnchangedData)
        /\ selectFunctions "rpc"
             (Args.flexibleMutationSettings (normalizeArgs rpcEmpty))
             (Args.rpcSettings (normalizeArgs rpcEmpty))
             rowFinal dataFinal (Args.optimisticCount a)
           = Normal (createRpcMutator, fnReturnUnchangedData))
  /\ (forall m w,
        Args.mutationType a = "flexibleMutation" ->
        run flexibleEmpty mutating uuidsSoFar = (Some m, w) ->
        exists before call,
          trace w = before ++ [CallMutator call;
                               Mutate fnReturnUnchangedData (optimisticRowFinal m)])
  /\ (forall m w,
        Args.mutationType a = "rpc" ->
        run rpcEmpty mutating uuidsSoFar = (Some m, w) ->
        exists before call,
          trace w = before ++ [CallMutator call;
                               Mutate fnReturnUnchangedData (optimisticRowFinal m)]).
Proof.
  intros flexibleEmpty flexibleUnset rpcEmpty rpcUnset.
  assert (Hflex : run flexibleEmpty mutating uuidsSoFar
                  = run flexibleUnset mutating uuidsSoFar)
    by (apply run_normalized; reflexivity).
  assert (Hrpc : run rpcEmpty mutating uuidsSoFar
                 = run rpcUnset mutating uuidsSoFar)
    by (apply run_normalized; reflexivity).
  split; [exact Hflex|]. split; [now apply runAll_of_run|].
  split; [exact Hrpc|]. split; [now apply runAll_of_run|].
  split; [intros; split; reflexivity|].
  split; intros m w Hmt Hrun.
  - pose proof (executor_normal _ mutating uuidsSoFar m w (run_normal _ _ _ _ _ Hrun))
      as (mf & fn & call & _ & _ & _ & _ & _ & _ & Hsel & _ & Htrace).
    simpl in Hsel. rewrite Hmt in Hsel. simpl in Hsel.
    injection Hsel as <- <-.
    eexists _, call. rewrite Htrace.
    rewrite app_comm_cons. reflexivity.
  - pose proof (executor_normal _ mutating uuidsSoFar m w (run_normal _ _ _ _ _ Hrun))
      as (mf & fn & call & _ & _ & _ & _ & _ & _ & Hsel & _ & Htrace).
    simpl in Hsel. rewrite Hmt in Hsel. simpl in Hsel.
    injection Hsel as <- <-.
    eexists _, call. rewrite Htrace.
    rewrite app_comm_cons. reflexivity.
Qed.

(** Without the normalization the selector has no case for the empty
    string. *)
Lemma chooseOptimisticFunction_empty_string
    (rowFinal : option OptimisticRow) (dataFinal : option Rows)
    (optimisticCount : option Z) :
  chooseOptimisticFunction (Some "") rowFinal dataFinal optimisticCount
  = Throw (Error invalidOptimisticOperationMessage).
Proof. reflexivity. Qed.

(** *** A single object as [optimisticData] *)

(** The optimistic operation a flexible mutation or rpc asks for. *)
Definition requestedOptimisticOperation (a : Args.t) : option string :=
  if String.eqb (Args.mutationType a) "flexibleMutation" then
    Args.flexibleMutationSettings a ≫= FlexibleMutationSettings.optimisticOperation
  else if String.eqb (Args.mutationType a) "rpc" then
    Args.rpcSettings a ≫= RpcSettings.optimisticOperation
  else None.





End MutationProperties.

(** ** The hooks run on the sample helpers *)
Module Run.

Definition handleMutation : Args.t -> bool -> nat -> option InFlight * World :=
  handleMutation Sample.validateFlexibleMutationSettings
    Sample.validateDynamicOptimisticSettings Sample.getMutationPhrases
    Sample.uuidToken.

Definition lifecycle : Args.t -> bool -> nat ->
    Completion (option SupabaseProviderFetchResult) -> World :=
  lifecycle Sample.onMutateSuccess Sample.onError
    Sample.validateFlexibleMutationSettings
    Sample.validateDynamicOptimisticSettings Sample.getMutationPhrases
    Sample.uuidToken.

(** A row without an id: [{name: "Bob"}]; and [{id: null}]. *)
Definition nullId : Row := <["id" := Js.Null]> ∅.

Definition bothInputs : Args.t :=
  {| Args.mutationType := "insert";
     Args.dataForSupabase := Some (OneRow Sample.bob);
     Args.shouldReturnRow := false;
     Args.returnImmediately := false;
     Args.optimisticRow := Some Sample.bob;
     Args.optimisticData := Some (OneRow Sample.bob);
     Args.optimisticCount := None;
     Args.customMetadata := None;
     Args.flexibleMutationSettings := None;
     Args.rpcSettings := None |}.

Definition insertBob (returnImmediately : bool) : Args.t :=
  {| Args.mutationType := "insert";
     Args.dataForSupabase := Some (OneRow Sample.bob);
     Args.shouldReturnRow := true;
     Args.returnImmediately := returnImmediately;
     Args.optimisticRow := Some Sample.bob;
     Args.optimisticData := None;
     Args.optimisticCount := None;
     Args.customMetadata := None;
     Args.flexibleMutationSettings := None;
     Args.rpcSettings := None |}.

Definition upsertSettings : FlexibleMutationSettings.t :=
  {| FlexibleMutationSettings.tableName := "people";
     FlexibleMutationSettings.operation := "upsert";
     FlexibleMutationSettings.filters := None;
     FlexibleMutationSettings.optimisticOperation := None |}.

Definition rpcSettings : RpcSettings.t :=
  {| RpcSettings.rpcName := "rename_person";
     RpcSettings.optimisticOperation := None |}.

(** A flexible upsert of Bob with the requested optimistic operation,
    the speculative input given as a single object in [optimisticData]. *)
Definition upsertBob (optimisticOperation : option string) : Args.t :=
  {| Args.mutationType := "flexibleMutation";
     Args.dataForSupabase := Some (OneRow Sample.bob);
     Args.shouldReturnRow := false;
     Args.returnImmediately := false;
     Args.optimisticRow := None;
     Args.optimisticData := Some (OneRow Sample.bob);
     Args.optimisticCount := None;
     Args.customMetadata := None;
     Args.flexibleMutationSettings :=
       Some {| FlexibleMutationSettings.tableName := "people";
               FlexibleMutationSettings.operation := "upsert";
               FlexibleMutationSettings.filters := None;
               FlexibleMutationSettings.optimisticOperation :=
                 optimisticOperation |};
     Args.rpcSettings := None |}.

(** An error callback that throws. *)
Definition throwingOnError : SupabaseProviderError.t -> Completion unit :=
  fun _ => Throw (Error "callback failed").

Lemma onError_returns : errorCallbackReturns Sample.onError.
Proof. intros f e H. injection H as <-. reflexivity. Qed.

End Run.

(** C2 on a delete whose speculative row is [{id: null}]. *)
Lemma C2_witness :
  exists m w,
    Run.handleMutation (Sample.deleteArgs Run.nullId) false 0 = (Some m, w)
    /\ trace w =
         [SetIsMutating true;
          CallMutator (deleteRowMutator (Some (OneRow Run.nullId)) false);
          Mutate fnDeleteRowOptimistically (Some (stamp Run.nullId "uuid-0"))]
    /\ callOptimisticFunc Sample.clientSideOrderBy (Some "exact") "id"
         Sample.byName fnDeleteRowOptimistically (Some Sample.twoRows)
         (Some (stamp Run.nullId "uuid-0"))
       = Some (Throw (Error invalidDeleteMessage)).
Proof.
  destruct (C2_delete_without_scalar_identifier
              Sample.validateFlexibleMutationSettings
              Sample.validateDynamicOptimisticSettings Sample.getMutationPhrases
              Sample.uuidToken Sample.clientSideOrderBy (Some "exact") "id"
              Sample.byName (Sample.deleteArgs Run.nullId) false 0%nat Run.nullId
              eq_refl eq_refl eq_refl eq_refl)
    as (m & w & before & Hrun & Htrace & _ & Hthrows & _).
  exists m, w. split; [exact Hrun|]. split; [|apply Hthrows].
  unfold Run.handleMutation in *. vm_compute in Hrun.
  injection Hrun as <- <-. reflexivity.
Defined.

(** C2 as the specification states it fails on an absent snapshot, where
    the delete transform returns instead of throwing; and when [mutate]
    receives the transform, [deleteRowMutator] has been called already. *)
Lemma C2_counterexample :
  deleteRowOptimistically (Some "exact") "id" None (stamp Run.nullId "uuid-0")
    = Normal {| data := None; count := None |}
  /\ trace (snd (Run.handleMutation (Sample.deleteArgs Run.nullId) false 0))
     = [SetIsMutating true;
        CallMutator (deleteRowMutator (Some (OneRow Run.nullId)) false);
        Mutate fnDeleteRowOptimistically (Some (stamp Run.nullId "uuid-0"))].
Proof. split; reflexivity. Qed.

(** C3 on an insert with both speculative inputs. *)
Lemma C3_witness :
  exists w,
    Run.handleMutation Run.bothInputs false 0 = (None, w)
    /\ promise w = Rejected (Error bothOptimisticInputsMessage)
    /\ trace w = [SetIsMutating true].
Proof.
  destruct (C3_both_speculative_inputs_fail_synchronously
              Sample.onMutateSuccess Sample.onError
              Sample.validateFlexibleMutationSettings
              Sample.validateDynamicOptimisticSettings Sample.getMutationPhrases
              Sample.uuidToken Run.bothInputs false 0%nat Sample.bob
              (OneRow Sample.bob) eq_refl eq_refl)
    as (e & w & Hrun & Hpromise & Herr & Htrace & _).
  exists w. split; [exact Hrun|]. split; [|exact Htrace].
  rewrite Hpromise. destruct Herr as [Herr | Herr]; [discriminate Herr|].
  injection Herr as <-. reflexivity.
Defined.

(** C7 on an insert that returns at once and whose backend call then
    fails: one [resolve], with the pending envelope, and the failure goes
    to the error callback only. *)
Lemma C7_witness :
  let final := Run.lifecycle (Run.insertBob true) false 0
                 (Throw (Error "backend unavailable")) in
  resolveCalls (trace final) = 1%nat
  /\ exists pending,
       promise final = Fulfilled pending
       /\ MutateResult.status pending = "pending".
Proof.
  intros final.
  destruct (Run.handleMutation (Run.insertBob true) false 0) as [[m|] w] eqn:Hrun;
    [|vm_compute in Hrun; discriminate Hrun].
  destruct (C7_promise_resolved_once_when_checks_pass
              Sample.onMutateSuccess Sample.onError
              Sample.validateFlexibleMutationSettings
              Sample.validateDynamicOptimisticSettings Sample.getMutationPhrases
              Sample.uuidToken (Run.insertBob true) false 0%nat
              (Throw (Error "backend unavailable")))
    as (_ & Hpass & _).
  destruct (Hpass m w Hrun Run.onError_returns) as (Honce & _ & Himmediate & _).
  split; [exact Honce|].
  destruct (Himmediate eq_refl)
    as (pending & before & after & _ & _ & Hstatus & _ & Hfinal & _).
  exists pending. split; [exact Hfinal | exact Hstatus].
Defined.

(** C7 as the specification states it fails on a call that the
    synchronous checks reject: its promise is rejected, and [resolve] is
    never called. *)
Lemma C7_counterexample :
  promise (Run.lifecycle Run.bothInputs false 0 (Normal (Some Sample.twoRows)))
    = Rejected (Error bothOptimisticInputsMessage)
  /\ resolveCalls
       (trace (Run.lifecycle Run.bothInputs false 0 (Normal (Some Sample.twoRows))))
     = 0%nat.
Proof. split; reflexivity. Qed.

(** C8 on an insert whose backend call fails. *)
Lemma C8_witness :
  exists result supabaseProviderError,
    trace (Run.lifecycle (Run.insertBob false) false 0
             (Throw (Error "backend unavailable")))
    = [SetIsMutating true;
       CallMutator (addRowMutator (Some (OneRow Sample.bob)) true);
       Mutate fnAddRowOptimistically (Some (stamp Sample.bob "uuid-0"));
       OnError supabaseProviderError;
       Resolve result]
    /\ promise (Run.lifecycle (Run.insertBob false) false 0
                  (Throw (Error "backend unavailable")))
       = Fulfilled result
    /\ MutateResult.status result = "error"
    /\ MutateResult.error result = Some supabaseProviderError
    /\ SupabaseProviderError.error supabaseProviderError
       = Error "backend unavailable"
    /\ SupabaseProviderError.actionAttempted supabaseProviderError = "insert"
    /\ SupabaseProviderError.optimisticData supabaseProviderError
       = Some (OneRow (stamp Sample.bob "uuid-0")).
Proof.
  destruct (Run.handleMutation (Run.insertBob false) false 0) as [[m|] w] eqn:Hrun;
    [|vm_compute in Hrun; discriminate Hrun].
  destruct (C8_rejection_is_reported_not_thrown
              Sample.onMutateSuccess Sample.onError
              Sample.validateFlexibleMutationSettings
              Sample.validateDynamicOptimisticSettings Sample.getMutationPhrases
              Sample.uuidToken (Run.insertBob false) false 0%nat m w
              (Error "backend unavailable") Hrun)
    as (_ & _ & Hcause & Haction & _ & _ & Hinput & _ & Hreturns).
  destruct (Hreturns Run.onError_returns)
    as (result & _ & Htrace & Hstatus & Herror & _ & _ & _ & _ & Hpromise).
  eexists result, _.
  split.
  { unfold Run.lifecycle. rewrite Htrace.
    vm_compute in Hrun. injection Hrun as <- <-. reflexivity. }
  split; [exact Hpromise|]. split; [exact Hstatus|]. split; [exact Herror|].
  split; [exact Hcause|]. split; [exact Haction | exact Hinput].
Defined.

(** With an error callback that throws, the [catch] handler stops at the
    callback: the promise is neither resolved nor rejected. *)
Lemma C8_counterexample :
  let final :=
    lifecycle Sample.onMutateSuccess (Some Run.throwingOnError)
      Sample.validateFlexibleMutationSettings
      Sample.validateDynamicOptimisticSettings Sample.getMutationPhrases
      Sample.uuidToken (Run.insertBob false) false 0
      (Throw (Error "backend unavailable")) in
  promise final = Pending
  /\ resolveCalls (trace final) = 0%nat
  /\ exists supabaseProviderError,
       trace final
       = [SetIsMutating true;
          CallMutator (addRowMutator (Some (OneRow Sample.bob)) true);
          Mutate fnAddRowOptimistically (Some (stamp Sample.bob "uuid-0"));
          OnError supabaseProviderError].
Proof. split; [reflexivity|]. split; [reflexivity|]. eexists. reflexivity. Qed.

(** C9 on a flexible upsert: the empty string and [undefined] give the same
    run, which hands [returnUnchangedData] to [mutate]. *)
Lemma C9_witness :
  Run.handleMutation (Run.upsertBob (Some "")) false 0
    = Run.handleMutation (Run.upsertBob None) false 0
  /\ exists m w before call,
       Run.handleMutation (Run.upsertBob (Some "")) false 0 = (Some m, w)
       /\ trace w = before ++ [CallMutator call;
                               Mutate fnReturnUnchangedData (optimisticRowFinal m)].
Proof.
  destruct (C9_empty_string_operation_is_unset
              Sample.onMutateSuccess Sample.onError
              Sample.validateFlexibleMutationSettings
              Sample.validateDynamicOptimisticSettings Sample.getMutationPhrases
              Sample.uuidToken (Run.upsertBob None) Run.upsertSettings
              Run.rpcSettings false 0%nat (Normal None))
    as (Hsame & _ & _ & _ & _ & Hchosen & _).
  split; [exact Hsame|].
  destruct (Run.handleMutation (Run.upsertBob (Some "")) false 0)
    as [[m|] w] eqn:Hrun; [|vm_compute in Hrun; discriminate Hrun].
  destruct (Hchosen m w eq_refl Hrun) as (before & call & Htrace).
  exists m, w, before, call. split; [reflexivity | exact Htrace].
Defined.


(** ** More on the transforms *)

Lemma filter_sublist {A : Type} (p : A -> bool) (l : list A) :
  sublist (List.filter p l) l.
Proof.
  induction l as [|x l IH]; simpl; [constructor|].
  destruct (p x); [now apply sublist_skip | now apply sublist_cons].
Qed.

Lemma filter_Permutation {A : Type} (p : A -> bool) (l l' : list A) :
  Permutation l l' -> Permutation (List.filter p l) (List.filter p l').
Proof.
  induction 1 as [|x l l' _ IH|x y l|l l' l'' _ IH1 _ IH2]; simpl.
  - reflexivity.
  - destruct (p x); [now constructor | exact IH].
  - destruct (p x), (p y); try reflexivity. apply perm_swap.
  - now rewrite IH1.
Qed.

(** The guard of [deleteRowOptimistically] lets a scalar identifier
    through. *)
Lemma delete_guard_scalar (v : Js.value) :
  scalarIdentifier v = true ->
  negb (String.eqb (Js.typeof v) "number") && negb (String.eqb (Js.typeof v) "string")
  = false.
Proof.
  unfold scalarIdentifier. intros H. apply orb_true_iff in H.
  destruct H as [-> | ->]; simpl; [reflexivity | apply andb_false_r].
Qed.

(** X1. On a snapshot that is not absent, with a number or string
    identifier, [deleteRowOptimistically] keeps exactly the rows whose
    identifier is not [===] to it, every one of them, in their order; and
    the count goes down by 1 however many rows went. *)
Theorem X1_deleteRowOptimistically_removes_every_match
    (returnCount : option string) (uniqueIdentifierField : string)
    (currentData : SupabaseProviderFetchResult) (optimisticRow : OptimisticRow) :
  scalarIdentifier (Js.get optimisticRow uniqueIdentifierField) = true ->
  exists result kept,
    deleteRowOptimistically returnCount uniqueIdentifierField
      (Some currentData) optimisticRow = Normal result
    /\ data result = Some kept
    /\ (forall row,
          In row kept <->
          In row (rowsOf (Some currentData))
          /\ Js.strict_eq (Js.get row uniqueIdentifierField)
               (Js.get optimisticRow uniqueIdentifierField) = false)
    /\ sublist kept (rowsOf (Some currentData))
    /\ (returnCount <> Some "none" ->
        count result = Some (countOf (Some currentData) - 1))
    /\ (returnCount = Some "none" -> count result = None).
Proof.
  intros Hscalar. unfold deleteRowOptimistically.
  rewrite (delete_guard_scalar _ Hscalar).
  eexists _, _. split; [reflexivity|]. split; [reflexivity|].
  unfold rowsOf. simpl.
  split; [|split; [|split]].
  - intros row. destruct (data currentData) as [rows|]; simpl.
    + rewrite filter_In. unfold Js.strict_neq. now rewrite negb_true_iff.
    + tauto.
  - destruct (data currentData) as [rows|]; simpl;
      [apply filter_sublist | constructor].
  - intros Hmode. now rewrite (countEnabled_other _ Hmode), or_zero_default.
  - intros ->. reflexivity.
Qed.

(** X1 on the sample rows: deleting id 1 leaves Carol. *)
Lemma X1_witness :
  exists result,
    deleteRowOptimistically (Some "exact") "id" (Some Sample.twoRows)
      (<["id" := Js.Number 1]> ∅) = Normal result
    /\ data result = Some [Sample.carol]
    /\ count result = Some 1.
Proof.
  destruct (X1_deleteRowOptimistically_removes_every_match (Some "exact") "id"
              Sample.twoRows (<["id" := Js.Number 1]> ∅))
    as (result & kept & Hrun & Hdata & _ & _ & Hcount & _); [reflexivity|].
  exists result. split; [exact Hrun|].
  split; [|apply Hcount; discriminate].
  vm_compute in Hrun. injection Hrun as <-. reflexivity.
Defined.

Lemma filter_single_out {A : Type} (p : A -> bool) (l : list A) (i : nat) :
  (forall j x, l !! j = Some x -> (p x = false <-> j = i)) ->
  (i < length l)%nat ->
  List.filter p l = delete i l.
Proof.
  revert i. induction l as [|y l IH]; intros i Hp Hi; simpl in *; [lia|].
  destruct i as [|i].
  - assert (Hy : p y = false) by (apply (Hp 0%nat y); reflexivity).
    rewrite Hy. simpl. apply filter_all. intros x Hx.
    apply list_elem_of_In, list_elem_of_lookup in Hx. destruct Hx as [j Hj].
    destruct (p x) eqn:E; [reflexivity|].
    apply (Hp (S j) x Hj) in E. discriminate.
  - destruct (p y) eqn:Hy.
    + simpl. f_equal. apply IH; [|lia].
      intros j x Hj. rewrite (Hp (S j) x Hj). lia.
    + apply (Hp 0%nat y eq_refl) in Hy. discriminate.
Qed.

(** X2. When the identifiers of the rows are pairwise distinct and the
    row at index [i] has the identifier of the speculative row,
    [deleteRowOptimistically] removes that row and no other: one row fewer,
    as the count says. *)
Theorem X2_deleteRowOptimistically_removes_one_when_distinct
    (returnCount : option string) (uniqueIdentifierField : string)
    (currentData : SupabaseProviderFetchResult) (optimisticRow : OptimisticRow)
    (i : nat) (row : Row) :
  scalarIdentifier (Js.get optimisticRow uniqueIdentifierField) = true ->
  distinctIdentifiers uniqueIdentifierField (rowsOf (Some currentData)) = true ->
  rowsOf (Some currentData) !! i = Some row ->
  Js.strict_eq (Js.get row uniqueIdentifierField)
    (Js.get optimisticRow uniqueIdentifierField) = true ->
  exists result,
    deleteRowOptimistically returnCount uniqueIdentifierField
      (Some currentData) optimisticRow = Normal result
    /\ data result = Some (delete i (rowsOf (Some currentData)))
    /\ S (length (rowsOf (Some result))) = length (rowsOf (Some currentData))
    /\ (returnCount <> Some "none" ->
        count result = Some (countOf (Some currentData) - 1)).
Proof.
  intros Hscalar Hd Hi Hmatch. unfold deleteRowOptimistically.
  rewrite (delete_guard_scalar _ Hscalar).
  eexists. split; [reflexivity|].
  assert (Hlt : (i < length (rowsOf (Some currentData)))%nat)
    by (eapply lookup_lt_Some; eauto).
  assert (Hdata :
    match data currentData with
    | Some rows =>
        List.filter
          (fun r => Js.strict_neq (Js.get r uniqueIdentifierField)
                      (Js.get optimisticRow uniqueIdentifierField)) rows
    | None => []
    end = delete i (rowsOf (Some currentData))).
  { unfold rowsOf in *. simpl in *.
    destruct (data currentData) as [rows|]; simpl in *; [|lia].
    apply filter_single_out; [|exact Hlt].
    intros j rj Hj. unfold Js.strict_neq. rewrite negb_false_iff. split.
    - intros E. destruct (decide (j = i)) as [|Hne]; [assumption|].
      pose proof (distinctIdentifiers_lookup _ _ _ _ _ _ Hd Hne Hj Hi) as Hdiff.
      apply strict_eq_sym in Hmatch.
      rewrite (strict_eq_trans _ _ _ E Hmatch) in Hdiff. discriminate.
    - intros ->. rewrite Hi in Hj. now injection Hj as <-. }
  simpl. split; [now rewrite Hdata|]. split.
  - unfold rowsOf at 1. simpl. rewrite Hdata, length_delete by eauto. lia.
  - intros Hmode. now rewrite (countEnabled_other _ Hmode), or_zero_default.
Qed.

Lemma X2_witness :
  exists result,
    deleteRowOptimistically (Some "exact") "id" (Some Sample.twoRows)
      (<["id" := Js.Number 2]> ∅) = Normal result
    /\ data result = Some [Sample.alice]
    /\ count result = Some 1.
Proof.
  destruct (X2_deleteRowOptimistically_removes_one_when_distinct (Some "exact")
              "id" Sample.twoRows (<["id" := Js.Number 2]> ∅) 1%nat Sample.carol)
    as (result & Hrun & Hdata & _ & Hcount); [reflexivity ..|].
  exists result. split; [exact Hrun|]. split; [exact Hdata|].
  apply Hcount. discriminate.
Defined.

(** [NaN]: the number that is not [===] to itself. *)
Definition isNaN (v : Js.value) : bool :=
  match v with
  | Js.Number x => negb (PrimFloat.eqb x x)
  | _ => false
  end.

Lemma strict_eq_NaN (v nan : Js.value) :
  isNaN nan = true -> Js.strict_eq v nan = false.
Proof.
  destruct nan as [| | |x| |]; try discriminate. simpl. intros Hnan.
  apply negb_true_iff in Hnan.
  destruct v as [| | |y| |]; try reflexivity. simpl.
  destruct (PrimFloat.eqb y x) eqn:E; [|reflexivity].
  rewrite (float_eqb_trans _ _ _ (float_eqb_sym _ _ E) E) in Hnan. discriminate.
Qed.

(** Deleting the same row [k] times over. *)
Fixpoint deleteRepeatedly (returnCount : option string)
    (uniqueIdentifierField : string) (k : nat)
    (currentData : SupabaseProviderFetchResult) (optimisticRow : OptimisticRow)
    : Completion SupabaseProviderFetchResult :=
  match k with
  | O => Normal currentData
  | S k =>
      result ← deleteRowOptimistically returnCount uniqueIdentifierField
                 (Some currentData) optimisticRow;
      deleteRepeatedly returnCount uniqueIdentifierField k result optimisticRow
  end.

(** What [deleteRowOptimistically] returns on a snapshot that is there,
    for a number or string identifier. *)
Lemma deleteRowOptimistically_present
    (returnCount : option string) (uniqueIdentifierField : string)
    (currentData : SupabaseProviderFetchResult) (optimisticRow : OptimisticRow) :
  scalarIdentifier (Js.get optimisticRow uniqueIdentifierField) = true ->
  exists result,
    deleteRowOptimistically returnCount uniqueIdentifierField
      (Some currentData) optimisticRow = Normal result
    /\ count result =
         (if countEnabled returnCount
          then Some (countOf (Some currentData) - 1)
          else None).
Proof.
  intros Hscalar. unfold deleteRowOptimistically.
  rewrite (delete_guard_scalar _ Hscalar).
  eexists. split; [reflexivity|]. simpl. now rewrite or_zero_default.
Qed.

Lemma deleteRepeatedly_S
    (returnCount : option string) (uniqueIdentifierField : string)
    (k : nat) (currentData : SupabaseProviderFetchResult)
    (optimisticRow : OptimisticRow) :
  deleteRepeatedly returnCount uniqueIdentifierField (S k) currentData
    optimisticRow
  = match deleteRowOptimistically returnCount uniqueIdentifierField
            (Some currentData) optimisticRow with
    | Normal result =>
        deleteRepeatedly returnCount uniqueIdentifierField k result optimisticRow
    | Throw e => Throw e
    end.
Proof. reflexivity. Qed.

(** X7. The count of [deleteRowOptimistically] has no floor: after [k]
    deletes it is the prior count minus [k], below zero too. *)
Theorem X7_delete_count_has_no_floor
    (returnCount : option string) (uniqueIdentifierField : string)
    (k : nat) (currentData : SupabaseProviderFetchResult)
    (optimisticRow : OptimisticRow) :
  scalarIdentifier (Js.get optimisticRow uniqueIdentifierField) = true ->
  returnCount <> Some "none" ->
  exists result,
    deleteRepeatedly returnCount uniqueIdentifierField (S k) currentData
      optimisticRow = Normal result
    /\ count result = Some (countOf (Some currentData) - Z.of_nat (S k)).
Proof.
  intros Hscalar Hmode. revert currentData.
  induction k as [|k IH]; intros currentData; rewrite deleteRepeatedly_S;
    destruct (deleteRowOptimistically_present returnCount uniqueIdentifierField
                currentData optimisticRow Hscalar) as (first & -> & Hfirst);
    rewrite (countEnabled_other _ Hmode) in Hfirst.
  - exists first. split; [reflexivity|]. rewrite Hfirst. f_equal; lia.
  - destruct (IH first) as (result & Hrun & Hcount).
    exists result. split; [exact Hrun|]. rewrite Hcount.
    unfold countOf at 1. change (Some first ≫= count) with (count first).
    rewrite Hfirst. simpl. f_equal; lia.
Qed.

(** X7 on an empty table whose count is 0: two deletes leave -2. *)
Lemma X7_witness :
  exists result,
    deleteRepeatedly (Some "exact") "id" 2
      {| data := Some []; count := Some 0 |} (<["id" := Js.Number 5]> ∅)
    = Normal result
    /\ count result = Some (-2).
Proof.
  destruct (X7_delete_count_has_no_floor (Some "exact") "id" 1%nat
              {| data := Some []; count := Some 0 |} (<["id" := Js.Number 5]> ∅))
    as (result & Hrun & Hcount); [reflexivity | discriminate |].
  exists result. split; [exact Hrun | exact Hcount].
Defined.

Section MoreTransformProperties.

Context {OrderBy : Type}.
Variable clientSideOrderBy : list OrderBy -> Rows -> Rows.
Hypothesis clientSideOrderBy_permutes :
  forall orderBy rows, Permutation (clientSideOrderBy orderBy rows) rows.

(** X3. A [NaN] identifier passes the number-or-string check of
    [deleteRowOptimistically], but no row is [===] to it: delete removes
    nothing and still lowers the count, and [editRowOptimistically] replaces
    nothing. *)
Theorem X3_NaN_identifier_matches_no_row
    (returnCount : option string) (uniqueIdentifierField : string)
    (memoizedOrderBy : list OrderBy)
    (currentData : SupabaseProviderFetchResult) (optimisticRow : OptimisticRow) :
  isNaN (Js.get optimisticRow uniqueIdentifierField) = true ->
  deleteRowOptimistically returnCount uniqueIdentifierField (Some currentData)
    optimisticRow
  = Normal {| data := Some (rowsOf (Some currentData));
              count := if countEnabled returnCount
                       then Some (countOf (Some currentData) - 1)
                       else None |}
  /\ data (editRowOptimistically clientSideOrderBy uniqueIdentifierField
             memoizedOrderBy (Some currentData) optimisticRow)
     = Some (clientSideOrderBy memoizedOrderBy (rowsOf (Some currentData))).
Proof.
  intros Hnan. split.
  - unfold deleteRowOptimistically.
    destruct (Js.get optimisticRow uniqueIdentifierField) as [| | |x| |] eqn:Hid;
      try discriminate.
    simpl. rewrite or_zero_default. unfold rowsOf, countOf. simpl.
    destruct (data currentData) as [rows|]; simpl; [|reflexivity].
    rewrite filter_all; [reflexivity|].
    intros row _. unfold Js.strict_neq. now rewrite strict_eq_NaN.
  - unfold editRowOptimistically, rowsOf. simpl.
    destruct (data currentData) as [rows|]; simpl; [|reflexivity].
    do 2 f_equal. fold (replaceMatching uniqueIdentifierField optimisticRow rows).
    apply replaceMatching_none. intros row _. now apply strict_eq_NaN.
Qed.

(** X4. [editRowOptimistically] never changes the number of rows: every
    row of the result is the speculative row or a row of the snapshot that
    does not have its identifier, and when no row has it the result is the
    rows of the snapshot, sorted: the speculative row is not added.  On an
    absent snapshot nothing is edited. *)
Theorem X4_editRowOptimistically_never_adds_a_row
    (uniqueIdentifierField : string) (memoizedOrderBy : list OrderBy)
    (currentData : SupabaseProviderFetchResult) (optimisticRow : OptimisticRow) :
  let rows := rowsOf (Some currentData) in
  let result :=
    editRowOptimistically clientSideOrderBy uniqueIdentifierField
      memoizedOrderBy (Some currentData) optimisticRow in
  length (rowsOf (Some result)) = length rows
  /\ (forall row,
        In row (rowsOf (Some result)) ->
        row = optimisticRow
        \/ (In row rows
            /\ Js.strict_eq (Js.get row uniqueIdentifierField)
                 (Js.get optimisticRow uniqueIdentifierField) = false))
  /\ ((forall row, In row rows ->
         Js.strict_eq (Js.get row uniqueIdentifierField)
           (Js.get optimisticRow uniqueIdentifierField) = false) ->
      data result = Some (clientSideOrderBy memoizedOrderBy rows))
  /\ count result = count currentData
  /\ editRowOptimistically clientSideOrderBy uniqueIdentifierField
       memoizedOrderBy None optimisticRow
     = {| data := None; count := None |}.
Proof.
  intros rows result.
  assert (Hdata : data result =
    Some (clientSideOrderBy memoizedOrderBy
            (replaceMatching uniqueIdentifierField optimisticRow rows))).
  { subst result rows. unfold editRowOptimistically, rowsOf. simpl.
    destruct (data currentData); reflexivity. }
  assert (Hrows : rowsOf (Some result)
                  = clientSideOrderBy memoizedOrderBy
                      (replaceMatching uniqueIdentifierField optimisticRow rows)).
  { unfold rowsOf. change (Some result ≫= data) with (data result).
    now rewrite Hdata. }
  split; [|split; [|split; [|split]]].
  - rewrite Hrows, (Permutation_length (clientSideOrderBy_permutes _ _)).
    unfold replaceMatching. apply length_map.
  - intros row Hin. rewrite Hrows in Hin.
    apply (Permutation_in _ (clientSideOrderBy_permutes _ _)) in Hin.
    unfold replaceMatching in Hin. apply in_map_iff in Hin.
    destruct Hin as (original & Heq & Hin).
    destruct (Js.strict_eq (Js.get original uniqueIdentifierField)
                (Js.get optimisticRow uniqueIdentifierField)) eqn:E.
    + left. now symmetry.
    + right. subst row. auto.
  - intros Hnone. rewrite Hdata. do 2 f_equal. now apply replaceMatching_none.
  - reflexivity.
  - reflexivity.
Qed.

(** X6. Adding to an absent snapshot, or to one whose data is [null] or
    empty, gives exactly the new row; the count starts from 0 when it was
    [null]. *)
Theorem X6_addRowOptimistically_to_no_rows
    (returnCount : option string) (memoizedOrderBy : list OrderBy)
    (currentData : option SupabaseProviderFetchResult)
    (optimisticRow : OptimisticRow) :
  rowsOf currentData = [] ->
  data (addRowOptimistically clientSideOrderBy returnCount memoizedOrderBy
          currentData optimisticRow) = Some [optimisticRow]
  /\ (returnCount <> Some "none" ->
      currentData ≫= count = None ->
      count (addRowOptimistically clientSideOrderBy returnCount memoizedOrderBy
               currentData optimisticRow) = Some 1).
Proof.
  intros Hempty. split.
  - assert (Hdata : data (addRowOptimistically clientSideOrderBy returnCount
                            memoizedOrderBy currentData optimisticRow)
                    = Some (clientSideOrderBy memoizedOrderBy
                              (rowsOf currentData ++ [optimisticRow]))).
    { unfold addRowOptimistically, rowsOf.
      destruct currentData as [[d c]|]; reflexivity. }
    rewrite Hdata, Hempty. simpl. f_equal.
    apply Permutation_length_1_inv. symmetry.
    apply clientSideOrderBy_permutes.
  - intros Hmode Hcount. unfold addRowOptimistically.
    rewrite (countEnabled_other _ Hmode), or_zero_default.
    destruct currentData as [[d c]|]; simpl in *; [now rewrite Hcount | reflexivity].
Qed.

(** X5. Adding a row and then deleting it gives the rows back, in some
    order, and the count back (0 where it was [null]): for a row whose
    identifier is a number or string, [===] to itself, and carried by no row
    of the snapshot. *)
Theorem X5_add_then_delete_restores
    (returnCount : option string) (uniqueIdentifierField : string)
    (memoizedOrderBy : list OrderBy)
    (currentData : option SupabaseProviderFetchResult)
    (optimisticRow : OptimisticRow) :
  scalarIdentifier (Js.get optimisticRow uniqueIdentifierField) = true ->
  Js.strict_eq (Js.get optimisticRow uniqueIdentifierField)
    (Js.get optimisticRow uniqueIdentifierField) = true ->
  (forall row, In row (rowsOf currentData) ->
     Js.strict_eq (Js.get row uniqueIdentifierField)
       (Js.get optimisticRow uniqueIdentifierField) = false) ->
  exists result,
    deleteRowOptimistically returnCount uniqueIdentifierField
      (Some (addRowOptimistically clientSideOrderBy returnCount memoizedOrderBy
               currentData optimisticRow))
      optimisticRow = Normal result
    /\ Permutation (rowsOf (Some result)) (rowsOf currentData)
    /\ (returnCount <> Some "none" -> count result = Some (countOf currentData))
    /\ (returnCount = Some "none" -> count result = None).
Proof.
  intros Hscalar Hself Hnone. unfold deleteRowOptimistically.
  rewrite (delete_guard_scalar _ Hscalar).
  eexists. split; [reflexivity|]. split; [|split].
  - unfold rowsOf at 1. simpl.
    fold (rowsOf currentData).
    replace (default [] (data match currentData with
                              | Some c => c
                              | None => {| data := None; count := None |}
                              end)) with (rowsOf currentData)
      by (unfold rowsOf; destruct currentData as [[d c]|]; reflexivity).
    rewrite (filter_Permutation _ _ _ (clientSideOrderBy_permutes _ _)).
    rewrite List.filter_app. simpl. unfold Js.strict_neq at 2. rewrite Hself. simpl.
    rewrite app_nil_r, filter_all; [reflexivity|].
    intros row Hin. unfold Js.strict_neq. now rewrite (Hnone row Hin).
  - intros Hmode. simpl. rewrite (countEnabled_other _ Hmode). simpl.
    rewrite !or_zero_default. unfold countOf.
    destruct currentData as [[d c]|]; simpl; [|reflexivity].
    destruct (Z.eqb_spec (default 0 c + 1) 0); f_equal; lia.
  - intros ->. reflexivity.
Qed.

End MoreTransformProperties.

(** X3 on a snapshot whose only row has the identifier [NaN]: deleting by
    [NaN] leaves the row and lowers the count. *)
Lemma X3_witness :
  let row : Row := <["id" := Js.Number PrimFloat.nan]> ∅ in
  deleteRowOptimistically (Some "exact") "id"
    (Some {| data := Some [row]; count := Some 1 |}) row
  = Normal {| data := Some [row]; count := Some 0 |}.
Proof.
  intros row.
  destruct (X3_NaN_identifier_matches_no_row Sample.clientSideOrderBy
              (Some "exact") "id" Sample.byName
              {| data := Some [row]; count := Some 1 |} row) as [Hdelete _];
    [reflexivity|].
  exact Hdelete.
Defined.

(** X4 on the sample rows: editing a row whose id no row has changes
    nothing but the order. *)
Lemma X4_witness :
  data (editRowOptimistically Sample.clientSideOrderBy "id" Sample.byName
          (Some Sample.twoRows) (Sample.person 7 "Zed"))
  = Some [Sample.alice; Sample.carol].
Proof.
  destruct (X4_editRowOptimistically_never_adds_a_row Sample.clientSideOrderBy
              Sample.clientSideOrderBy_permutes "id" Sample.byName
              Sample.twoRows (Sample.person 7 "Zed"))
    as (_ & _ & Hnone & _).
  rewrite Hnone; [reflexivity|].
  intros row [<- | [<- | []]]; reflexivity.
Defined.

(** X5 on the sample rows: Bob with id 3 added, then deleted. *)
Lemma X5_witness :
  exists result,
    deleteRowOptimistically (Some "exact") "id"
      (Some (addRowOptimistically Sample.clientSideOrderBy (Some "exact")
               Sample.byName (Some Sample.twoRows) (Sample.person 3 "Bob")))
      (Sample.person 3 "Bob") = Normal result
    /\ Permutation (rowsOf (Some result)) [Sample.alice; Sample.carol]
    /\ count result = Some 2.
Proof.
  destruct (X5_add_then_delete_restores Sample.clientSideOrderBy
              Sample.clientSideOrderBy_permutes (Some "exact") "id"
              Sample.byName (Some Sample.twoRows) (Sample.person 3 "Bob"))
    as (result & Hrun & Hperm & Hcount & _).
  - reflexivity.
  - reflexivity.
  - intros row [<- | [<- | []]]; reflexivity.
  - exists result. split; [exact Hrun|]. split; [exact Hperm|].
    apply Hcount. discriminate.
Defined.

(** X6 on an absent snapshot. *)
Lemma X6_witness :
  addRowOptimistically Sample.clientSideOrderBy (Some "exact") Sample.byName
    None Sample.bob
  = {| data := Some [Sample.bob]; count := Some 1 |}.
Proof.
  destruct (X6_addRowOptimistically_to_no_rows Sample.clientSideOrderBy
              Sample.clientSideOrderBy_permutes (Some "exact") Sample.byName
              None Sample.bob eq_refl) as [Hdata Hcount].
  specialize (Hcount ltac:(discriminate) eq_refl).
  destruct (addRowOptimistically Sample.clientSideOrderBy (Some "exact")
              Sample.byName None Sample.bob) as [d c].
  simpl in Hdata, Hcount. now rewrite Hdata, Hcount.
Defined.

(** ** More on [handleMutation] *)

Definition isSetIsMutating (e : Event) : bool :=
  match e with
  | SetIsMutating _ => true
  | _ => false
  end.

(** What the handlers of the promise do to the world outside: callbacks
    and [resolve]. *)
Definition isNotification (e : Event) : bool :=
  match e with
  | Resolve _ | OnMutateSuccess _ | OnError _ => true
  | _ => false
  end.

Lemma notifications_only (events : list Event) :
  forallb isNotification events = true ->
  List.filter startsAsyncWork events = []
  /\ List.filter isSetIsMutating events = [].
Proof.
  induction events as [|e events IH]; simpl; [auto|].
  intros H. apply andb_true_iff in H. destruct H as [He H].
  destruct (IH H) as [IH1 IH2]. destruct e; try discriminate; simpl; auto.
Qed.

Section MoreMutationProperties.

Variable memoizedOnMutateSuccess : option (MutateResult.t -> Completion unit).
Variable memoizedOnError : option (SupabaseProviderError.t -> Completion unit).
Variable validateFlexibleMutationSettings :
  option string -> option string -> option RowOrRows ->
  option (list Filter) -> Completion unit.
Variable validateDynamicOptimisticSettings :
  option RowOrRows -> option string -> Completion unit.
Variable getMutationPhrases : string -> MutationPhrases.t.
Variable uuidToken : nat -> string.
Context {OrderBy : Type}.
Variable clientSideOrderBy : list OrderBy -> Rows -> Rows.
Variable returnCount : option string.
Variable uniqueIdentifierField : string.
Variable memoizedOrderBy : list OrderBy.

Local Abbreviation validate :=
  (validateSettings validateFlexibleMutationSettings
     validateDynamicOptimisticSettings).
Local Abbreviation run :=
  (handleMutation validateFlexibleMutationSettings
     validateDynamicOptimisticSettings getMutationPhrases uuidToken).
Local Abbreviation runExecutor :=
  (executor validateFlexibleMutationSettings
     validateDynamicOptimisticSettings getMutationPhrases uuidToken).
Local Abbreviation runAll :=
  (lifecycle memoizedOnMutateSuccess memoizedOnError
     validateFlexibleMutationSettings validateDynamicOptimisticSettings
     getMutationPhrases uuidToken).
Local Abbreviation handlers :=
  (settle memoizedOnMutateSuccess memoizedOnError).
Local Abbreviation producer :=
  (callOptimisticFunc clientSideOrderBy returnCount uniqueIdentifierField
     memoizedOrderBy).

(** The executor, whether it returns or throws: [setIsMutating(true)]
    comes first and is not undone, [uuid()] is called at most once, and the
    mutator and [mutate] are called together, in this order, exactly when
    the executor returns. *)
Lemma executor_frame (a : Args.t) (mutating : bool) (uuidsSoFar : nat)
    (c : Completion InFlight) (w : World) :
  runExecutor a (newCall mutating uuidsSoFar) = (c, w) ->
  isMutating w = true
  /\ exists rest,
       trace w = SetIsMutating true :: rest
       /\ List.filter isSetIsMutating rest = []
       /\ match c with
          | Normal m =>
              exists mutatorFunction call optimisticFunc,
                mutatorCallOf mutatorFunction (normalizeArgs a) = Some call
                /\ List.filter startsAsyncWork rest
                   = [CallMutator call; Mutate optimisticFunc (optimisticRowFinal m)]
                /\ uuids w = (match optimisticRowFinal m with
                              | Some _ => S uuidsSoFar
                              | None => uuidsSoFar
                              end)
          | Throw _ =>
              List.filter startsAsyncWork rest = []
              /\ (uuids w = uuidsSoFar \/ uuids w = S uuidsSoFar)
          end.
Proof.
  unfold executor, newCall. exec_unfold. simpl.
  destruct (validate _ _ _ _ _) as [[]|e];
    [|intros H; injection H as <- <-; simpl; split; [reflexivity|];
      exists []; auto].
  unfold checkOneSpeculativeInput, materialize. exec_unfold. simpl.
  destruct (Args.optimisticRow a) as [row|],
           (Args.optimisticData a) as [[object|rows]|]; simpl;
    try (intros H; injection H as <- <-; simpl; split; [reflexivity|];
         exists []; auto; fail).
  all: destruct (Args.returnImmediately a); simpl.
  all: match goal with
       | |- context [selectFunctions ?t ?f ?r ?x ?y ?k] =>
           destruct (selectFunctions t f r x y k) as [[mf fn]|e];
           [|intros H; injection H as <- <-; simpl; split; [reflexivity|];
             eexists; split; [reflexivity|]; simpl; auto]
       end.
  all: unfold callMutatorFunction; exec_unfold;
    destruct mf; simpl;
    try destruct (normalizeFlexibleMutationSettings _) eqn:Hflex;
    try destruct (normalizeRpcSettings _) eqn:Hrpc;
    simpl; intros H; injection H as <- <-; simpl; (split; [reflexivity|]);
    (eexists; split; [reflexivity|]); simpl; (split; [reflexivity|]);
    auto;
    first
      [ exists fnAddRowMutator; eexists _, _;
        split; [reflexivity | split; reflexivity]
      | exists fnEditRowMutator; eexists _, _;
        split; [reflexivity | split; reflexivity]
      | exists fnDeleteRowMutator; eexists _, _;
        split; [reflexivity | split; reflexivity]
      | exists createFlexibleMutator; eexists _, _;
        split; [simpl; rewrite Hflex; reflexivity | split; reflexivity]
      | exists createRpcMutator; eexists _, _;
        split; [simpl; rewrite Hrpc; reflexivity | split; reflexivity] ].
Qed.

(** The handlers, on any outcome and whatever the callbacks do, only run
    callbacks and [resolve]; they leave [isMutating] alone. *)
Lemma settle_frame (m : InFlight)
    (outcome : Completion (option SupabaseProviderFetchResult)) (w : World) :
  let w' := snd (handlers m outcome w) in
  isMutating w' = isMutating w
  /\ exists later,
       trace w' = trace w ++ later /\ forallb isNotification later = true.
Proof.
  assert (Hrej : forall err w0,
    let w' := snd (onRejected memoizedOnError m err w0) in
    isMutating w' = isMutating w0
    /\ exists later,
         trace w' = trace w0 ++ later /\ forallb isNotification later = true).
  { intros err w0. unfold onRejected. exec_unfold.
    destruct memoizedOnError as [f|].
    - destruct (f _) as [[]|e]; [destruct (Args.returnImmediately (args m))|];
        simpl; (split; [reflexivity|]);
        eexists; (split; [rewrite <- ?app_assoc; reflexivity | reflexivity]).
    - destruct (Args.returnImmediately (args m)); simpl;
        (split; [reflexivity|]).
      + exists []. now rewrite app_nil_r.
      + eexists. split; reflexivity. }
  destruct outcome as [response|err]; [|apply Hrej].
  simpl. unfold onFulfilled. set (r := envelope _ _ _ _ _ _ "success" _).
  clearbody r. exec_unfold.
  destruct memoizedOnMutateSuccess as [f|].
  - destruct (f r) as [[]|e].
    + destruct (Args.returnImmediately (args m)); simpl;
        (split; [reflexivity|]);
        eexists; (split; [rewrite <- ?app_assoc; reflexivity | reflexivity]).
    + match goal with
      | |- context [onRejected _ _ _ ?w1] =>
          destruct (Hrej e w1) as (H1 & later & H3 & H4)
      end.
      simpl in H1, H3 |- *. split; [exact H1|].
      exists (OnMutateSuccess r :: later).
      split; [rewrite H3, <- app_assoc; reflexivity | exact H4].
  - destruct (Args.returnImmediately (args m)); simpl;
      (split; [reflexivity|]).
    + exists []. now rewrite app_nil_r.
    + eexists. split; reflexivity.
Qed.

(** X9. [handleMutation] sets [isMutating] to true first and never sets
    it again: after every call, whether the executor threw or [mutate]
    settled, fulfilled or rejected, [isMutating] is still true. *)
Theorem X9_isMutating_is_never_reset
    (a : Args.t) (mutating : bool) (uuidsSoFar : nat)
    (outcome : Completion (option SupabaseProviderFetchResult)) :
  let final := runAll a mutating uuidsSoFar outcome in
  isMutating final = true
  /\ exists rest,
       trace final = SetIsMutating true :: rest
       /\ List.filter isSetIsMutating rest = [].
Proof.
  unfold lifecycle, handleMutation.
  destruct (runExecutor a (newCall mutating uuidsSoFar)) as [[m|e] w] eqn:Hex;
    destruct (executor_frame a mutating uuidsSoFar _ w Hex)
      as (Hmut & rest & Htrace & Hset & _).
  - destruct (settle_frame m outcome w) as (Hmut' & later & Hlater & Hnote).
    simpl. split; [now rewrite Hmut'|].
    exists (rest ++ later). rewrite Hlater, Htrace. split; [reflexivity|].
    destruct (notifications_only later Hnote) as [_ Hnone].
    now rewrite List.filter_app, Hset, Hnone.
  - simpl. split; [exact Hmut|]. exists rest. auto.
Qed.

(** X10. Over a whole call the backend mutator and [mutate] are each
    called once, the mutator first, when the executor returns, and not at
    all when it throws; the handlers never call them. *)
Theorem X10_mutator_and_mutate_called_together
    (a : Args.t) (mutating : bool) (uuidsSoFar : nat)
    (outcome : Completion (option SupabaseProviderFetchResult)) :
  let final := runAll a mutating uuidsSoFar outcome in
  match fst (run a mutating uuidsSoFar) with
  | Some m =>
      exists mutatorFunction call optimisticFunc,
        mutatorCallOf mutatorFunction (normalizeArgs a) = Some call
        /\ List.filter startsAsyncWork (trace final)
           = [CallMutator call; Mutate optimisticFunc (optimisticRowFinal m)]
  | None => List.filter startsAsyncWork (trace final) = []
  end.
Proof.
  unfold lifecycle, handleMutation.
  destruct (runExecutor a (newCall mutating uuidsSoFar)) as [[m|e] w] eqn:Hex;
    destruct (executor_frame a mutating uuidsSoFar _ w Hex)
      as (_ & rest & Htrace & _ & Hasync); simpl.
  - destruct Hasync as (mf & call & fn & Hcall & Hasync & _).
    destruct (settle_frame m outcome w) as (_ & later & Hlater & Hnote).
    exists mf, call, fn. split; [exact Hcall|].
    destruct (notifications_only later Hnote) as [Hnone _].
    rewrite Hlater, Htrace. simpl.
    now rewrite List.filter_app, Hasync, Hnone.
  - destruct Hasync as [Hasync _]. rewrite Htrace. simpl. exact Hasync.
Qed.

Lemma chooseOptimisticFunction_without_inputs (op : option string)
    (optimisticCount : option Z) (optimisticFunc : OptimisticFunc) :
  chooseOptimisticFunction op None None optimisticCount = Normal optimisticFunc ->
  optimisticFunc = fnReturnUnchangedData.
Proof.
  unfold chooseOptimisticFunction. destruct op as [op|].
  - destruct (String.eqb op "addRow"); [intros H; now injection H as <-|].
    destruct (String.eqb op "editRow"); [intros H; now injection H as <-|].
    destruct (String.eqb op "deleteRow"); [intros H; now injection H as <-|].
    destruct (String.eqb op "replaceData"); [|discriminate].
    intros H. now injection H as <-.
  - intros H. now injection H as <-.
Qed.

Lemma selectFunctions_without_inputs (mutationType : string)
    (flexible : option FlexibleMutationSettings.t) (rpc : option RpcSettings.t)
    (optimisticCount : option Z) (mutatorFunction : MutatorFunction)
    (optimisticFunc : OptimisticFunc) :
  selectFunctions mutationType flexible rpc None None optimisticCount
    = Normal (mutatorFunction, optimisticFunc) ->
  optimisticFunc = fnReturnUnchangedData.
Proof.
  unfold selectFunctions.
  repeat match goal with
         | |- context [String.eqb mutationType ?k] =>
             destruct (String.eqb mutationType k)
         end;
    try (intros H; injection H as <- <-; reflexivity);
    try discriminate.
  all: cbv [mbind mret Completion_bind Completion_ret];
    match goal with
    | |- context [chooseOptimisticFunction ?o None None ?c] =>
        destruct (chooseOptimisticFunction o None None c) as [f|e] eqn:Hchoose;
        [|discriminate]
    end;
    intros H; injection H as <- <-;
    eapply chooseOptimisticFunction_without_inputs; eauto.
Qed.

(** X8. A call with neither [optimisticRow] nor [optimisticData] adds,
    edits and removes no cached row: for every mutation type and every
    requested optimistic operation, when it reaches [mutate] the function it
    hands over is [returnUnchangedData], which gives back a snapshot that is
    there as it is, and the null-shaped snapshot when the cache has none; no
    token is drawn from [uuid()]. *)
Theorem X8_no_speculative_input_leaves_the_snapshot
    (a : Args.t) (mutating : bool) (uuidsSoFar : nat)
    (m : InFlight) (w : World) :
  Args.optimisticRow a = None ->
  Args.optimisticData a = None ->
  run a mutating uuidsSoFar = (Some m, w) ->
  optimisticRowFinal m = None
  /\ optimisticDataFinal m = None
  /\ uuids w = uuidsSoFar
  /\ (exists before call,
        trace w = before ++ [CallMutator call; Mutate fnReturnUnchangedData None])
  /\ forall currentData,
       producer fnReturnUnchangedData currentData None
       = Some (Normal match currentData with
                      | Some snapshot => snapshot
                      | None => {| data := None; count := None |}
                      end).
Proof.
  intros Hrow Hdata Hrun.
  pose proof (run_normal _ _ _ _ _ _ _ _ _ Hrun) as Hex.
  pose proof (executor_normal _ _ _ _ a mutating uuidsSoFar m w Hex)
    as (mf & fn & call & _ & _ & HmRow & HmData & _ & _ & Hsel & _ & Htrace).
  destruct (executor_frame a mutating uuidsSoFar _ w Hex)
    as (_ & _ & _ & _ & _ & _ & _ & _ & _ & Huuids).
  unfold rowFinalOf in HmRow. unfold dataFinalOf in HmData.
  rewrite Hrow, Hdata in HmRow. rewrite Hdata in HmData.
  rewrite HmRow, HmData in Hsel. rewrite HmRow in Htrace, Huuids.
  apply selectFunctions_without_inputs in Hsel. subst fn.
  split; [exact HmRow|]. split; [exact HmData|]. split; [exact Huuids|].
  split; [|intros [snapshot|]; reflexivity].
  eexists _, call. rewrite Htrace, app_comm_cons. reflexivity.
Qed.

Lemma rowFinalOf_stamped (a : Args.t) (token : string) (row : OptimisticRow) :
  rowFinalOf a token = Some row ->
  Js.get row "optimisticId" = Js.Str token
  /\ Js.get row "isOptimistic" = Js.Boolean true.
Proof.
  unfold rowFinalOf.
  destruct (Args.optimisticRow a) as [r|];
    [|destruct (Args.optimisticData a) as [[object|rows]|]];
    intros H; try discriminate; injection H as <-; apply stamp_get_stamps.
Qed.

(** X16. The synchronous part of a call that reaches [mutate] with a
    speculative row draws exactly one token from [uuid()].  So two such
    calls started one after the other, the second before the [mutate]
    promise of the first settles, stamp their rows with two consecutive
    tokens, and their [optimisticId]s differ whenever the two tokens do. *)
Theorem X16_consecutive_calls_use_consecutive_tokens
    (a b : Args.t) (mutating : bool) (uuidsSoFar : nat)
    (m m' : InFlight) (w w' : World) (row row' : OptimisticRow) :
  run a mutating uuidsSoFar = (Some m, w) ->
  optimisticRowFinal m = Some row ->
  run b (isMutating w) (uuids w) = (Some m', w') ->
  optimisticRowFinal m' = Some row' ->
  uuids w = S uuidsSoFar
  /\ uuids w' = S (S uuidsSoFar)
  /\ Js.get row "optimisticId" = Js.Str (uuidToken uuidsSoFar)
  /\ Js.get row' "optimisticId" = Js.Str (uuidToken (S uuidsSoFar))
  /\ (uuidToken uuidsSoFar <> uuidToken (S uuidsSoFar) ->
      Js.strict_eq (Js.get row "optimisticId") (Js.get row' "optimisticId")
      = false).
Proof.
  intros Hrun Hrow Hrun' Hrow'.
  pose proof (run_normal _ _ _ _ _ _ _ _ _ Hrun) as Hex.
  destruct (executor_frame a mutating uuidsSoFar _ w Hex)
    as (_ & _ & _ & _ & _ & _ & _ & _ & _ & Huuids).
  rewrite Hrow in Huuids. rewrite Huuids in Hrun'.
  pose proof (run_normal _ _ _ _ _ _ _ _ _ Hrun') as Hex'.
  destruct (executor_frame b _ _ _ w' Hex')
    as (_ & _ & _ & _ & _ & _ & _ & _ & _ & Huuids').
  rewrite Hrow' in Huuids'.
  pose proof (executor_normal _ _ _ _ a mutating uuidsSoFar m w Hex)
    as (_ & _ & _ & _ & _ & HmRow & _).
  pose proof (executor_normal _ _ _ _ b _ _ m' w' Hex')
    as (_ & _ & _ & _ & _ & HmRow' & _).
  rewrite Hrow in HmRow. rewrite Hrow' in HmRow'.
  destruct (rowFinalOf_stamped _ _ _ (eq_sym HmRow)) as [Hid _].
  destruct (rowFinalOf_stamped _ _ _ (eq_sym HmRow')) as [Hid' _].
  split; [exact Huuids|]. split; [exact Huuids'|].
  split; [exact Hid|]. split; [exact Hid'|].
  intros Hdiff. rewrite Hid, Hid'. simpl.
  destruct (String.eqb_spec (uuidToken uuidsSoFar) (uuidToken (S uuidsSoFar)));
    [contradiction | reflexivity].
Qed.

(** X11. An rpc call without [rpcSettings], or with an empty [rpcName],
    is rejected with the missing-name error before anything else than
    [setIsMutating(true)] happens, also with [returnImmediately], and
    whatever the validator of the optimistic settings would say. *)
Theorem X11_rpc_without_name_is_rejected
    (a : Args.t) (mutating : bool) (uuidsSoFar : nat) :
  Args.mutationType a = "rpc" ->
  match Args.rpcSettings a with
  | Some settings => RpcSettings.rpcName settings = ""
  | None => True
  end ->
  exists w,
    run a mutating uuidsSoFar = (None, w)
    /\ promise w = Rejected (Error missingRpcNameMessage)
    /\ trace w = [SetIsMutating true]
    /\ uuids w = uuidsSoFar
    /\ forall outcome, runAll a mutating uuidsSoFar outcome = w.
Proof.
  intros Hmt Hname.
  assert (Hrun : exists w,
    run a mutating uuidsSoFar = (None, w)
    /\ promise w = Rejected (Error missingRpcNameMessage)
    /\ trace w = [SetIsMutating true] /\ uuids w = uuidsSoFar).
  { unfold handleMutation, executor, newCall, validateSettings. exec_unfold.
    simpl. rewrite Hmt. simpl.
    destruct (Args.rpcSettings a) as [settings|]; simpl.
    - assert (Hkept : RpcSettings.rpcName
                        match RpcSettings.optimisticOperation settings with
                        | Some op =>
                            if String.eqb op ""
                            then {| RpcSettings.rpcName := RpcSettings.rpcName settings;
                                    RpcSettings.optimisticOperation := None |}
                            else settings
                        | None => settings
                        end = "").
      { destruct (RpcSettings.optimisticOperation settings) as [op|];
          [destruct (String.eqb op "")|]; exact Hname. }
      destruct (RpcSettings.optimisticOperation settings) as [op|];
        [destruct (String.eqb op "")|]; simpl in *; rewrite ?Hname, ?Hkept;
        simpl; eexists; repeat split; reflexivity.
    - eexists. repeat split; reflexivity. }
  destruct Hrun as (w & Hrun & Hp & Ht & Hu).
  exists w. repeat split; auto.
  intros outcome. unfold lifecycle. now rewrite Hrun.
Qed.

(** The executor only returns when the validation passed. *)
Lemma executor_validated (a : Args.t) (mutating : bool) (uuidsSoFar : nat)
    (m : InFlight) (w : World) :
  runExecutor a (newCall mutating uuidsSoFar) = (Normal m, w) ->
  validate (Args.mutationType a) (Args.dataForSupabase a) (Args.optimisticData a)
    (Args.flexibleMutationSettings (normalizeArgs a))
    (Args.rpcSettings (normalizeArgs a)) = Normal tt.
Proof.
  unfold executor, newCall. exec_unfold. simpl.
  destruct (validate _ _ _ _ _) as [[]|e]; [reflexivity | discriminate].
Qed.

(** When the checks pass and the selection of the functions throws, the
    executor ends there: rejected, or, with [returnImmediately], already
    resolved with the pending envelope. *)
Lemma run_selection_throws (a : Args.t) (mutating : bool) (uuidsSoFar : nat)
    (e : exn) :
  let a' := normalizeArgs a in
  let pending :=
    envelope a' (rowFinalOf a (uuidToken uuidsSoFar)) (dataFinalOf a) None None
      (MutationPhrases.inProgress (getMutationPhrases (Args.mutationType a)))
      "pending" None in
  validate (Args.mutationType a) (Args.dataForSupabase a)
    (Args.optimisticData a) (Args.flexibleMutationSettings a')
    (Args.rpcSettings a') = Normal tt ->
  (Args.optimisticRow a = None \/ Args.optimisticData a = None) ->
  selectFunctions (Args.mutationType a) (Args.flexibleMutationSettings a')
    (Args.rpcSettings a') (rowFinalOf a (uuidToken uuidsSoFar))
    (dataFinalOf a) (Args.optimisticCount a) = Throw e ->
  exists w,
    run a mutating uuidsSoFar = (None, w)
    /\ trace w =
         SetIsMutating true
         :: (if Args.returnImmediately a then [Resolve pending] else [])
    /\ promise w =
         (if Args.returnImmediately a then Fulfilled pending else Rejected e).
Proof.
  intros a' pending. subst a' pending.
  unfold handleMutation, executor, newCall, rowFinalOf, dataFinalOf.
  exec_unfold. simpl. intros -> Hone Hsel.
  unfold checkOneSpeculativeInput, materialize. exec_unfold. simpl.
  destruct Hone as [Hone | Hone]; rewrite Hone in *;
    destruct (Args.optimisticRow a) as [row|] eqn:Hrow;
    destruct (Args.optimisticData a) as [[object|rows]|] eqn:Hdata;
    try discriminate; simpl;
    destruct (Args.returnImmediately a); simpl; rewrite Hsel; simpl;
    eexists; repeat split; reflexivity.
Qed.

(** The five mutation types [handleMutation] has a case for. *)
Definition knownMutationType (mutationType : string) : bool :=
  String.eqb mutationType "insert" || String.eqb mutationType "update"
  || String.eqb mutationType "delete"
  || String.eqb mutationType "flexibleMutation" || String.eqb mutationType "rpc".

(** X12. A call without [returnImmediately] whose mutation type has no
    case, and that does not give both speculative inputs, ends in the
    default of the switch: the promise is rejected with the
    invalid-operation error, no mutator is called and no callback ever
    runs.  The phrase table is not read on this path. *)
Theorem X12_unknown_mutation_type
    (a : Args.t) (mutating : bool) (uuidsSoFar : nat) :
  knownMutationType (Args.mutationType a) = false ->
  (Args.optimisticRow a = None \/ Args.optimisticData a = None) ->
  Args.returnImmediately a = false ->
  exists w,
    run a mutating uuidsSoFar = (None, w)
    /\ (forall outcome, runAll a mutating uuidsSoFar outcome = w)
    /\ promise w = Rejected (Error invalidOperationMessage)
    /\ trace w = [SetIsMutating true].
Proof.
  intros Hunknown Hone Hlater. unfold knownMutationType in Hunknown.
  repeat (apply orb_false_iff in Hunknown; destruct Hunknown as [Hunknown ?]).
  destruct (run_selection_throws a mutating uuidsSoFar
              (Error invalidOperationMessage)) as (w & Hrun & Htrace & Hpromise).
  - unfold validateSettings.
    repeat match goal with H : String.eqb _ _ = false |- _ => rewrite H; clear H end.
    reflexivity.
  - exact Hone.
  - unfold selectFunctions.
    repeat match goal with H : String.eqb _ _ = false |- _ => rewrite H; clear H end.
    reflexivity.
  - rewrite Hlater in Htrace, Hpromise.
    exists w. split; [exact Hrun|]. split; [|split; assumption].
    intros outcome. unfold lifecycle. now rewrite Hrun.
Qed.

Lemma chooseOptimisticFunction_unknown (op : string)
    (optimisticRowFinal : option OptimisticRow)
    (optimisticDataFinal : option Rows) (optimisticCount : option Z) :
  knownOptimisticOperation op = false ->
  chooseOptimisticFunction (Some op) optimisticRowFinal optimisticDataFinal
    optimisticCount
  = Throw (Error invalidOptimisticOperationMessage).
Proof.
  unfold knownOptimisticOperation, chooseOptimisticFunction. intros Hunknown.
  repeat (apply orb_false_iff in Hunknown; destruct Hunknown as [Hunknown ?]).
  repeat match goal with H : String.eqb _ _ = false |- _ => rewrite H; clear H end.
  reflexivity.
Qed.

(** The requested operation after the normalization of lines 137-142:
    unchanged unless it is the empty string. *)
Lemma requestedOptimisticOperation_normalized (a : Args.t) (op : string) :
  requestedOptimisticOperation a = Some op ->
  op <> "" ->
  requestedOptimisticOperation (normalizeArgs a) = Some op.
Proof.
  unfold requestedOptimisticOperation. simpl. intros Hreq Hne.
  apply String.eqb_neq in Hne.
  destruct (String.eqb (Args.mutationType a) "flexibleMutation").
  - destruct (Args.flexibleMutationSettings a) as [s|]; [|discriminate].
    simpl in *. rewrite Hreq, Hne. simpl. exact Hreq.
  - destruct (String.eqb (Args.mutationType a) "rpc"); [|discriminate].
    destruct (Args.rpcSettings a) as [s|]; [|discriminate].
    simpl in *. rewrite Hreq, Hne. simpl. exact Hreq.
Qed.

(** X13. A flexible mutation or rpc that asks for an optimistic
    operation that is not one of the four known ones (and not the empty
    string) never reaches the backend, whatever the validators do: no
    mutator and no [mutate] is called and no callback ever runs.  When the
    validation throws, the promise is rejected with what it threw and
    nothing but [setIsMutating(true)] has happened.  When it does not, the
    executor still throws, at the both-inputs check or in
    [chooseOptimisticFunction], and the promise is rejected unless
    [returnImmediately] had it resolved with the pending envelope. *)
Theorem X13_unknown_optimistic_operation
    (a : Args.t) (mutating : bool) (uuidsSoFar : nat) (op : string) :
  requestedOptimisticOperation a = Some op ->
  op <> "" ->
  knownOptimisticOperation op = false ->
  exists w,
    run a mutating uuidsSoFar = (None, w)
    /\ (forall outcome, runAll a mutating uuidsSoFar outcome = w)
    /\ List.filter startsAsyncWork (trace w) = []
    /\ ((exists e, promise w = Rejected e)
        \/ (Args.returnImmediately a = true
            /\ exists pending,
                 promise w = Fulfilled pending
                 /\ MutateResult.status pending = "pending"))
    /\ (forall e,
          validate (Args.mutationType a) (Args.dataForSupabase a)
            (Args.optimisticData a)
            (Args.flexibleMutationSettings (normalizeArgs a))
            (Args.rpcSettings (normalizeArgs a)) = Throw e ->
          promise w = Rejected e
          /\ trace w = [SetIsMutating true]
          /\ uuids w = uuidsSoFar).
Proof.
  intros Hreq Hne Hunknown.
  pose proof (requestedOptimisticOperation_normalized a op Hreq Hne) as Hreq'.
  assert (Hsel : forall rowFinal dataFinal,
    selectFunctions (Args.mutationType a)
      (Args.flexibleMutationSettings (normalizeArgs a))
      (Args.rpcSettings (normalizeArgs a)) rowFinal dataFinal
      (Args.optimisticCount a)
    = Throw (Error invalidOptimisticOperationMessage)).
  { intros rowFinal dataFinal.
    unfold requestedOptimisticOperation in Hreq'.
    change (Args.mutationType (normalizeArgs a)) with (Args.mutationType a) in Hreq'.
    unfold selectFunctions.
    destruct (String.eqb_spec (Args.mutationType a) "flexibleMutation") as [Hmt|Hmt].
    + rewrite Hmt. simpl String.eqb. cbv iota. rewrite Hreq'.
      now rewrite chooseOptimisticFunction_unknown.
    + destruct (String.eqb_spec (Args.mutationType a) "rpc") as [Hrpc|Hrpc];
        [|discriminate].
      rewrite Hrpc. simpl String.eqb. cbv iota. rewrite Hreq'.
      now rewrite chooseOptimisticFunction_unknown. }
  assert (Hrun : exists w,
    run a mutating uuidsSoFar = (None, w)
    /\ List.filter startsAsyncWork (trace w) = []
    /\ ((exists e, promise w = Rejected e)
        \/ (Args.returnImmediately a = true
            /\ exists pending,
                 promise w = Fulfilled pending
                 /\ MutateResult.status pending = "pending"))
    /\ (forall e,
          validate (Args.mutationType a) (Args.dataForSupabase a)
            (Args.optimisticData a)
            (Args.flexibleMutationSettings (normalizeArgs a))
            (Args.rpcSettings (normalizeArgs a)) = Throw e ->
          promise w = Rejected e
          /\ trace w = [SetIsMutating true]
          /\ uuids w = uuidsSoFar)).
  { unfold handleMutation, executor, newCall. exec_unfold. simpl.
    destruct (validate _ _ _ _ _) as [[]|thrown].
    - unfold checkOneSpeculativeInput, materialize. exec_unfold. simpl.
      destruct (Args.optimisticRow a) as [row|],
               (Args.optimisticData a) as [[object|rows]|],
               (Args.returnImmediately a);
        simpl; rewrite ?Hsel; simpl;
        eexists; (split; [reflexivity|]); (split; [reflexivity|]);
        (split; [|intros e He; discriminate He]); simpl;
        first [ left; eexists; reflexivity
              | right; split; [reflexivity|]; eexists; split; reflexivity ].
    - eexists. split; [reflexivity|]. split; [reflexivity|].
      split; [left; eexists; reflexivity|].
      intros e He. injection He as <-. repeat split. }
  destruct Hrun as (w & Hrun & Hasync & Hpromise & Hthrown).
  exists w. split; [exact Hrun|]. split; [|auto].
  intros outcome. unfold lifecycle. now rewrite Hrun.
Qed.

(** The success callback, when there is one, returns. *)
Definition successCallbackReturns : Prop :=
  forall f result, memoizedOnMutateSuccess = Some f -> f result = Normal tt.

(** The envelope of the [then] handler. *)
Definition successEnvelope (m : InFlight)
    (response : option SupabaseProviderFetchResult) : MutateResult.t :=
  envelope (args m) (optimisticRowFinal m) (optimisticDataFinal m)
    (response ≫= data) (response ≫= count)
    (MutationPhrases.success (mutationPhrases m)) "success" None.

(** X14. When the backend call succeeds and the success callback (if
    any) returns, the callback is given the success envelope first: rows
    and count of the response ([null] for both when the response is
    [undefined]), the speculative input echoed back, an [optimisticCount]
    of 0 turned into [null].  The promise is then resolved with that
    envelope, unless it was resolved at once; the error callback is not
    called. *)
Theorem X14_success_is_reported_then_resolved
    (a : Args.t) (mutating : bool) (uuidsSoFar : nat)
    (m : InFlight) (w : World)
    (response : option SupabaseProviderFetchResult) :
  run a mutating uuidsSoFar = (Some m, w) ->
  successCallbackReturns ->
  let result := successEnvelope m response in
  match response with
  | Some fetched =>
      MutateResult.data result = data fetched
      /\ MutateResult.count result = count fetched
  | None => MutateResult.data result = None /\ MutateResult.count result = None
  end
  /\ MutateResult.optimisticData result
     = match rowFinalOf a (uuidToken uuidsSoFar) with
       | Some row => Some (OneRow row)
       | None => ManyRows <$> dataFinalOf a
       end
  /\ (Args.optimisticCount a = Some 0 -> MutateResult.optimisticCount result = None)
  /\ MutateResult.action result = Args.mutationType a
  /\ MutateResult.summary result
     = MutationPhrases.success (getMutationPhrases (Args.mutationType a))
  /\ exists w',
       handlers m (Normal response) w = (Normal tt, w')
       /\ trace w' =
            trace w
            ++ match memoizedOnMutateSuccess with
               | Some _ => [OnMutateSuccess result]
               | None => []
               end
            ++ (if Args.returnImmediately a then [] else [Resolve result])
       /\ promise w' =
            (if Args.returnImmediately a then promise w else Fulfilled result).
Proof.
  intros Hrun Hcb result.
  pose proof (run_normal _ _ _ _ _ _ _ _ _ Hrun) as Hex.
  pose proof (executor_normal _ _ _ _ a mutating uuidsSoFar m w Hex)
    as (mf & fn & call & Hargs & Hphr & HmRow & HmData & _ & _ & _ & Hpromise & _).
  split; [destruct response; split; reflexivity|].
  split.
  { subst result. unfold successEnvelope, envelope. simpl.
    rewrite HmRow, HmData. unfold rowOrDataOrNull.
    destruct (rowFinalOf a (uuidToken uuidsSoFar)); [reflexivity|].
    destruct (dataFinalOf a); reflexivity. }
  split.
  { intros Hzero. subst result. unfold successEnvelope, envelope. simpl.
    rewrite Hargs. simpl. now rewrite Hzero. }
  split; [subst result; simpl; now rewrite Hargs|].
  split; [subst result; simpl; now rewrite Hphr|].
  assert (Hri : Args.returnImmediately (args m) = Args.returnImmediately a)
    by now rewrite Hargs.
  simpl. unfold onFulfilled. fold (successEnvelope m response). fold result.
  clearbody result. exec_unfold. rewrite Hri.
  destruct memoizedOnMutateSuccess as [f|] eqn:Hf.
  - rewrite (Hcb f result Hf).
    destruct (Args.returnImmediately a); simpl in *.
    + eexists. repeat split.
    + rewrite Hpromise. eexists. repeat split. simpl.
      now rewrite <- app_assoc.
  - destruct (Args.returnImmediately a); simpl in *.
    + eexists. repeat split. simpl. now rewrite app_nil_r.
    + rewrite Hpromise. eexists. repeat split.
Qed.

(** X15. When the backend call succeeds but the success callback throws,
    the [catch] handler of the same chain takes over: the error callback
    is called with an error built from what the success callback threw,
    and the promise, unless it was resolved at once, is resolved with the
    error-status envelope although the mutation succeeded. *)
Theorem X15_throwing_success_callback_is_reported_as_error
    (a : Args.t) (mutating : bool) (uuidsSoFar : nat)
    (m : InFlight) (w : World)
    (response : option SupabaseProviderFetchResult)
    (onSuccess : MutateResult.t -> Completion unit) (e : exn) :
  run a mutating uuidsSoFar = (Some m, w) ->
  memoizedOnMutateSuccess = Some onSuccess ->
  onSuccess (successEnvelope m response) = Throw e ->
  errorCallbackReturns memoizedOnError ->
  exists w',
    handlers m (Normal response) w = (Normal tt, w')
    /\ trace w' =
         trace w
         ++ [OnMutateSuccess (successEnvelope m response)]
         ++ match memoizedOnError with
            | Some _ => [OnError (errorFor m e)]
            | None => []
            end
         ++ (if Args.returnImmediately a then []
             else [Resolve (errorEnvelope m e)])
    /\ promise w' =
         (if Args.returnImmediately a then promise w
          else Fulfilled (errorEnvelope m e))
    /\ MutateResult.status (errorEnvelope m e) = "error"
    /\ MutateResult.error (errorEnvelope m e)
       = Some (buildSupabaseProviderError e (Args.mutationType a)
                 (MutationPhrases.error (getMutationPhrases (Args.mutationType a)))
                 (Args.dataForSupabase a)
                 (rowOrDataOrNull (optimisticRowFinal m) (optimisticDataFinal m))
                 (Args.customMetadata a)).
Proof.
  intros Hrun Hf Hthrows Hcb.
  pose proof (run_normal _ _ _ _ _ _ _ _ _ Hrun) as Hex.
  pose proof (executor_normal _ _ _ _ a mutating uuidsSoFar m w Hex)
    as (mf & fn & call & Hargs & Hphr & _ & _ & _ & _ & _ & Hpromise & _).
  assert (Hri : Args.returnImmediately (args m) = Args.returnImmediately a)
    by now rewrite Hargs.
  simpl. unfold onFulfilled. fold (successEnvelope m response).
  exec_unfold. rewrite Hf, Hthrows.
  match goal with
  | |- context [onRejected _ _ _ ?w1] =>
      destruct (onRejected_runs memoizedOnError m e w1 Hcb)
        as (w' & Hrej & Htrace & Hp)
  end.
  exists w'. split; [exact Hrej|]. simpl in Htrace, Hp. rewrite Hri in Htrace, Hp.
  split; [rewrite Htrace, <- !app_assoc; reflexivity|].
  split.
  { rewrite Hp. destruct (Args.returnImmediately a); [reflexivity|].
    now rewrite Hpromise. }
  split; [reflexivity|].
  unfold errorEnvelope, errorFor. simpl. now rewrite Hargs, Hphr.
Qed.

(** X18. An insert, update or delete call that does not give both
    speculative inputs always reaches [mutate], whatever the flexible and
    rpc settings hold: it calls [addRowMutator], [editRowMutator] or
    [deleteRowMutator] with [dataForSupabase] (not the stamped row) and
    [shouldReturnRow], and hands [mutate] the matching row transform when
    there is a speculative row, [returnUnchangedData] otherwise. *)
Theorem X18_row_mutations_reach_mutate
    (a : Args.t) (mutating : bool) (uuidsSoFar : nat)
    (mutatorCall : option RowOrRows -> bool -> MutatorCall)
    (transform : OptimisticFunc) :
  (Args.mutationType a = "insert"
   /\ mutatorCall = addRowMutator /\ transform = fnAddRowOptimistically)
  \/ (Args.mutationType a = "update"
      /\ mutatorCall = editRowMutator /\ transform = fnEditRowOptimistically)
  \/ (Args.mutationType a = "delete"
      /\ mutatorCall = deleteRowMutator /\ transform = fnDeleteRowOptimistically) ->
  (Args.optimisticRow a = None \/ Args.optimisticData a = None) ->
  let rowFinal := rowFinalOf a (uuidToken uuidsSoFar) in
  exists m w before,
    run a mutating uuidsSoFar = (Some m, w)
    /\ optimisticRowFinal m = rowFinal
    /\ trace w =
         before
         ++ [CallMutator (mutatorCall (Args.dataForSupabase a) (Args.shouldReturnRow a));
             Mutate match rowFinal with
                    | Some _ => transform
                    | None => fnReturnUnchangedData
                    end rowFinal]
    /\ List.filter startsAsyncWork before = [].
Proof.
  intros Hcase Hone rowFinal. subst rowFinal.
  destruct Hcase as [(Hmt & -> & ->) | [(Hmt & -> & ->) | (Hmt & -> & ->)]].
  - edestruct (run_reaches_mutate validateFlexibleMutationSettings
                 validateDynamicOptimisticSettings getMutationPhrases uuidToken
                 a mutating uuidsSoFar fnAddRowMutator)
      as (m & w & before & Hrun & _ & Hrow & _ & Htrace & Hasync);
      [unfold validateSettings; rewrite Hmt; reflexivity
      | exact Hone
      | unfold selectFunctions; rewrite Hmt; reflexivity
      | reflexivity
      | exists m, w, before; auto].
  - edestruct (run_reaches_mutate validateFlexibleMutationSettings
                 validateDynamicOptimisticSettings getMutationPhrases uuidToken
                 a mutating uuidsSoFar fnEditRowMutator)
      as (m & w & before & Hrun & _ & Hrow & _ & Htrace & Hasync);
      [unfold validateSettings; rewrite Hmt; reflexivity
      | exact Hone
      | unfold selectFunctions; rewrite Hmt; reflexivity
      | reflexivity
      | exists m, w, before; auto].
  - edestruct (run_reaches_mutate validateFlexibleMutationSettings
                 validateDynamicOptimisticSettings getMutationPhrases uuidToken
                 a mutating uuidsSoFar fnDeleteRowMutator)
      as (m & w & before & Hrun & _ & Hrow & _ & Htrace & Hasync);
      [unfold validateSettings; rewrite Hmt; reflexivity
      | exact Hone
      | unfold selectFunctions; rewrite Hmt; reflexivity
      | reflexivity
      | exists m, w, before; auto].
Qed.

(** X17. An array given as [optimisticData] to an insert, update or
    delete call is not applied to the cache: [mutate] gets
    [returnUnchangedData], which gives back the snapshot it is given, and
    no token is drawn; the array is still echoed as [optimisticData] in
    the envelopes. *)
Theorem X17_array_dataset_is_ignored_by_row_mutations
    (a : Args.t) (mutating : bool) (uuidsSoFar : nat) (rows : Rows) :
  Args.mutationType a = "insert" \/ Args.mutationType a = "update"
  \/ Args.mutationType a = "delete" ->
  Args.optimisticRow a = None ->
  Args.optimisticData a = Some (ManyRows rows) ->
  exists m w before call,
    run a mutating uuidsSoFar = (Some m, w)
    /\ trace w = before ++ [CallMutator call; Mutate fnReturnUnchangedData None]
    /\ List.filter startsAsyncWork before = []
    /\ uuids w = uuidsSoFar
    /\ (forall currentData,
          producer fnReturnUnchangedData (Some currentData) None
          = Some (Normal currentData))
    /\ (forall response,
          MutateResult.optimisticData (successEnvelope m response)
          = Some (ManyRows rows))
    /\ (forall err,
          MutateResult.optimisticData (errorEnvelope m err)
          = Some (ManyRows rows)).
Proof.
  intros Hcase Hrow Hdata.
  assert (Hfinal : rowFinalOf a (uuidToken uuidsSoFar) = None).
  { unfold rowFinalOf. now rewrite Hrow, Hdata. }
  assert (Hreach : exists mutatorFunction call,
    validate (Args.mutationType a) (Args.dataForSupabase a)
      (Args.optimisticData a) (Args.flexibleMutationSettings (normalizeArgs a))
      (Args.rpcSettings (normalizeArgs a)) = Normal tt
    /\ selectFunctions (Args.mutationType a)
         (Args.flexibleMutationSettings (normalizeArgs a))
         (Args.rpcSettings (normalizeArgs a)) (rowFinalOf a (uuidToken uuidsSoFar))
         (dataFinalOf a) (Args.optimisticCount a)
       = Normal (mutatorFunction, fnReturnUnchangedData)
    /\ mutatorCallOf mutatorFunction (normalizeArgs a) = Some call).
  { rewrite Hfinal. unfold validateSettings, selectFunctions.
    destruct Hcase as [Hmt | [Hmt | Hmt]]; rewrite Hmt;
      eexists _, _; repeat split; reflexivity. }
  destruct Hreach as (mf & call & Hval & Hsel & Hcall).
  destruct (run_reaches_mutate validateFlexibleMutationSettings
              validateDynamicOptimisticSettings getMutationPhrases uuidToken
              a mutating uuidsSoFar mf fnReturnUnchangedData call Hval
              (or_introl Hrow) Hsel Hcall)
    as (m & w & before & Hrun & _ & HmRow & HmData & Htrace & Hasync).
  rewrite Hfinal in Htrace, HmRow.
  pose proof (run_normal _ _ _ _ _ _ _ _ _ Hrun) as Hex.
  destruct (executor_frame a mutating uuidsSoFar _ w Hex)
    as (_ & _ & _ & _ & _ & _ & _ & _ & _ & Huuids).
  rewrite HmRow in Huuids.
  exists m, w, before, call.
  split; [exact Hrun|]. split; [exact Htrace|]. split; [exact Hasync|].
  split; [exact Huuids|]. split; [reflexivity|].
  unfold successEnvelope, errorEnvelope, envelope, dataFinalOf in *. simpl.
  rewrite HmRow, HmData, Hdata. split; reflexivity.
Qed.

Lemma normalizeFlexibleMutationSettings_fields
    (settings : option FlexibleMutationSettings.t)
    (normalized : FlexibleMutationSettings.t) :
  normalizeFlexibleMutationSettings settings = Some normalized ->
  exists s,
    settings = Some s
    /\ FlexibleMutationSettings.tableName normalized
       = FlexibleMutationSettings.tableName s
    /\ FlexibleMutationSettings.operation normalized
       = FlexibleMutationSettings.operation s
    /\ FlexibleMutationSettings.filters normalized
       = FlexibleMutationSettings.filters s.
Proof.
  unfold normalizeFlexibleMutationSettings.
  destruct settings as [s|]; [|discriminate].
  destruct (FlexibleMutationSettings.optimisticOperation s) as [op|];
    [destruct (String.eqb op "")|];
    intros H; injection H as <-; exists s; repeat split.
Qed.

Lemma normalizeRpcSettings_fields (settings : option RpcSettings.t)
    (normalized : RpcSettings.t) :
  normalizeRpcSettings settings = Some normalized ->
  exists s,
    settings = Some s /\ RpcSettings.rpcName normalized = RpcSettings.rpcName s.
Proof.
  unfold normalizeRpcSettings.
  destruct settings as [s|]; [|discriminate].
  destruct (RpcSettings.optimisticOperation s) as [op|];
    [destruct (String.eqb op "")|];
    intros H; injection H as <-; exists s; repeat split.
Qed.

(** X19. A flexible mutation that reaches [mutate] had its settings, and
    called the flexible mutator with their table name, operation and
    filters, [dataForSupabase] and [shouldReturnRow]; an rpc that reaches
    [mutate] had settings with a non-empty [rpcName], and called [runRpc]
    with that name and [dataForSupabase] only. *)
Theorem X19_settings_reach_the_mutator
    (a : Args.t) (mutating : bool) (uuidsSoFar : nat)
    (m : InFlight) (w : World) :
  run a mutating uuidsSoFar = (Some m, w) ->
  (Args.mutationType a = "flexibleMutation" ->
   exists settings before optimisticFunc,
     Args.flexibleMutationSettings a = Some settings
     /\ trace w =
          before
          ++ [CallMutator
                (flexibleMutator (FlexibleMutationSettings.tableName settings)
                   (FlexibleMutationSettings.operation settings)
                   (Args.dataForSupabase a)
                   (FlexibleMutationSettings.filters settings)
                   (Args.shouldReturnRow a));
              Mutate optimisticFunc (optimisticRowFinal m)])
  /\ (Args.mutationType a = "rpc" ->
      exists settings before optimisticFunc,
        Args.rpcSettings a = Some settings
        /\ RpcSettings.rpcName settings <> ""
        /\ trace w =
             before
             ++ [CallMutator
                   (runRpc (RpcSettings.rpcName settings) (Args.dataForSupabase a));
                 Mutate optimisticFunc (optimisticRowFinal m)]).
Proof.
  intros Hrun.
  pose proof (run_normal _ _ _ _ _ _ _ _ _ Hrun) as Hex.
  pose proof (executor_validated a mutating uuidsSoFar m w Hex) as Hval.
  pose proof (executor_normal _ _ _ _ a mutating uuidsSoFar m w Hex)
    as (mf & fn & call & _ & _ & _ & _ & _ & Hcall & Hsel & _ & Htrace).
  rewrite app_comm_cons in Htrace.
  split; intros Hmt; rewrite Hmt in Hsel, Hval.
  - unfold selectFunctions in Hsel. simpl String.eqb in Hsel. cbv iota in Hsel.
    cbv [mbind mret Completion_bind Completion_ret] in Hsel.
    destruct (chooseOptimisticFunction _ _ _ _) as [chosen|e]; [|discriminate].
    injection Hsel as <- <-.
    unfold mutatorCallOf in Hcall.
    destruct (Args.flexibleMutationSettings (normalizeArgs a)) as [s'|] eqn:Hs';
      [|discriminate].
    injection Hcall as <-.
    destruct (normalizeFlexibleMutationSettings_fields _ _ Hs')
      as (s & Hs & Htable & Hop & Hfilters).
    exists s. eexists _, chosen. split; [exact Hs|].
    rewrite <- Htable, <- Hop, <- Hfilters. exact Htrace.
  - unfold selectFunctions in Hsel. simpl String.eqb in Hsel. cbv iota in Hsel.
    cbv [mbind mret Completion_bind Completion_ret] in Hsel.
    destruct (chooseOptimisticFunction _ _ _ _) as [chosen|e]; [|discriminate].
    injection Hsel as <- <-.
    unfold mutatorCallOf in Hcall.
    destruct (Args.rpcSettings (normalizeArgs a)) as [s'|] eqn:Hs';
      [|discriminate].
    injection Hcall as <-.
    destruct (normalizeRpcSettings_fields _ _ Hs') as (s & Hs & Hname).
    exists s. eexists _, chosen. split; [exact Hs|].
    rewrite <- Hname. split; [|exact Htrace].
    unfold validateSettings in Hval. simpl String.eqb in Hval. cbv iota in Hval.
    cbv [mbind mret Completion_bind Completion_ret] in Hval.
    destruct (String.eqb_spec (RpcSettings.rpcName s') ""); [discriminate | assumption].
Qed.

Lemma select_replaceData (a : Args.t) (rows : Rows) :
  requestedOptimisticOperation a = Some "replaceData" ->
  exists mutatorFunction call,
    selectFunctions (Args.mutationType a)
      (Args.flexibleMutationSettings (normalizeArgs a))
      (Args.rpcSettings (normalizeArgs a)) None (Some rows)
      (Args.optimisticCount a)
    = Normal (mutatorFunction, fnReplaceData rows (Args.optimisticCount a))
    /\ mutatorCallOf mutatorFunction (normalizeArgs a) = Some call.
Proof.
  intros Hreq. unfold requestedOptimisticOperation in Hreq.
  unfold selectFunctions.
  destruct (String.eqb_spec (Args.mutationType a) "flexibleMutation") as [Hmt|Hmt].
  - rewrite Hmt.
    destruct (Args.flexibleMutationSettings a) as [s|] eqn:Hs; [|discriminate].
    simpl in Hreq.
    assert (Hn : Args.flexibleMutationSettings (normalizeArgs a) = Some s).
    { simpl. rewrite Hs. simpl. now rewrite Hreq. }
    exists createFlexibleMutator. eexists.
    split; [|unfold mutatorCallOf; rewrite Hn; reflexivity].
    rewrite Hn. simpl. now rewrite Hreq.
  - destruct (String.eqb_spec (Args.mutationType a) "rpc") as [Hrpc|Hrpc];
      [|discriminate].
    rewrite Hrpc.
    destruct (Args.rpcSettings a) as [s|] eqn:Hs; [|discriminate].
    simpl in Hreq.
    assert (Hn : Args.rpcSettings (normalizeArgs a) = Some s).
    { simpl. rewrite Hs. simpl. now rewrite Hreq. }
    exists createRpcMutator. eexists.
    split; [|unfold mutatorCallOf; rewrite Hn; reflexivity].
    rewrite Hn. simpl. now rewrite Hreq.
Qed.

(** X20. A flexible mutation or rpc that asks for [replaceData] with an
    array as [optimisticData], and passes the validation, reaches [mutate]
    with a function that returns the given rows for every cached snapshot,
    an absent one too; the count is [optimisticCount], [null] when that is
    absent or 0, also when [returnCount] is ["none"]. *)
Theorem X20_replaceData_replaces_every_snapshot
    (a : Args.t) (mutating : bool) (uuidsSoFar : nat) (rows : Rows) :
  requestedOptimisticOperation a = Some "replaceData" ->
  Args.optimisticRow a = None ->
  Args.optimisticData a = Some (ManyRows rows) ->
  validate (Args.mutationType a) (Args.dataForSupabase a)
    (Args.optimisticData a) (Args.flexibleMutationSettings (normalizeArgs a))
    (Args.rpcSettings (normalizeArgs a)) = Normal tt ->
  exists m w before call optimisticFunc,
    run a mutating uuidsSoFar = (Some m, w)
    /\ trace w = before ++ [CallMutator call; Mutate optimisticFunc None]
    /\ List.filter startsAsyncWork before = []
    /\ forall currentData,
       exists result,
         producer optimisticFunc currentData None = Some (Normal result)
         /\ data result = Some rows
         /\ count result
            = match Args.optimisticCount a with
              | Some 0 => None
              | optimisticCount => optimisticCount
              end.
Proof.
  intros Hreq Hrow Hdata Hval.
  destruct (select_replaceData a rows Hreq) as (mf & call & Hsel & Hcall).
  assert (Hfinal : rowFinalOf a (uuidToken uuidsSoFar) = None).
  { unfold rowFinalOf. now rewrite Hrow, Hdata. }
  assert (HdataFinal : dataFinalOf a = Some rows).
  { unfold dataFinalOf. now rewrite Hdata. }
  rewrite <- Hfinal, <- HdataFinal in Hsel.
  destruct (run_reaches_mutate validateFlexibleMutationSettings
              validateDynamicOptimisticSettings getMutationPhrases uuidToken
              a mutating uuidsSoFar mf _ call Hval (or_introl Hrow) Hsel Hcall)
    as (m & w & before & Hrun & _ & _ & _ & Htrace & Hasync).
  rewrite Hfinal in Htrace.
  exists m, w, before, call, (fnReplaceData rows (Args.optimisticCount a)).
  split; [exact Hrun|]. split; [exact Htrace|]. split; [exact Hasync|].
  intros currentData. eexists. split; [reflexivity|]. split; [reflexivity|].
  simpl. unfold Js.or_null.
  destruct (Args.optimisticCount a) as [[|k|k]|]; reflexivity.
Qed.

Hypothesis clientSideOrderBy_permutes :
  forall orderBy rows, Permutation (clientSideOrderBy orderBy rows) rows.

(** X21. An insert call with an [optimisticRow] sends [dataForSupabase]
    and not the row to [addRowMutator], and hands [mutate] the row stamped
    with the next token and [isOptimistic: true], every other column as
    given; applied to any cached snapshot the producer returns the
    snapshot's rows and the stamped row, reordered. *)
Theorem X21_insert_adds_the_stamped_row
    (a : Args.t) (mutating : bool) (uuidsSoFar : nat) (row : Row) :
  Args.mutationType a = "insert" ->
  Args.optimisticRow a = Some row ->
  Args.optimisticData a = None ->
  exists m w before speculative,
    run a mutating uuidsSoFar = (Some m, w)
    /\ trace w =
         before
         ++ [CallMutator
               (addRowMutator (Args.dataForSupabase a) (Args.shouldReturnRow a));
             Mutate fnAddRowOptimistically (Some speculative)]
    /\ Js.get speculative "optimisticId" = Js.Str (uuidToken uuidsSoFar)
    /\ Js.get speculative "isOptimistic" = Js.Boolean true
    /\ (forall field,
          field <> "optimisticId" -> field <> "isOptimistic" ->
          Js.get speculative field = Js.get row field)
    /\ forall currentData,
       exists result,
         producer fnAddRowOptimistically currentData (Some speculative)
         = Some (Normal result)
         /\ Permutation (rowsOf (Some result)) (speculative :: rowsOf currentData).
Proof.
  intros Hmt Hrow Hdata.
  assert (Hfinal : rowFinalOf a (uuidToken uuidsSoFar)
                   = Some (stamp row (uuidToken uuidsSoFar))).
  { unfold rowFinalOf. now rewrite Hrow. }
  edestruct (run_reaches_mutate validateFlexibleMutationSettings
               validateDynamicOptimisticSettings getMutationPhrases uuidToken
               a mutating uuidsSoFar fnAddRowMutator)
    as (m & w & before & Hrun & _ & _ & _ & Htrace & _);
    [unfold validateSettings; rewrite Hmt; reflexivity
    | right; exact Hdata
    | unfold selectFunctions; rewrite Hmt; reflexivity
    | reflexivity
    |].
  rewrite Hfinal in Htrace.
  exists m, w, before, (stamp row (uuidToken uuidsSoFar)).
  split; [exact Hrun|]. split; [exact Htrace|].
  split; [apply stamp_get_stamps|]. split; [apply stamp_get_stamps|].
  split; [intros field; apply stamp_get_other|].
  intros currentData. eexists. split; [reflexivity|].
  change (rowsOf (Some ?r)) with (default [] (data r)).
  rewrite (addRowOptimistically_data clientSideOrderBy). simpl default.
  rewrite clientSideOrderBy_permutes.
  symmetry. apply Permutation_cons_append.
Qed.

End MoreMutationProperties.

(** ** The properties above on sample calls *)

Module MoreRuns.

(** An rpc whose settings have an empty name. *)
Definition rpcWithoutName : Args.t :=
  {| Args.mutationType := "rpc";
     Args.dataForSupabase := Some (OneRow Sample.bob);
     Args.shouldReturnRow := false;
     Args.returnImmediately := true;
     Args.optimisticRow := Some Sample.bob;
     Args.optimisticData := None;
     Args.optimisticCount := None;
     Args.customMetadata := None;
     Args.flexibleMutationSettings := None;
     Args.rpcSettings :=
       Some {| RpcSettings.rpcName := "";
               RpcSettings.optimisticOperation := Some "addRow" |} |}.

Definition renamePerson : Args.t :=
  {| Args.mutationType := "rpc";
     Args.dataForSupabase := Some (OneRow Sample.bob);
     Args.shouldReturnRow := true;
     Args.returnImmediately := false;
     Args.optimisticRow := None;
     Args.optimisticData := None;
     Args.optimisticCount := None;
     Args.customMetadata := None;
     Args.flexibleMutationSettings := None;
     Args.rpcSettings := Some Run.rpcSettings |}.

(** A mutation type [handleMutation] has no case for. *)
Definition mergeBob : Args.t :=
  {| Args.mutationType := "merge";
     Args.dataForSupabase := Some (OneRow Sample.bob);
     Args.shouldReturnRow := false;
     Args.returnImmediately := false;
     Args.optimisticRow := Some Sample.bob;
     Args.optimisticData := None;
     Args.optimisticCount := None;
     Args.customMetadata := None;
     Args.flexibleMutationSettings := None;
     Args.rpcSettings := None |}.

(** An insert with the given speculative dataset and no speculative row. *)
Definition insertOnly (optimisticData : option RowOrRows) : Args.t :=
  {| Args.mutationType := "insert";
     Args.dataForSupabase := Some (OneRow Sample.bob);
     Args.shouldReturnRow := false;
     Args.returnImmediately := false;
     Args.optimisticRow := None;
     Args.optimisticData := optimisticData;
     Args.optimisticCount := None;
     Args.customMetadata := None;
     Args.flexibleMutationSettings := None;
     Args.rpcSettings := None |}.

(** A flexible upsert that replaces the cached rows by Alice alone, with
    a count of 0. *)
Definition replaceAll : Args.t :=
  {| Args.mutationType := "flexibleMutation";
     Args.dataForSupabase := Some (OneRow Sample.bob);
     Args.shouldReturnRow := false;
     Args.returnImmediately := false;
     Args.optimisticRow := None;
     Args.optimisticData := Some (ManyRows [Sample.alice]);
     Args.optimisticCount := Some 0;
     Args.customMetadata := None;
     Args.flexibleMutationSettings :=
       Some {| FlexibleMutationSettings.tableName := "people";
               FlexibleMutationSettings.operation := "upsert";
               FlexibleMutationSettings.filters := None;
               FlexibleMutationSettings.optimisticOperation :=
                 Some "replaceData" |};
     Args.rpcSettings := None |}.

(** A validator of the optimistic settings that throws on every
    operation the selector does not know. *)
Definition validateKnownOperation (_ : option RowOrRows)
    (requestedOptimisticOperation : option string) : Completion unit :=
  match requestedOptimisticOperation with
  | Some op =>
      if knownOptimisticOperation op then Normal tt
      else Throw (Error "unknown optimistic operation")
  | None => Normal tt
  end.

(** A success callback that throws. *)
Definition throwingOnMutateSuccess : MutateResult.t -> Completion unit :=
  fun _ => Throw (Error "callback failed").

Lemma onMutateSuccess_returns : successCallbackReturns Sample.onMutateSuccess.
Proof. intros f result H. injection H as <-. reflexivity. Qed.

End MoreRuns.

Lemma X8_witness :
  exists m w,
    Run.handleMutation (MoreRuns.insertOnly None) false 0 = (Some m, w)
    /\ optimisticRowFinal m = None
    /\ uuids w = 0%nat.
Proof.
  destruct (Run.handleMutation (MoreRuns.insertOnly None) false 0)
    as [[m|] w] eqn:Hrun; [|vm_compute in Hrun; discriminate Hrun].
  destruct (X8_no_speculative_input_leaves_the_snapshot
              Sample.validateFlexibleMutationSettings
              Sample.validateDynamicOptimisticSettings Sample.getMutationPhrases
              Sample.uuidToken Sample.clientSideOrderBy (Some "exact") "id"
              Sample.byName (MoreRuns.insertOnly None) false 0%nat m w
              eq_refl eq_refl Hrun)
    as (Hrow & _ & Huuids & _).
  exists m, w. split; [reflexivity|]. split; [exact Hrow | exact Huuids].
Defined.

Lemma X11_witness :
  exists w,
    Run.handleMutation MoreRuns.rpcWithoutName false 0 = (None, w)
    /\ promise w = Rejected (Error missingRpcNameMessage)
    /\ trace w = [SetIsMutating true].
Proof.
  destruct (X11_rpc_without_name_is_rejected Sample.onMutateSuccess Sample.onError
              Sample.validateFlexibleMutationSettings
              Sample.validateDynamicOptimisticSettings Sample.getMutationPhrases
              Sample.uuidToken MoreRuns.rpcWithoutName false 0%nat
              eq_refl eq_refl)
    as (w & Hrun & Hpromise & Htrace & _).
  exists w. split; [exact Hrun|]. split; [exact Hpromise | exact Htrace].
Defined.

Lemma X12_witness :
  exists w,
    Run.lifecycle MoreRuns.mergeBob false 0 (Normal None) = w
    /\ promise w = Rejected (Error invalidOperationMessage)
    /\ trace w = [SetIsMutating true].
Proof.
  destruct (X12_unknown_mutation_type Sample.onMutateSuccess Sample.onError
              Sample.validateFlexibleMutationSettings
              Sample.validateDynamicOptimisticSettings Sample.getMutationPhrases
              Sample.uuidToken MoreRuns.mergeBob false 0%nat
              eq_refl (or_intror eq_refl) eq_refl)
    as (w & _ & Hall & Hpromise & Htrace).
  exists w. split; [apply Hall|]. split; [exact Hpromise | exact Htrace].
Defined.

(** X13 with a validator that throws on the unknown operation. *)
Lemma X13_witness :
  exists w,
    handleMutation Sample.validateFlexibleMutationSettings
      MoreRuns.validateKnownOperation Sample.getMutationPhrases Sample.uuidToken
      (Run.upsertBob (Some "mergeRow")) false 0 = (None, w)
    /\ promise w = Rejected (Error "unknown optimistic operation")
    /\ trace w = [SetIsMutating true].
Proof.
  assert (Hne : "mergeRow" <> "") by discriminate.
  destruct (X13_unknown_optimistic_operation Sample.onMutateSuccess Sample.onError
              Sample.validateFlexibleMutationSettings
              MoreRuns.validateKnownOperation Sample.getMutationPhrases
              Sample.uuidToken (Run.upsertBob (Some "mergeRow")) false 0%nat
              "mergeRow" eq_refl Hne eq_refl)
    as (w & Hrun & _ & _ & _ & Hthrown).
  destruct (Hthrown (Error "unknown optimistic operation") eq_refl)
    as (Hpromise & Htrace & _).
  exists w. split; [exact Hrun|]. split; [exact Hpromise | exact Htrace].
Defined.

Lemma X14_witness :
  exists m w w',
    Run.handleMutation (Run.insertBob false) false 0 = (Some m, w)
    /\ settle Sample.onMutateSuccess Sample.onError m
         (Normal (Some Sample.twoRows)) w = (Normal tt, w')
    /\ promise w' = Fulfilled (successEnvelope m (Some Sample.twoRows))
    /\ MutateResult.data (successEnvelope m (Some Sample.twoRows))
       = Some [Sample.alice; Sample.carol]
    /\ MutateResult.optimisticData (successEnvelope m (Some Sample.twoRows))
       = Some (OneRow (stamp Sample.bob "uuid-0")).
Proof.
  destruct (Run.handleMutation (Run.insertBob false) false 0)
    as [[m|] w] eqn:Hrun; [|vm_compute in Hrun; discriminate Hrun].
  destruct (X14_success_is_reported_then_resolved
              Sample.onMutateSuccess Sample.onError
              Sample.validateFlexibleMutationSettings
              Sample.validateDynamicOptimisticSettings Sample.getMutationPhrases
              Sample.uuidToken (Run.insertBob false) false 0%nat m w
              (Some Sample.twoRows) Hrun MoreRuns.onMutateSuccess_returns)
    as ([Hdata _] & Hecho & _ & _ & _ & w' & Hsettle & _ & Hpromise).
  exists m, w, w'. split; [reflexivity|]. split; [exact Hsettle|].
  split; [exact Hpromise|]. split; [exact Hdata | exact Hecho].
Defined.

Lemma X15_witness :
  exists m w w',
    Run.handleMutation (Run.insertBob false) false 0 = (Some m, w)
    /\ settle (Some MoreRuns.throwingOnMutateSuccess) Sample.onError m
         (Normal None) w = (Normal tt, w')
    /\ promise w' = Fulfilled (errorEnvelope m (Error "callback failed"))
    /\ MutateResult.status (errorEnvelope m (Error "callback failed")) = "error".
Proof.
  destruct (Run.handleMutation (Run.insertBob false) false 0)
    as [[m|] w] eqn:Hrun; [|vm_compute in Hrun; discriminate Hrun].
  destruct (X15_throwing_success_callback_is_reported_as_error
              (Some MoreRuns.throwingOnMutateSuccess) Sample.onError
              Sample.validateFlexibleMutationSettings
              Sample.validateDynamicOptimisticSettings Sample.getMutationPhrases
              Sample.uuidToken (Run.insertBob false) false 0%nat m w None
              MoreRuns.throwingOnMutateSuccess (Error "callback failed")
              Hrun eq_refl eq_refl Run.onError_returns)
    as (w' & Hsettle & _ & Hpromise & Hstatus & _).
  exists m, w, w'. split; [reflexivity|]. split; [exact Hsettle|].
  split; [exact Hpromise | exact Hstatus].
Defined.

Lemma X16_witness :
  exists m m' w w',
    Run.handleMutation (Run.insertBob false) false 0 = (Some m, w)
    /\ Run.handleMutation (Run.insertBob true) true 1 = (Some m', w')
    /\ uuids w = 1%nat
    /\ uuids w' = 2%nat
    /\ Js.get (stamp Sample.bob "uuid-0") "optimisticId" = Js.Str "uuid-0"
    /\ Js.get (stamp Sample.bob "uuid-1") "optimisticId" = Js.Str "uuid-1".
Proof.
  destruct (Run.handleMutation (Run.insertBob false) false 0)
    as [[m|] w] eqn:Hrun; [|vm_compute in Hrun; discriminate Hrun].
  assert (Hrow : optimisticRowFinal m = Some (stamp Sample.bob "uuid-0")).
  { vm_compute in Hrun. injection Hrun as <- _. reflexivity. }
  assert (Hstate : isMutating w = true /\ uuids w = 1%nat).
  { vm_compute in Hrun. injection Hrun as _ <-. split; reflexivity. }
  destruct Hstate as [Hmutating Hdrawn].
  destruct (Run.handleMutation (Run.insertBob true) (isMutating w) (uuids w))
    as [[m'|] w'] eqn:Hrun';
    [|rewrite Hmutating, Hdrawn in Hrun'; vm_compute in Hrun'; discriminate Hrun'].
  assert (Hrow' : optimisticRowFinal m' = Some (stamp Sample.bob "uuid-1")).
  { rewrite Hmutating, Hdrawn in Hrun'. vm_compute in Hrun'.
    injection Hrun' as <- _. reflexivity. }
  destruct (X16_consecutive_calls_use_consecutive_tokens
              Sample.validateFlexibleMutationSettings
              Sample.validateDynamicOptimisticSettings Sample.getMutationPhrases
              Sample.uuidToken (Run.insertBob false) (Run.insertBob true)
              false 0%nat m m' w w'
              (stamp Sample.bob "uuid-0") (stamp Sample.bob "uuid-1")
              Hrun Hrow Hrun' Hrow')
    as (Huuids & Huuids' & Hid & Hid' & _).
  rewrite Hmutating, Hdrawn in Hrun'.
  exists m, m', w, w'. split; [reflexivity|]. split; [exact Hrun'|].
  split; [exact Huuids|]. split; [exact Huuids'|]. split; [exact Hid | exact Hid'].
Defined.

Lemma X17_witness :
  exists m w before call,
    Run.handleMutation
      (MoreRuns.insertOnly (Some (ManyRows [Sample.alice]))) false 0
    = (Some m, w)
    /\ trace w = before ++ [CallMutator call; Mutate fnReturnUnchangedData None]
    /\ uuids w = 0%nat
    /\ MutateResult.optimisticData (successEnvelope m None)
       = Some (ManyRows [Sample.alice]).
Proof.
  destruct (X17_array_dataset_is_ignored_by_row_mutations
              Sample.validateFlexibleMutationSettings
              Sample.validateDynamicOptimisticSettings Sample.getMutationPhrases
              Sample.uuidToken Sample.clientSideOrderBy (Some "exact") "id"
              Sample.byName
              (MoreRuns.insertOnly (Some (ManyRows [Sample.alice]))) false 0%nat
              [Sample.alice] (or_introl eq_refl) eq_refl eq_refl)
    as (m & w & before & call & Hrun & Htrace & _ & Huuids & _ & Hecho & _).
  exists m, w, before, call. split; [exact Hrun|]. split; [exact Htrace|].
  split; [exact Huuids | apply Hecho].
Defined.

Lemma X18_witness :
  exists m w before,
    Run.handleMutation (Sample.deleteArgs Sample.alice) false 0 = (Some m, w)
    /\ trace w =
         before
         ++ [CallMutator (deleteRowMutator (Some (OneRow Sample.alice)) false);
             Mutate fnDeleteRowOptimistically
               (Some (stamp Sample.alice "uuid-0"))].
Proof.
  destruct (X18_row_mutations_reach_mutate
              Sample.validateFlexibleMutationSettings
              Sample.validateDynamicOptimisticSettings Sample.getMutationPhrases
              Sample.uuidToken (Sample.deleteArgs Sample.alice) false 0%nat
              deleteRowMutator fnDeleteRowOptimistically
              (or_intror (or_intror (conj eq_refl (conj eq_refl eq_refl))))
              (or_intror eq_refl))
    as (m & w & before & Hrun & _ & Htrace & _).
  exists m, w, before. split; [exact Hrun | exact Htrace].
Defined.

Lemma X19_witness :
  exists m w before optimisticFunc,
    Run.handleMutation MoreRuns.renamePerson false 0 = (Some m, w)
    /\ trace w =
         before
         ++ [CallMutator (runRpc "rename_person" (Some (OneRow Sample.bob)));
             Mutate optimisticFunc (optimisticRowFinal m)].
Proof.
  destruct (Run.handleMutation MoreRuns.renamePerson false 0)
    as [[m|] w] eqn:Hrun; [|vm_compute in Hrun; discriminate Hrun].
  destruct (X19_settings_reach_the_mutator
              Sample.validateFlexibleMutationSettings
              Sample.validateDynamicOptimisticSettings Sample.getMutationPhrases
              Sample.uuidToken MoreRuns.renamePerson false 0%nat m w Hrun)
    as [_ Hrpc].
  destruct (Hrpc eq_refl) as (settings & before & fn & Hsettings & _ & Htrace).
  injection Hsettings as <-.
  exists m, w, before, fn. split; [reflexivity | exact Htrace].
Defined.

Lemma X20_witness :
  exists m w before call optimisticFunc result,
    Run.handleMutation MoreRuns.replaceAll false 0 = (Some m, w)
    /\ trace w = before ++ [CallMutator call; Mutate optimisticFunc None]
    /\ callOptimisticFunc Sample.clientSideOrderBy (Some "exact") "id"
         Sample.byName optimisticFunc (Some Sample.twoRows) None
       = Some (Normal result)
    /\ data result = Some [Sample.alice]
    /\ count result = None.
Proof.
  destruct (X20_replaceData_replaces_every_snapshot
              Sample.validateFlexibleMutationSettings
              Sample.validateDynamicOptimisticSettings Sample.getMutationPhrases
              Sample.uuidToken Sample.clientSideOrderBy (Some "exact") "id"
              Sample.byName MoreRuns.replaceAll false 0%nat [Sample.alice]
              eq_refl eq_refl eq_refl eq_refl)
    as (m & w & before & call & fn & Hrun & Htrace & _ & Hproducer).
  destruct (Hproducer (Some Sample.twoRows)) as (result & Hcall & Hdata & Hcount).
  exists m, w, before, call, fn, result.
  split; [exact Hrun|]. split; [exact Htrace|]. split; [exact Hcall|].
  split; [exact Hdata | exact Hcount].
Defined.

Lemma X21_witness :
  exists m w before speculative result,
    Run.handleMutation (Run.insertBob false) false 0 = (Some m, w)
    /\ trace w =
         before
         ++ [CallMutator (addRowMutator (Some (OneRow Sample.bob)) true);
             Mutate fnAddRowOptimistically (Some speculative)]
    /\ Js.get speculative "name" = Js.Str "Bob"
    /\ callOptimisticFunc Sample.clientSideOrderBy (Some "exact") "id"
         Sample.byName fnAddRowOptimistically (Some Sample.twoRows)
         (Some speculative)
       = Some (Normal result)
    /\ Permutation (rowsOf (Some result))
         (speculative :: [Sample.alice; Sample.carol]).
Proof.
  assert (Hname : "name" <> "optimisticId") by discriminate.
  assert (Hname' : "name" <> "isOptimistic") by discriminate.
  destruct (X21_insert_adds_the_stamped_row
              Sample.validateFlexibleMutationSettings
              Sample.validateDynamicOptimisticSettings Sample.getMutationPhrases
              Sample.uuidToken Sample.clientSideOrderBy (Some "exact") "id"
              Sample.byName Sample.clientSideOrderBy_permutes
              (Run.insertBob false) false 0%nat Sample.bob
              eq_refl eq_refl eq_refl)
    as (m & w & before & speculative & Hrun & Htrace & _ & _ & Hother & Hproducer).
  destruct (Hproducer (Some Sample.twoRows)) as (result & Hcall & Hperm).
  exists m, w, before, speculative, result.
  split; [exact Hrun|]. split; [exact Htrace|].
  split; [rewrite (Hother "name" Hname Hname'); reflexivity|].
  split; [exact Hcall | exact Hperm].
Defined.
